(** * AI-tool platform: policies, login flow, moderation, ratings and cache

    A shallow embedding of the application logic of the dashboard
    (React client, Supabase store, two Deno edge functions) and the
    properties of it that the specification states.

    Conventions.
    - Strings are [string]; uuids are strings.
    - [Date.now()] is an explicit argument [now : Z] (milliseconds).
    - A nullable TypeScript value [T | null] is an [option T].
    - Remote calls (the hosted auth provider, the database, the edge
      functions) are modelled by functions over an explicit store; where
      a call can fail for reasons outside the program, the outcome is an
      explicit argument of the handler that makes the call. *)

From stdpp Require Import base option list gmap strings.
From Stdlib Require Import Ascii ZArith QArith Qround Lia.

#[local] Open Scope Z_scope.

(** ** TTL cache ([src/hooks/useCache.ts], class [SimpleCache]) *)

Module SimpleCache.

(** [interface CacheEntry<T>] *)
Record CacheEntry (T : Type) := mkEntry {
  data : T;
  timestamp : Z;
  ttl : Z
}.
Arguments mkEntry {T} _ _ _.
Arguments data {T} _.
Arguments timestamp {T} _.
Arguments ttl {T} _.

Section WithData.
Context {T : Type}.

(** [set(key, data, ttlSeconds = 300)]: [private cache] is a
    [Map<string, CacheEntry<any>>], here a [gmap]. *)
Definition set (key : string) (d : T) (ttlSeconds : Z) (now : Z)
    (cache : gmap string (CacheEntry T)) : gmap string (CacheEntry T) :=
  <[key := {| data := d; timestamp := now; ttl := ttlSeconds * 1000 |}]> cache.

(** [get(key)]: the returned value ([None] is [null]) and the map after
    the call. *)
Definition get (key : string) (now : Z) (cache : gmap string (CacheEntry T))
    : option T * gmap string (CacheEntry T) :=
  match cache !! key with
  | None => (None, cache)
  | Some entry =>
      if now - timestamp entry >? ttl entry
      then (None, base.delete key cache)
      else (Some (data entry), cache)
  end.

(** [delete(key)] *)
Definition delete (key : string) (cache : gmap string (CacheEntry T))
    : gmap string (CacheEntry T) :=
  base.delete key cache.

(** [clear()] *)
Definition clear (cache : gmap string (CacheEntry T))
    : gmap string (CacheEntry T) := ∅.

(** [has(key)] *)
Definition has (key : string) (now : Z) (cache : gmap string (CacheEntry T))
    : bool * gmap string (CacheEntry T) :=
  match cache !! key with
  | None => (false, cache)
  | Some entry =>
      if now - timestamp entry >? ttl entry
      then (false, base.delete key cache)
      else (true, cache)
  end.

End WithData.

End SimpleCache.

(** ** Data model ([src/lib/supabase.ts] and the SQL migrations) *)

(** [Profile.role]; also the CHECK constraint of [tool_roles.role]. *)
Inductive Role := owner | backend | frontend | pm | qa | designer.

(** [ai_tools.status], [CHECK (status IN ('pending','approved','rejected'))]. *)
Inductive ToolStatus := pending | approved | rejected.

#[global] Instance Role_eq_dec : EqDecision Role.
Proof. solve_decision. Defined.

#[global] Instance ToolStatus_eq_dec : EqDecision ToolStatus.
Proof. solve_decision. Defined.

(** [interface Profile] (timestamps left out). *)
Record Profile := mkProfile {
  profile_id : string;
  profile_email : string;
  full_name : string;
  role : Role;
  two_factor_enabled : bool
}.

(** A user of the hosted auth provider ([auth.users]), with the secret the
    provider checks. *)
Record AuthUser := mkAuthUser {
  au_id : string;
  au_email : string;
  au_password : string
}.

(** The [User] object the client library hands to the application. *)
Record User := mkUser {
  user_id : string;
  user_email : string
}.

(** The [Session] object: the application only reads [session.user]. *)
Record Session := mkSession {
  session_user : User
}.

(** [interface AITool]: the columns the approval workflow and the visibility
    policy read or write. [created_by] and [approved_by] are nullable
    foreign keys ([ON DELETE SET NULL]). *)
Record AITool := mkTool {
  tool_id : string;
  tool_name : string;
  created_by : option string;
  status : ToolStatus;
  approved_by : option string;
  approved_at : option Z;
  rejection_reason : option string
}.

#[global] Instance AITool_eq_dec : EqDecision AITool.
Proof. solve_decision. Defined.

(** A row of [tool_ratings]: [id] is the primary key, [(tool_id, user_id)]
    carries a UNIQUE constraint, [rating] a CHECK between 1 and 5. *)
Record ToolRating := mkRating {
  rating_id : string;
  rating_tool_id : string;
  rating_user_id : string;
  rating : Z
}.

(** JSON values stored in [activity_logs.details]. *)
Inductive Json :=
| JNull
| JBool (b : bool)
| JNum (z : Z)
| JStr (s : string).

(** [type ActivityAction] and the CHECK constraint
    [activity_logs_action_check]. *)
Inductive ActivityAction :=
| login | logout
| create_tool | update_tool | delete_tool
| approve_tool | reject_tool
| enable_2fa | disable_2fa
| create_category | update_category | delete_category.

(** [type ResourceType]; kept in a module of its own because [profile] is
    also a field of the auth context. *)
Module ResourceType.
Inductive t := auth | ai_tool | category | profile | system.
End ResourceType.

#[global] Instance ActivityAction_eq_dec : EqDecision ActivityAction.
Proof. solve_decision. Defined.

(** A row of [activity_logs]. *)
Record ActivityLog := mkLog {
  log_user_id : option string;
  action : ActivityAction;
  resource_type : ResourceType.t;
  resource_id : option string;
  details : list (string * Json);
  user_agent : option string
}.

(** The tables of the store the claims are about. *)
Record Database := mkDb {
  auth_users : list AuthUser;
  profiles : list Profile;
  ai_tools : list AITool;
  tool_ratings : list ToolRating;
  activity_logs : list ActivityLog
}.

Definition set_auth_users (us : list AuthUser) (db : Database) : Database :=
  mkDb us (profiles db) (ai_tools db) (tool_ratings db) (activity_logs db).

Definition set_ai_tools (ts : list AITool) (db : Database) : Database :=
  mkDb (auth_users db) (profiles db) ts (tool_ratings db) (activity_logs db).

Definition set_tool_ratings (rs : list ToolRating) (db : Database) : Database :=
  mkDb (auth_users db) (profiles db) (ai_tools db) rs (activity_logs db).

Definition set_activity_logs (ls : list ActivityLog) (db : Database) : Database :=
  mkDb (auth_users db) (profiles db) (ai_tools db) (tool_ratings db) ls.

(** The error objects the client sees: only [message] is ever read. *)
Record Error := mkError { message : string }.

(** ** Row-level security predicates shared by the policies

    [EXISTS (SELECT 1 FROM profiles WHERE profiles.id = auth.uid()
             AND profiles.role = 'owner')] *)
Definition is_owner (db : Database) (uid : string) : bool :=
  existsb (fun p => bool_decide (profile_id p = uid) && bool_decide (role p = owner))
          (profiles db).

(** ** Activity logger ([useActivityLogger], in [src/hooks/useRoleProtection.tsx]) *)

Module ActivityLogger.

(** [interface LogActivityParams] *)
Record LogActivityParams := mkParams {
  p_action : ActivityAction;
  p_resourceType : ResourceType.t;
  p_resourceId : option string;
  p_details : list (string * Json)
}.

(** [logActivity]. [supabase] tells whether the client was created, [user]
    is the signed-in user of the auth context, [insert_error] whether the
    store answers the insert with an error (it is then thrown, caught and
    only printed). The spread [...details] comes last in the object. *)
Definition logActivity (supabase : bool) (user : option User) (now : Z)
    (userAgent : string) (insert_error : bool) (p : LogActivityParams)
    (db : Database) : Database :=
  match user with
  | None => db
  | Some u =>
      if negb supabase then db
      else
        let activityDetails :=
          [("timestamp"%string, JNum now); ("user_id"%string, JStr (user_id u))]
            ++ p_details p in
        if insert_error then db
        else set_activity_logs
               (activity_logs db ++
                  [ {| log_user_id := Some (user_id u);
                       action := p_action p;
                       resource_type := p_resourceType p;
                       resource_id := p_resourceId p;
                       details := activityDetails;
                       user_agent := Some userAgent |} ])
               db
  end.

End ActivityLogger.

(** ** Client state and the hosted auth provider *)

(** The state of [AuthProvider] ([useState] cells). *)
Record AuthState := mkAuthState {
  session : option Session;
  user : option User;
  profile : option Profile;
  loading : bool
}.

(** Everything a handler can read or change: the store, whether the
    Supabase client exists ([supabase] is [null] without the environment
    variables), the auth context, the cache singleton, and the side
    channel on which two-factor codes are shown (the console), as pairs
    of an email and a code. *)
Record World := mkWorld {
  db : Database;
  supabase : bool;
  auth_state : AuthState;
  cache : gmap string (SimpleCache.CacheEntry Json);
  side_channel : list (string * string)
}.

Definition set_db (d : Database) (w : World) : World :=
  mkWorld d (supabase w) (auth_state w) (cache w) (side_channel w).

Definition set_auth_state (a : AuthState) (w : World) : World :=
  mkWorld (db w) (supabase w) a (cache w) (side_channel w).

Definition set_cache (c : gmap string (SimpleCache.CacheEntry Json)) (w : World)
    : World :=
  mkWorld (db w) (supabase w) (auth_state w) c (side_channel w).

Definition show_code (email code : string) (w : World) : World :=
  mkWorld (db w) (supabase w) (auth_state w) (cache w)
          (side_channel w ++ [(email, code)]).

Definition setSession (s : option Session) (a : AuthState) : AuthState :=
  mkAuthState s (user a) (profile a) (loading a).

Definition setUser (u : option User) (a : AuthState) : AuthState :=
  mkAuthState (session a) u (profile a) (loading a).

Definition setProfile (p : option Profile) (a : AuthState) : AuthState :=
  mkAuthState (session a) (user a) p (loading a).

Definition setLoading (b : bool) (a : AuthState) : AuthState :=
  mkAuthState (session a) (user a) (profile a) b.

(** [.maybeSingle()]: the row when exactly one matches, [null] when none
    does, an error (and no data) when several do. *)
Inductive MaybeSingle (A : Type) :=
| NoRow
| OneRow (row : A)
| ManyRows.
Arguments NoRow {A}.
Arguments OneRow {A} _.
Arguments ManyRows {A}.

Definition maybeSingle {A : Type} (rows : list A) : MaybeSingle A :=
  match rows with
  | [] => NoRow
  | [r] => OneRow r
  | _ => ManyRows
  end.

(** The [data] of a [maybeSingle] answer. *)
Definition single_data {A : Type} (m : MaybeSingle A) : option A :=
  match m with
  | OneRow r => Some r
  | _ => None
  end.

(** What a query of the client can meet outside the program: an answer
    computed from the store, an answer that carries an [error] and no
    data (the request or the store failed), or an exception. *)
Inductive QueryOutcome :=
| Answered
| AnsweredError
| Thrown.

Module AuthProvider.

Definition invalid_login_credentials : Error :=
  mkError "Invalid login credentials".

Definition to_user (a : AuthUser) : User := mkUser (au_id a) (au_email a).

(** [supabase.auth.signInWithPassword({email, password})]: the provider
    looks the account up by email and compares the password. *)
Definition signInWithPassword (d : Database) (email password : string)
    : Error + AuthUser :=
  match find (fun a => bool_decide (au_email a = email)) (auth_users d) with
  | Some a =>
      if bool_decide (au_password a = password) then inr a
      else inl invalid_login_credentials
  | None => inl invalid_login_credentials
  end.

(** What [supabase.auth.signOut()] can do. *)
Inductive SignOutOutcome :=
| SignOutOk
| SignOutError (e : Error)
| SignOutThrows.

End AuthProvider.

(** ** Edge functions ([verify-2fa] and [send-2fa-code]) *)

Module EdgeFunctions.

(** The three JSON bodies [verify-2fa] answers with: [{error}],
    [{success: false, error}] and [{success: true, tempPassword, message}].
    Only the last has a truthy [success]. *)
Inductive Verify2faBody :=
| BodyError (error : string)
| BodyFailure (error : string)
| BodySuccess (tempPassword : string) (message : string).

Record Response (B : Type) := mkResponse {
  resp_status : Z;
  resp_body : B
}.
Arguments mkResponse {B} _ _.
Arguments resp_status {B} _.
Arguments resp_body {B} _.

(** What lies outside the program during one verification. On the side
    of the function: what its admin API calls answer, and the temporary
    password it makes up ([temp_<Date.now()>_<random>]). On the side of
    the client, after the function has run: [invoke_error], when the
    answer does not arrive and [functions.invoke] resolves with an error
    and no data; [signIn_error], when the provider answers the sign-in
    that follows with an error of its own (the network, a rate limit);
    and what the profile query of the auth listener meets. (A call that
    never reaches the function resolves with an error and leaves the
    store alone, as an answer outside 200..299 does.) *)
Record Verify2faEnv := mkVerifyEnv {
  listUsers_error : option string;
  updateUserById_error : option string;
  temp_password : string;
  invoke_error : option Error;
  signIn_error : option Error;
  listener_fetch : QueryOutcome
}.

Definition is_digit (c : ascii) : bool :=
  ((48 <=? nat_of_ascii c) && (nat_of_ascii c <=? 57))%nat.

(** [/^\d{6}$/.test(code)] *)
Definition test_six_digits (code : string) : bool :=
  match String.list_ascii_of_string code with
  | [a; b; c; d; e; f] => forallb is_digit [a; b; c; d; e; f]
  | _ => false
  end.

(** [code.length !== 6 || !/^\d{6}$/.test(code)]. A string that passes
    the regular expression has six ASCII characters, so counting bytes
    here and UTF-16 units there gives the same verdict. *)
Definition malformed_code (code : string) : bool :=
  negb (String.length code =? 6)%nat || negb (test_six_digits code).

Definition set_password (uid pw : string) (a : AuthUser) : AuthUser :=
  if bool_decide (au_id a = uid) then mkAuthUser (au_id a) (au_email a) pw else a.

(** The handler given to [serve] in [verify-2fa], for a POST request with
    body [{email, code}]. There is no stored code to compare with. *)
Definition verify_2fa (env : Verify2faEnv) (email code : string) (d : Database)
    : Response Verify2faBody * Database :=
  if bool_decide (email = ""%string) || bool_decide (code = ""%string)
  then (mkResponse 400 (BodyError "Email and code are required"), d)
  else if malformed_code code
  then (mkResponse 400 (BodyFailure "Невалиден код"), d)
  else
    match listUsers_error env with
    | Some m => (mkResponse 500 (BodyError m), d)
    | None =>
        match find (fun a => bool_decide (au_email a = email)) (auth_users d) with
        | None => (mkResponse 404 (BodyFailure "Потребителят не е намерен"), d)
        | Some u =>
            match updateUserById_error env with
            | Some m => (mkResponse 500 (BodyError m), d)
            | None =>
                (mkResponse 200
                   (BodySuccess (temp_password env) "Кодът е потвърден успешно"),
                 set_auth_users
                   (map (set_password (au_id u) (temp_password env)) (auth_users d))
                   d)
            end
        end
    end.

(** The handler of [send-2fa-code] for a POST request with body [{email}]:
    [code] is [Math.floor(100000 + Math.random() * 900000).toString()]. It
    is printed and returned, and stored nowhere; [Some code] is a 200
    answer, [None] the 400 one. *)
Definition send_2fa_code (code : string) (email : string)
    : Response (option string) :=
  if bool_decide (email = ""%string)
  then mkResponse 400 None
  else mkResponse 200 (Some code).

(** [supabase.functions.invoke]: an answer outside 200..299 comes back as
    an error without data. *)
Definition invoke {B : Type} (r : Response B) : Error + B :=
  if (200 <=? resp_status r) && (resp_status r <? 300)
  then inr (resp_body r)
  else inl (mkError "Edge Function returned a non-2xx status code").

End EdgeFunctions.

(** ** Auth context ([src/contexts/AuthContext.tsx]) *)

Module AuthContext.

(** The [{ error }] object every operation resolves with. *)
Record Result := mkResult { error : option Error }.

Definition not_configured : Error :=
  mkError "Supabase not configured. Please set up your environment variables.".

(** [fetchProfile(userId)]: [profiles.select('*').eq('id', userId).maybeSingle()];
    [o] is what the query meets. On an error (one the answer carries,
    which several matching rows give too, or an exception) the profile is
    left as it was; [finally] resets [loading]. *)
Definition fetchProfile (o : QueryOutcome) (userId : string) (w : World) : World :=
  if negb (supabase w) then w
  else
    let a := auth_state w in
    match o with
    | Answered =>
        match maybeSingle
                (List.filter (fun p => bool_decide (profile_id p = userId))
                             (profiles (db w))) with
        | ManyRows => set_auth_state (setLoading false a) w
        | m => set_auth_state (setLoading false (setProfile (single_data m) a)) w
        end
    | AnsweredError | Thrown => set_auth_state (setLoading false a) w
    end.

(** The callback given to [supabase.auth.onAuthStateChange]: the client
    library calls it whenever a session is established or dropped; [o] is
    what the profile query it starts meets. *)
Definition auth_listener (o : QueryOutcome) (s : option Session) (w : World)
    : World :=
  let a := setUser (session_user <$> s) (setSession s (auth_state w)) in
  match s with
  | Some se => fetchProfile o (user_id (session_user se)) (set_auth_state a w)
  | None => set_auth_state (setLoading false (setProfile None a)) w
  end.

(** What lies outside the program during one [signIn]: the clock, the
    browser, the random code, whether a remote call throws or the log
    insert is refused, whether the profile query is answered with an
    error and no data ([profileError], which is never read), and what
    the profile query of the auth listener meets. *)
Record SignInEnv := mkSignInEnv {
  env_now : Z;
  env_userAgent : string;
  env_code : string;
  auth_throws : bool;
  profile_throws : bool;
  log_insert_fails : bool;
  profile_error : bool;
  listener_fetch : QueryOutcome
}.

Definition login_entry (env : SignInEnv) (uid email : string) (has_2fa : bool)
    : ActivityLog :=
  {| log_user_id := Some uid;
     action := login;
     resource_type := ResourceType.auth;
     resource_id := None;
     details := [("email"%string, JStr email);
                 ("login_time"%string, JNum (env_now env));
                 ("has_2fa"%string, JBool has_2fa);
                 ("user_agent"%string, JStr (env_userAgent env))];
     user_agent := Some (env_userAgent env) |}.

(** [signIn(email, password)] *)
Definition signIn (env : SignInEnv) (email password : string) (w : World)
    : Result * World :=
  if negb (supabase w) then (mkResult (Some not_configured), w)
  else
    let w := set_auth_state (setLoading true (auth_state w)) w in
    let caught (w : World) :=
      (mkResult (Some (mkError "Грешка при влизане")),
       set_auth_state (setLoading false (auth_state w)) w) in
    if auth_throws env then caught w
    else
      match AuthProvider.signInWithPassword (db w) email password with
      | inl authError =>
          (mkResult (Some authError),
           set_auth_state (setLoading false (auth_state w)) w)
      | inr au =>
          (* no error: [authData.user] is set, and the provider has opened
             the session, so the listener runs *)
          let w := auth_listener (listener_fetch env)
                     (Some (mkSession (AuthProvider.to_user au))) w in
          if profile_throws env then caught w
          else
            let profileData :=
              if profile_error env then None
              else
                single_data
                  (maybeSingle
                     (List.filter (fun p => bool_decide (profile_email p = email))
                                  (profiles (db w)))) in
            let has_2fa :=
              match profileData with
              | Some p => two_factor_enabled p
              | None => false
              end in
            let w := if has_2fa then show_code email (env_code env) w else w in
            let w :=
              if log_insert_fails env then w
              else set_db
                     (set_activity_logs
                        (activity_logs (db w) ++
                           [login_entry env (au_id au) email has_2fa])
                        (db w))
                     w in
            (mkResult None, set_auth_state (setLoading false (auth_state w)) w)
      end.

(** [verifyTwoFactor(email, code)]: [error || !data.success] stops the
    call; [data.success] is truthy for the success body only. The
    sign-in with the temporary password can fail, by the provider's
    check or for a reason outside ([signIn_error]); its error is what
    the call resolves with, and by then the function has done its work. *)
Definition verifyTwoFactor (env : EdgeFunctions.Verify2faEnv)
    (email code : string) (w : World) : Result * World :=
  if negb (supabase w) then (mkResult (Some not_configured), w)
  else
    let w := set_auth_state (setLoading true (auth_state w)) w in
    let '(resp, d) := EdgeFunctions.verify_2fa env email code (db w) in
    let w := set_db d w in
    let stop (e : Error) :=
      (mkResult (Some e), set_auth_state (setLoading false (auth_state w)) w) in
    let answer :=
      match EdgeFunctions.invoke_error env with
      | Some e => inl e
      | None => EdgeFunctions.invoke resp
      end in
    match answer with
    | inl e => stop e
    | inr (EdgeFunctions.BodySuccess tempPassword _) =>
        match EdgeFunctions.signIn_error env with
        | Some signInError => stop signInError
        | None =>
            match AuthProvider.signInWithPassword (db w) email tempPassword with
            | inl signInError => stop signInError
            | inr au =>
                let w := auth_listener (EdgeFunctions.listener_fetch env)
                           (Some (mkSession (AuthProvider.to_user au))) w in
                (mkResult None, set_auth_state (setLoading false (auth_state w)) w)
            end
        end
    | inr _ => stop (mkError "Невалиден код")
    end.

(** [resendTwoFactorCode(email)]; [code] is the one the function draws. *)
Definition resendTwoFactorCode (code : string) (email : string) (w : World)
    : Result * World :=
  if negb (supabase w) then (mkResult (Some not_configured), w)
  else
    match EdgeFunctions.invoke (EdgeFunctions.send_2fa_code code email) with
    | inl e => (mkResult (Some e), w)
    | inr _ => (mkResult None, show_code email code w)
    end.

(** [String.prototype.includes] *)
Definition includes (s pat : string) : bool :=
  match String.index 0 pat s with
  | Some _ => true
  | None => false
  end.

(** [signOut()] *)
Definition signOut (o : AuthProvider.SignOutOutcome) (w : World)
    : Result * World :=
  if negb (supabase w) then (mkResult None, w)
  else
    (* clearAll(), then the three setters *)
    let w := set_cache (SimpleCache.clear (cache w)) w in
    let w :=
      set_auth_state
        (setProfile None (setUser None (setSession None (auth_state w)))) w in
    match o with
    | AuthProvider.SignOutOk => (mkResult None, auth_listener Answered None w)
    | AuthProvider.SignOutError e =>
        if includes (message e) "Session from session_id claim in JWT does not exist"
           || includes (message e) "session_not_found"
        then (mkResult None, w)
        else (mkResult None, w)
    | AuthProvider.SignOutThrows => (mkResult None, w)
    end.

End AuthContext.

(** ** Login form ([LoginForm], [src/unnamed/part_000]) *)

Module LoginForm.

Inductive Toast :=
| SuccessToast (msg : string)
| ErrorToast (msg : string).

(** The [useState] cells of the form, and the toasts it has shown. *)
Record Form := mkForm {
  email : string;
  password : string;
  twoFactorCode : string;
  showTwoFactor : bool;
  twoFactorEmail : string;
  toasts : list Toast
}.

Definition initial : Form := mkForm "" "" "" false "" [].

Definition toast (t : Toast) (f : Form) : Form :=
  mkForm (email f) (password f) (twoFactorCode f) (showTwoFactor f)
         (twoFactorEmail f) (toasts f ++ [t]).

(** [handleSubmit] *)
Definition handleSubmit (env : AuthContext.SignInEnv) (w : World) (f : Form)
    : World * Form :=
  if negb (supabase w)
  then (w, toast (ErrorToast
                    "Системата не е конфигурирана. Моля, свържете се с администратор.") f)
  else
    let '(r, w') := AuthContext.signIn env (email f) (password f) w in
    match AuthContext.error r with
    | Some e =>
        if bool_decide (message e = "TWO_FACTOR_REQUIRED"%string)
        then (w', toast (SuccessToast "Код за потвърждение е изпратен на вашия email")
                        (mkForm "" "" (twoFactorCode f) true (email f) (toasts f)))
        else (w', toast (ErrorToast "Грешен email или парола") f)
    | None =>
        (* Successful login without 2FA *)
        (w', toast (SuccessToast "Успешен вход в системата")
                   (mkForm "" "" (twoFactorCode f) (showTwoFactor f)
                           (twoFactorEmail f) (toasts f)))
    end.

(** The [onChange] of the code field:
    [e.target.value.replace(/\D/g, '').slice(0, 6)] *)
Definition setTwoFactorCode (value : string) (f : Form) : Form :=
  mkForm (email f) (password f)
         (String.string_of_list_ascii
            (take 6 (List.filter EdgeFunctions.is_digit
                                 (String.list_ascii_of_string value))))
         (showTwoFactor f) (twoFactorEmail f) (toasts f).

(** [handleTwoFactorSubmit] *)
Definition handleTwoFactorSubmit (env : EdgeFunctions.Verify2faEnv)
    (w : World) (f : Form) : World * Form :=
  let '(r, w') :=
    AuthContext.verifyTwoFactor env (twoFactorEmail f) (twoFactorCode f) w in
  match AuthContext.error r with
  | Some _ => (w', toast (ErrorToast "Невалиден код за потвърждение") f)
  | None => (w', f)
  end.

(** [handleResendCode] *)
Definition handleResendCode (code : string) (w : World) (f : Form)
    : World * Form :=
  let '(r, w') := AuthContext.resendTwoFactorCode code (twoFactorEmail f) w in
  match AuthContext.error r with
  | Some _ => (w', toast (ErrorToast "Грешка при изпращане на кода") f)
  | None => (w', toast (SuccessToast "Нов код е изпратен на вашия email") f)
  end.

(** The [onClick] of the back button of the code form. *)
Definition cancel (f : Form) : Form :=
  mkForm (email f) (password f) "" false "" (toasts f).

(** Where the login sequence stands, read off what [AppContent] renders:
    the spinner while [loading] is set (neither the form nor the
    dashboard is mounted then), the dashboard when [session] is set, and
    the login form otherwise; [f] holds the cells of the form that is
    mounted, and the form shows the code step when [showTwoFactor] is
    set. *)
Inductive LoginState :=
| AwaitingCredentials
| AwaitingCode (email : string)
| Authenticated
| Busy.

Definition login_state (w : World) (f : Form) : LoginState :=
  if loading (auth_state w) then Busy
  else
    match session (auth_state w) with
    | Some _ => Authenticated
    | None =>
        if showTwoFactor f then AwaitingCode (twoFactorEmail f)
        else AwaitingCredentials
    end.

End LoginForm.

(** ** The login form under [AppContent] ([src/App.tsx])

    [signIn] and [verifyTwoFactor] set [loading] before their first
    remote call, and [AppContent] then returns the spinner in place of
    [<LoginForm />]: the form that made the call is unmounted while it
    waits, and the setters the rest of its handler calls reach nothing.
    A form shown afterwards is a new instance, with the initial cells.
    The toasts belong to the toaster, which stays. *)

Module App.

Definition remount (f : LoginForm.Form) : LoginForm.Form :=
  LoginForm.mkForm "" "" "" false "" (LoginForm.toasts f).

(** Submitting the credentials form: the world and the cells of the form
    that is mounted once the handler has run. Without a client [signIn]
    is not called and the form stays. *)
Definition handleSubmit (env : AuthContext.SignInEnv) (w : World)
    (f : LoginForm.Form) : World * LoginForm.Form :=
  let '(w', f') := LoginForm.handleSubmit env w f in
  (w', if supabase w then remount f' else f').

End App.

(** ** The [ai_tools] table behind its row-level security policies *)

Module ToolsTable.

(** [auth.uid()] of a request made by the client. *)
Definition auth_uid (w : World) : option string :=
  user_id <$> user (auth_state w).

(** Policy "Users can read approved tools and own tools" (FOR SELECT,
    TO authenticated). *)
Definition rls_select (d : Database) (uid : option string) (t : AITool) : bool :=
  match uid with
  | None => false
  | Some u =>
      bool_decide (status t = approved)
      || bool_decide (created_by t = Some u)
      || is_owner d u
  end.

(** Policy "Users can create tools (pending approval)" (FOR INSERT). *)
Definition rls_insert (uid : option string) (t : AITool) : bool :=
  match uid with
  | None => false
  | Some u => bool_decide (created_by t = Some u) && bool_decide (status t = pending)
  end.

(** Policy "Creator and owners can update tools" (FOR UPDATE). *)
Definition rls_update (d : Database) (uid : option string) (t : AITool) : bool :=
  match uid with
  | None => false
  | Some u => bool_decide (created_by t = Some u) || is_owner d u
  end.

(** [from('ai_tools').update(patch).eq('id', toolId)] *)
Definition update_where_id (uid : option string) (toolId : string)
    (patch : AITool -> AITool) (d : Database) : Database :=
  set_ai_tools
    (map (fun t => if bool_decide (tool_id t = toolId) && rls_update d uid t
                   then patch t else t)
         (ai_tools d))
    d.

(** [from('ai_tools').select(...)] without a filter. *)
Definition select_all (d : Database) (uid : option string) : list AITool :=
  List.filter (rls_select d uid) (ai_tools d).

(** The row with a given primary key. *)
Definition lookup (toolId : string) (d : Database) : option AITool :=
  find (fun t => bool_decide (tool_id t = toolId)) (ai_tools d).

End ToolsTable.

(** ** Admin panel ([AdminPanel], [src/unnamed/part_003]) *)

Module AdminPanel.

(** The [useState] cells the moderation handlers use. *)
Record Panel := mkPanel {
  tools : list AITool;
  rejectionReason : string;
  showRejectionModal : bool;
  selectedTool : option AITool
}.

(** The outside of one handler run: clock, browser, and what the store
    answers to the update, to the log insert and to the reload. *)
Record StoreEnv := mkStoreEnv {
  st_now : Z;
  st_userAgent : string;
  update_error : option string;
  log_insert_error : bool;
  fetch_error : bool
}.

(** The literal stored when the reason field is left empty. *)
Definition default_rejection_reason : string := "Няма посочена причина".

(** [rejectionReason || 'Няма посочена причина']: the empty string is falsy. *)
Definition reason_or_default (reason : string) : string :=
  if bool_decide (reason = ""%string) then default_rejection_reason else reason.

(** The object given to [update] by [handleApprove]. *)
Definition approve_patch (uid : option string) (now : Z) (t : AITool) : AITool :=
  mkTool (tool_id t) (tool_name t) (created_by t) approved uid (Some now) None.

(** The object given to [update] by [confirmReject]. *)
Definition reject_patch (uid : option string) (now : Z) (reason : string)
    (t : AITool) : AITool :=
  mkTool (tool_id t) (tool_name t) (created_by t) rejected uid (Some now)
         (Some (reason_or_default reason)).

Definition json_of_option (o : option string) : Json :=
  match o with
  | Some s => JStr s
  | None => JNull
  end.

(** [fetchTools()]: on an error the list is left as it was. *)
Definition fetchTools (env : StoreEnv) (w : World) (p : Panel) : Panel :=
  if fetch_error env then p
  else mkPanel (ToolsTable.select_all (db w) (ToolsTable.auth_uid w))
               (rejectionReason p) (showRejectionModal p) (selectedTool p).

(** [invalidatePattern(...)]: clears the whole cache. *)
Definition invalidatePattern (w : World) : World :=
  set_cache (SimpleCache.clear (cache w)) w.

Definition log (env : StoreEnv) (p : ActivityLogger.LogActivityParams) (w : World)
    : World :=
  set_db (ActivityLogger.logActivity (supabase w) (user (auth_state w))
            (st_now env) (st_userAgent env) (log_insert_error env) p (db w))
         w.

(** [handleApprove(toolId)] *)
Definition handleApprove (env : StoreEnv) (toolId : string) (w : World) (p : Panel)
    : World * Panel :=
  let tool := find (fun t => bool_decide (tool_id t = toolId)) (tools p) in
  let uid := ToolsTable.auth_uid w in
  match update_error env with
  | Some msg =>
      (log env
         (ActivityLogger.mkParams approve_tool ResourceType.ai_tool (Some toolId)
            [("tool_name"%string, json_of_option (tool_name <$> tool));
             ("error"%string, JStr msg);
             ("success"%string, JBool false)])
         w,
       p)
  | None =>
      let w := set_db (ToolsTable.update_where_id uid toolId
                         (approve_patch uid (st_now env)) (db w)) w in
      let w :=
        log env
          (ActivityLogger.mkParams approve_tool ResourceType.ai_tool (Some toolId)
             [("tool_name"%string, json_of_option (tool_name <$> tool));
              ("approved_by"%string, json_of_option uid);
              ("approved_at"%string, JNum (st_now env))])
          w in
      let w := invalidatePattern (invalidatePattern w) in
      (w, fetchTools env w p)
  end.

(** [handleReject(tool)] *)
Definition handleReject (tool : AITool) (p : Panel) : Panel :=
  mkPanel (tools p) "" true (Some tool).

(** [confirmReject()] *)
Definition confirmReject (env : StoreEnv) (w : World) (p : Panel) : World * Panel :=
  match selectedTool p with
  | None => (w, p)
  | Some sel =>
      let uid := ToolsTable.auth_uid w in
      match update_error env with
      | Some msg =>
          (log env
             (ActivityLogger.mkParams reject_tool ResourceType.ai_tool
                (Some (tool_id sel))
                [("tool_name"%string, JStr (tool_name sel));
                 ("rejection_reason"%string, JStr (rejectionReason p));
                 ("error"%string, JStr msg);
                 ("success"%string, JBool false)])
             w,
           p)
      | None =>
          let w := set_db (ToolsTable.update_where_id uid (tool_id sel)
                             (reject_patch uid (st_now env) (rejectionReason p))
                             (db w)) w in
          let w :=
            log env
              (ActivityLogger.mkParams reject_tool ResourceType.ai_tool
                 (Some (tool_id sel))
                 [("tool_name"%string, JStr (tool_name sel));
                  ("rejection_reason"%string,
                   JStr (reason_or_default (rejectionReason p)));
                  ("rejected_by"%string, json_of_option uid);
                  ("rejected_at"%string, JNum (st_now env))])
              w in
          let w := invalidatePattern (invalidatePattern w) in
          let p := fetchTools env w p in
          (w, mkPanel (tools p) "" false None)
      end
  end.

(** The two moderation buttons of a row, in the table and in the card
    view alike: rendered under [tool.status === 'pending'] only. (Every
    row also has a delete button, which removes the row.) *)
Inductive Button := ApproveButton | RejectButton.

Definition moderation_buttons (t : AITool) : list Button :=
  if bool_decide (status t = pending) then [ApproveButton; RejectButton] else [].

#[global] Instance Button_eq_dec : EqDecision Button.
Proof. solve_decision. Defined.

(** The [onChange] of the reason field of the modal. *)
Definition setRejectionReason (reason : string) (p : Panel) : Panel :=
  mkPanel (tools p) reason (showRejectionModal p) (selectedTool p).

(** The panel itself is rendered for [profile?.role === 'owner'] only. *)
Definition panel_rendered (w : World) : bool :=
  match profile (auth_state w) with
  | Some pr => bool_decide (role pr = owner)
  | None => false
  end.

(** What a moderator can decide on a row. *)
Inductive Decision :=
| Approve
| Reject (reason : string).

Definition button_of (d : Decision) : Button :=
  match d with
  | Approve => ApproveButton
  | Reject _ => RejectButton
  end.

(** A decision taken on a row of the panel: it needs the panel to be
    rendered, the row to be in the list and to carry the button; approving
    runs [handleApprove], rejecting runs [handleReject], the typing of the
    reason and [confirmReject]. [None]: the panel gives no way to do it. *)
Definition decide_tool (env : StoreEnv) (d : Decision) (t : AITool) (w : World)
    (p : Panel) : option (World * Panel) :=
  if panel_rendered w
     && bool_decide (t ∈ tools p)
     && bool_decide (button_of d ∈ moderation_buttons t)
  then Some match d with
            | Approve => handleApprove env (tool_id t) w p
            | Reject reason =>
                confirmReject env w (setRejectionReason reason (handleReject t p))
            end
  else None.

End AdminPanel.

(** ** New tools ([AIToolForm.handleSubmit] without a [tool] prop) *)

Module AIToolForm.

(** The row built for [insert]: [status: 'pending', created_by: user.id];
    [fresh_id] is the [gen_random_uuid()] default of the table. *)
Definition new_tool (fresh_id name : string) (u : User) : AITool :=
  mkTool fresh_id name (Some (user_id u)) pending None None None.

(** [handleSubmit] for a new tool: nothing happens without a user; the
    insert goes through the INSERT policy; the activity is logged after
    it. (Role tags are a side table and are left out.) *)
Definition handleSubmit (env : AdminPanel.StoreEnv) (fresh_id name : string)
    (w : World) : World :=
  match user (auth_state w) with
  | None => w
  | Some u =>
      let row := new_tool fresh_id name u in
      if ToolsTable.rls_insert (ToolsTable.auth_uid w) row
      then
        let w := set_db (set_ai_tools (ai_tools (db w) ++ [row]) (db w)) w in
        let w :=
          AdminPanel.log env
            (ActivityLogger.mkParams create_tool ResourceType.ai_tool
               (Some fresh_id)
               [("name"%string, JStr name); ("status"%string, JStr "pending")])
            w in
        AdminPanel.invalidatePattern (AdminPanel.invalidatePattern w)
      else w
  end.

End AIToolForm.

(** ** The [tool_ratings] table *)

Module RatingsTable.

(** Errors the store answers a write with. *)
Inductive StoreError :=
| UniqueViolation
| CheckViolation
| RlsViolation
| NoSuchConstraint.

(** The object given to [upsert]: no [id]. *)
Record NewRating := mkNew {
  new_tool_id : string;
  new_user_id : string;
  new_rating : Z
}.

Definition same_pair (a b : ToolRating) : bool :=
  bool_decide (rating_tool_id a = rating_tool_id b)
  && bool_decide (rating_user_id a = rating_user_id b).

Definition same_id (a b : ToolRating) : bool :=
  bool_decide (rating_id a = rating_id b).

(** The columns [INSERT ... ON CONFLICT (...) DO UPDATE] arbitrates on:
    those named by the [onConflict] option of [upsert], the primary key
    when the option is absent. The table has two unique indexes. *)
Definition arbiter (onConflict : option (list string))
    : option (ToolRating -> ToolRating -> bool) :=
  match onConflict with
  | None => Some same_id
  | Some cols =>
      if bool_decide (cols = ["id"%string]) then Some same_id
      else if bool_decide (cols = ["tool_id"%string; "user_id"%string])
      then Some same_pair
      else None
  end.

(** The write of [from('tool_ratings').upsert(values, { onConflict })]
    for the caller [uid], once the rows it touches have passed the read
    policy (see [upsert_with_policies] below, which is the whole call):
    the check of policies "Users can insert their own ratings" and "Users
    can update their own ratings" on the new row, the CHECK on [rating],
    then [INSERT ... ON CONFLICT (arbiter) DO UPDATE]. When a row
    conflicts on the arbiter it takes the given columns and keeps its
    [id]; otherwise the new row is inserted with [fresh_id], the
    [gen_random_uuid()] default. Either way both unique indexes are
    enforced. *)
Definition upsert (uid : option string) (onConflict : option (list string))
    (fresh_id : string) (v : NewRating) (rows : list ToolRating)
    : option StoreError * list ToolRating :=
  let r := mkRating fresh_id (new_tool_id v) (new_user_id v) (new_rating v) in
  if negb (bool_decide (uid = Some (new_user_id v))) then (Some RlsViolation, rows)
  else if negb ((1 <=? new_rating v) && (new_rating v <=? 5))
  then (Some CheckViolation, rows)
  else
    match arbiter onConflict with
    | None => (Some NoSuchConstraint, rows)
    | Some conflict =>
        if existsb (fun x => conflict x r) rows
        then
          if existsb (fun y => negb (conflict y r) && same_pair y r) rows
          then (Some UniqueViolation, rows)
          else (None,
                map (fun x => if conflict x r
                              then mkRating (rating_id x) (new_tool_id v)
                                            (new_user_id v) (new_rating v)
                              else x)
                    rows)
        else
          if existsb (fun y => same_id y r || same_pair y r) rows
          then (Some UniqueViolation, rows)
          else (None, rows ++ [r])
    end.

(** [EXISTS (SELECT 1 FROM ai_tools WHERE ai_tools.id = toolId
             AND ai_tools.status = 'approved')] *)
Definition tool_approved (d : Database) (toolId : string) : bool :=
  existsb (fun t => bool_decide (tool_id t = toolId) && bool_decide (status t = approved))
          (ai_tools d).

(** Policy "Users can read all ratings for approved tools" (FOR SELECT,
    TO authenticated). *)
Definition rls_select (d : Database) (uid : option string) (r : ToolRating) : bool :=
  match uid with
  | None => false
  | Some _ => tool_approved d (rating_tool_id r)
  end.

(** [from('tool_ratings').upsert(values, { onConflict })] as the store
    runs it for the caller [uid]. The statement names its arbiter columns
    and so reads the table: the store applies the SELECT policy as well,
    to the new row and to a row it conflicts with, and that row must
    also pass the USING clause of the UPDATE policy ([auth.uid() =
    user_id]). A row that fails is an error and nothing is written: a
    rating for a tool that is not approved is refused. *)
Definition upsert_with_policies (d : Database) (uid : option string)
    (onConflict : option (list string)) (fresh_id : string) (v : NewRating)
    : option StoreError * list ToolRating :=
  let r := mkRating fresh_id (new_tool_id v) (new_user_id v) (new_rating v) in
  let blocked :=
    negb (rls_select d uid r)
    || match arbiter onConflict with
       | Some conflict =>
           existsb (fun x => conflict x r
                             && negb (rls_select d uid x
                                      && bool_decide (uid = Some (rating_user_id x))))
                   (tool_ratings d)
       | None => false
       end in
  if blocked then (Some RlsViolation, tool_ratings d)
  else upsert uid onConflict fresh_id v (tool_ratings d).

(** [from('tool_ratings').select('rating').eq('tool_id', toolId)] *)
Definition select_by_tool (d : Database) (uid : option string) (toolId : string)
    : list ToolRating :=
  List.filter (fun r => rls_select d uid r && bool_decide (rating_tool_id r = toolId))
              (tool_ratings d).

(** All rows stored for a tool, whoever asks. *)
Definition stored_for (d : Database) (toolId : string) : list ToolRating :=
  List.filter (fun r => bool_decide (rating_tool_id r = toolId)) (tool_ratings d).

End RatingsTable.

(** ** Rating widget ([src/components/ToolRating.tsx]) *)

Module ToolRatingComponent.

(** The prop [toolId] and the [useState] cells of the widget. *)
Record Widget := mkWidget {
  toolId : string;
  userRating : Z;
  submitting : bool
}.

(** [handleRatingClick(rating)]: the upsert is called with the values
    only, no options. An error is thrown, caught and printed; [finally]
    resets [submitting]. *)
Definition handleRatingClick (fresh_id : string) (rating : Z) (w : World)
    (c : Widget) : World * Widget :=
  match user (auth_state w) with
  | None => (w, c)
  | Some u =>
      if submitting c then (w, c)
      else
        match RatingsTable.upsert_with_policies (db w) (ToolsTable.auth_uid w)
                None fresh_id
                (RatingsTable.mkNew (toolId c) (user_id u) rating) with
        | (Some _, _) => (w, mkWidget (toolId c) (userRating c) false)
        | (None, rows) =>
            (set_db (set_tool_ratings rows (db w)) w,
             mkWidget (toolId c) rating false)
        end
  end.

End ToolRatingComponent.

(** ** Tool list ([src/components/AIToolsList.tsx]) *)

Module AIToolsList.

(** [profile?.role === 'owner'] *)
Definition owner_profile (pr : option Profile) : bool :=
  match pr with
  | Some p => bool_decide (role p = owner)
  | None => false
  end.

(** The filter [fetchTools] adds to its query: none for an owner,
    [.or(`status.eq.approved,created_by.eq.${user?.id}`)] for anybody
    else. (Without a user the interpolated id is no uuid and the query
    fails; no row passes the SELECT policy then either.) *)
Definition query_filter (pr : option Profile) (u : option User) (t : AITool) : bool :=
  if owner_profile pr then true
  else
    bool_decide (status t = approved)
    || match u with
       | Some u => bool_decide (created_by t = Some (user_id u))
       | None => false
       end.

(** Whether the list shows a stored tool to the signed-in actor: the row
    passes the SELECT policy of the table and the filter of the query. *)
Definition canView (w : World) (t : AITool) : bool :=
  ToolsTable.rls_select (db w) (ToolsTable.auth_uid w) t
  && query_filter (profile (auth_state w)) (user (auth_state w)) t.

(** The rows the query of [fetchTools] returns. *)
Definition fetched (w : World) : list AITool :=
  List.filter (canView w) (ai_tools (db w)).

(** [canEditTool(tool)] *)
Definition canEditTool (w : World) (t : AITool) : bool :=
  match user (auth_state w) with
  | Some u => bool_decide (created_by t = Some (user_id u))
  | None => false
  end
  || owner_profile (profile (auth_state w)).

(** The rating statistics attached to a tool (the comment count is left
    out). JavaScript numbers are replaced by exact rationals: the sum of
    integer ratings is exact there too, and the quotient is the double
    nearest to the rational one. *)
Record Stats := mkStats {
  total_ratings : nat;
  average_rating : Q
}.

(** [ratings.length > 0
       ? ratings.reduce((sum, r) => sum + r.rating, 0) / ratings.length
       : 0] *)
Definition averageRating (ratings : list ToolRating) : Q :=
  if (0 <? length ratings)%nat
  then (inject_Z (fold_left (fun sum r => (sum + rating r)%Z) ratings 0%Z)
        / inject_Z (Z.of_nat (length ratings)))%Q
  else 0%Q.

(** The rating part of the per-tool block of [fetchTools]; [throws] is the
    [catch] branch. *)
Definition aggregate (throws : bool) (w : World) (toolId : string) : Stats :=
  if throws then mkStats 0 0%Q
  else
    let ratings := RatingsTable.select_by_tool (db w) (ToolsTable.auth_uid w) toolId in
    mkStats (length ratings) (averageRating ratings).

(** [fetchTools()]: the visible tools, each with its statistics. *)
Definition fetchTools (throws : string -> bool) (w : World) : list (AITool * Stats) :=
  map (fun t => (t, aggregate (throws (tool_id t)) w (tool_id t))) (fetched w).

(** The arithmetic mean of the rating values of some rows, as a rational. *)
Definition mean (rows : list ToolRating) : Q :=
  (inject_Z (foldr Z.add 0%Z (map rating rows)) / inject_Z (Z.of_nat (length rows)))%Q.

End AIToolsList.

(** ** Who is acting

    The actor [a] holds the session of [w]: the auth context carries its
    user and its profile, and [a] is the one row of [profiles] under its
    id (the primary key), as [fetchProfile] leaves things after sign-in. *)
Definition acts_as (w : World) (a : Profile) : Prop :=
  ToolsTable.auth_uid w = Some (profile_id a)
  /\ profile (auth_state w) = Some a
  /\ List.filter (fun p => bool_decide (profile_id p = profile_id a)) (profiles (db w))
     = [a].

(** ** Sample data: the seed accounts and two tools *)

Module Examples.

Definition ivan : Profile :=
  mkProfile "u-ivan" "ivan@admin.local" "Иван Иванов" owner false.

Definition elena : Profile :=
  mkProfile "u-elena" "elena@frontend.local" "Елена Петрова" frontend true.

Definition petar : Profile :=
  mkProfile "u-petar" "petar@backend.local" "Петър Георгиев" backend false.

Definition accounts : list AuthUser :=
  [ mkAuthUser "u-ivan" "ivan@admin.local" "password";
    mkAuthUser "u-elena" "elena@frontend.local" "password";
    mkAuthUser "u-petar" "petar@backend.local" "password" ].

Definition foo : AITool :=
  mkTool "t-foo" "Foo" (Some "u-petar"%string) pending None None None.

Definition bar : AITool :=
  mkTool "t-bar" "Bar" (Some "u-petar"%string) approved
         (Some "u-ivan"%string) (Some 1000) None.

Definition store : Database :=
  mkDb accounts [ivan; elena; petar] [foo; bar] [] [].

Definition signed_out : World :=
  mkWorld store true (mkAuthState None None None false) ∅ [].

Definition user_of (p : Profile) : User := mkUser (profile_id p) (profile_email p).

(** The world once [p] holds a session. *)
Definition signed_in (p : Profile) : World :=
  mkWorld store true
          (mkAuthState (Some (mkSession (user_of p))) (Some (user_of p)) (Some p) false)
          ∅ [].

Definition signIn_env : AuthContext.SignInEnv :=
  AuthContext.mkSignInEnv 5000 "Mozilla/5.0" "123456" false false false false
                          Answered.

Definition verify_env : EdgeFunctions.Verify2faEnv :=
  EdgeFunctions.mkVerifyEnv None None "temp_6000_k3x9q2m1z" None None Answered.

Definition store_env : AdminPanel.StoreEnv :=
  AdminPanel.mkStoreEnv 7000 "Mozilla/5.0" None false false.

(** The login form filled in with Elena's credentials. *)
Definition elena_form : LoginForm.Form :=
  LoginForm.mkForm "elena@frontend.local" "password" "" false "" [].

(** Elena has signed in, for which the code 123456 was issued, and has
    signed out again: nobody is signed in and her code is outstanding. *)
Definition awaiting_code : World :=
  (AuthContext.signOut AuthProvider.SignOutOk
     (AuthContext.signIn signIn_env "elena@frontend.local" "password"
        signed_out).2).2.

(** The rating widget shown under the approved tool [bar]. *)
Definition bar_widget : ToolRatingComponent.Widget :=
  ToolRatingComponent.mkWidget "t-bar" 0 false.

(** Elena rates [bar] with 3 stars (the store draws the id [r-1]) ... *)
Definition rated_once : World * ToolRatingComponent.Widget :=
  ToolRatingComponent.handleRatingClick "r-1" 3 (signed_in elena) bar_widget.

(** ... and then with 5 stars (the store draws the id [r-2]). *)
Definition rated_twice : World * ToolRatingComponent.Widget :=
  ToolRatingComponent.handleRatingClick "r-2" 5 rated_once.1 rated_once.2.

(** A store in which the pending tool [foo] has one rating and the
    approved tool [bar] has two. *)
Definition rated_store : Database :=
  mkDb accounts [ivan; elena; petar] [foo; bar]
       [ mkRating "r-1" "t-foo" "u-petar" 4;
         mkRating "r-2" "t-bar" "u-elena" 5;
         mkRating "r-3" "t-bar" "u-petar" 2 ]
       [].

Definition rated_world (p : Profile) : World :=
  mkWorld rated_store true
          (mkAuthState (Some (mkSession (user_of p))) (Some (user_of p)) (Some p) false)
          ∅ [].

(** The admin panel after loading the tools, no modal open. *)
Definition panel : AdminPanel.Panel := AdminPanel.mkPanel [foo; bar] "" false None.

(** A cache holding one entry, stored at time 0 with a ttl of one second. *)
Definition cached_categories : gmap string (SimpleCache.CacheEntry Z) :=
  SimpleCache.set "categories" 7 1 0 ∅.

End Examples.

(** ** The [useCache] hook and [useCacheManager] ([src/hooks/useCache.ts]) *)

Module UseCache.

(** What the [fetcher] of a hook does when it is awaited. *)
Inductive FetchOutcome :=
| Fetched (result : Json)
| FetchFailed (e : Error).

(** The [useState] cells of the hook; [data] starts as [null]. *)
Record Hook := mkHook {
  data : Json;
  loading : bool;
  error : option Error
}.

Definition initial : Hook := mkHook JNull false None.

(** The three readings of [Date.now()] one run of [fetchData] can make:
    in [cache.has], in [cache.get] and in [cache.set]. *)
Record Clock := mkClock {
  t_has : Z;
  t_get : Z;
  t_set : Z
}.

(** [cachedData !== null] for what [cache.get] returned. *)
Definition not_null (o : option Json) : option Json :=
  match o with
  | Some JNull => None
  | other => other
  end.

(** The cache lookup at the head of [fetchData]:
    [!forceRefresh && cache.has(key)], then [cache.get(key)]. *)
Definition lookup_cached (key : string) (forceRefresh : bool) (clk : Clock)
    (c : gmap string (SimpleCache.CacheEntry Json))
    : option Json * gmap string (SimpleCache.CacheEntry Json) :=
  if forceRefresh then (None, c)
  else
    let '(present, c1) := SimpleCache.has key (t_has clk) c in
    if present
    then let '(cachedData, c2) := SimpleCache.get key (t_get clk) c1 in
         (not_null cachedData, c2)
    else (None, c1).

(** The [try]/[catch]/[finally] around [await fetcher()], with or without
    the store into the cache. *)
Definition run_fetcher (store : option (string * Z * Z)) (fetcher : FetchOutcome)
    (c : gmap string (SimpleCache.CacheEntry Json)) (h : Hook)
    : gmap string (SimpleCache.CacheEntry Json) * Hook :=
  match fetcher with
  | Fetched result =>
      (match store with
       | Some (key, ttl, now) => SimpleCache.set key result ttl now c
       | None => c
       end,
       mkHook result false None)
  | FetchFailed e => (c, mkHook (data h) false (Some e))
  end.

(** [fetchData(forceRefresh)] of [useCache(key, fetcher, { ttl, enabled })]:
    the cache and the hook afterwards, and whether the fetcher was
    called. *)
Definition fetchData (key : string) (ttl : Z) (enabled : bool)
    (forceRefresh : bool) (clk : Clock) (fetcher : FetchOutcome)
    (c : gmap string (SimpleCache.CacheEntry Json)) (h : Hook)
    : gmap string (SimpleCache.CacheEntry Json) * Hook * bool :=
  if negb enabled then (run_fetcher None fetcher c h, true)
  else
    match lookup_cached key forceRefresh clk c with
    | (Some cachedData, c1) => (c1, mkHook cachedData (loading h) (error h), false)
    | (None, c1) => (run_fetcher (Some (key, ttl, t_set clk)) fetcher c1 h, true)
    end.

(** [refresh()] *)
Definition refresh (key : string) (ttl : Z) (enabled : bool) (clk : Clock)
    (fetcher : FetchOutcome) (c : gmap string (SimpleCache.CacheEntry Json))
    (h : Hook) : gmap string (SimpleCache.CacheEntry Json) * Hook * bool :=
  fetchData key ttl enabled true clk fetcher c h.

(** [invalidate()] *)
Definition invalidate (key : string) (c : gmap string (SimpleCache.CacheEntry Json))
    : gmap string (SimpleCache.CacheEntry Json) :=
  SimpleCache.delete key c.

(** [useCacheManager().invalidatePattern(pattern)]: the pattern is not
    looked at. *)
Definition invalidatePattern (pattern : string)
    (c : gmap string (SimpleCache.CacheEntry Json))
    : gmap string (SimpleCache.CacheEntry Json) :=
  SimpleCache.clear c.

(** [useCacheManager().clearAll()] *)
Definition clearAll (c : gmap string (SimpleCache.CacheEntry Json))
    : gmap string (SimpleCache.CacheEntry Json) :=
  SimpleCache.clear c.

End UseCache.

(** ** Role protection ([useRoleProtection], [withRoleProtection]) *)

Module RoleProtection.

(** [profile && allowedRoles.includes(profile.role)] *)
Definition hasAccess (pr : option Profile) (allowedRoles : list Role) : bool :=
  match pr with
  | Some p => bool_decide (role p ∈ allowedRoles)
  | None => false
  end.

(** [!loading && hasAccess] *)
Definition isAuthorized (loading : bool) (pr : option Profile)
    (allowedRoles : list Role) : bool :=
  negb loading && hasAccess pr allowedRoles.

(** What the effect of the hook does. *)
Inductive Effect :=
| NoEffect
| CallOnUnauthorized
| RedirectTo (url : string).

(** The [useEffect] body: [onUnauthorized] tells whether the callback was
    given; an empty [redirectTo] is falsy. *)
Definition effect (loading : bool) (pr : option Profile) (allowedRoles : list Role)
    (onUnauthorized : bool) (redirectTo : option string) : Effect :=
  if negb loading && negb (hasAccess pr allowedRoles)
  then
    if onUnauthorized then CallOnUnauthorized
    else
      match redirectTo with
      | Some url => if bool_decide (url = ""%string) then NoEffect else RedirectTo url
      | None => NoEffect
      end
  else NoEffect.

(** What the component returned by [withRoleProtection] renders. *)
Inductive View :=
| Spinner
| AccessDenied
| Protected.

Definition withRoleProtection (loading : bool) (pr : option Profile)
    (allowedRoles : list Role) : View :=
  if loading then Spinner
  else if isAuthorized loading pr allowedRoles then Protected
  else AccessDenied.

End RoleProtection.

(** ** The rest of the auth context, the dashboard and the 2FA settings *)

Definition set_profiles (ps : list Profile) (d : Database) : Database :=
  mkDb (auth_users d) ps (ai_tools d) (tool_ratings d) (activity_logs d).

Module AuthContextMount.

(** The auth context before anything has run. *)
Definition initial : AuthState := mkAuthState None None None true.

(** The [useEffect] of [AuthProvider] up to the registration of the
    listener: [stored] is the session [supabase.auth.getSession()] finds,
    [o] what the profile query meets. *)
Definition mount (o : QueryOutcome) (stored : option Session) (w : World) : World :=
  if negb (supabase w)
  then set_auth_state (setLoading false (auth_state w)) w
  else
    let a := setUser (session_user <$> stored) (setSession stored (auth_state w)) in
    match stored with
    | Some se =>
        AuthContext.fetchProfile o (user_id (session_user se)) (set_auth_state a w)
    | None => set_auth_state (setLoading false a) w
    end.

(** [window.location.reload()]: the page starts again with an empty
    cache and a fresh auth context, and finds the session it had; [o] is
    what the profile query of the new page meets. *)
Definition reload (o : QueryOutcome) (w : World) : World :=
  mount o (session (auth_state w))
        (mkWorld (db w) (supabase w) initial ∅ (side_channel w)).

End AuthContextMount.

Module Dashboard.

(** [handleSignOut]: the logout is logged, then [signOut] runs. *)
Definition handleSignOut (env : AdminPanel.StoreEnv)
    (o : AuthProvider.SignOutOutcome) (w : World) : AuthContext.Result * World :=
  AuthContext.signOut o
    (AdminPanel.log env
       (ActivityLogger.mkParams logout ResourceType.auth None [])
       w).

End Dashboard.

Module TwoFactorSettings.

(** The [useState] cells of the settings card. *)
Record Settings := mkSettings {
  loading : bool;
  error : string;
  success : string
}.

Definition set_two_factor (b : bool) (p : Profile) : Profile :=
  mkProfile (profile_id p) (profile_email p) (full_name p) (role p) b.

(** [from('profiles').update({ two_factor_enabled }).eq('id', id)] behind
    the policy "Users can update own profile" ([auth.uid() = id]). *)
Definition update_two_factor (uid : option string) (id : string) (b : bool)
    (d : Database) : Database :=
  set_profiles
    (map (fun p => if bool_decide (profile_id p = id)
                      && bool_decide (uid = Some (profile_id p))
                   then set_two_factor b p else p)
         (profiles d))
    d.

(** [handleToggleTwoFactor]: the new value is the negation of what the
    profile of the auth context says; after a successful update and its
    log the page is reloaded, and [fetch] is what the profile query of
    the reloaded page meets. *)
Definition handleToggleTwoFactor (env : AdminPanel.StoreEnv) (fetch : QueryOutcome)
    (w : World) (s : Settings) : World * Settings :=
  match profile (auth_state w) with
  | None => (w, s)
  | Some pr =>
      let newStatus := negb (two_factor_enabled pr) in
      match AdminPanel.update_error env with
      | Some msg =>
          (AdminPanel.log env
             (ActivityLogger.mkParams
                (if two_factor_enabled pr then disable_2fa else enable_2fa)
                ResourceType.profile (Some (profile_id pr))
                [("error"%string, JStr msg);
                 ("user_email"%string, JStr (profile_email pr));
                 ("success"%string, JBool false)])
             w,
           mkSettings false "Грешка при промяна на настройките" "")
      | None =>
          let w := set_db (update_two_factor (ToolsTable.auth_uid w) (profile_id pr)
                             newStatus (db w)) w in
          let w :=
            AdminPanel.log env
              (ActivityLogger.mkParams
                 (if newStatus then enable_2fa else disable_2fa)
                 ResourceType.profile (Some (profile_id pr))
                 [("two_factor_enabled"%string, JBool newStatus);
                  ("user_email"%string, JStr (profile_email pr));
                  ("changed_at"%string, JNum (AdminPanel.st_now env))])
              w in
          (AuthContextMount.reload fetch w,
           mkSettings false ""
             (if newStatus
              then "Двуфакторната автентикация е активирана успешно"
              else "Двуфакторната автентикация е деактивирана успешно"))
      end
  end.

End TwoFactorSettings.

(** ** The rest of the admin panel: deletion and the status counters *)

Module AdminPanelRest.

(** Policy "Creator and owners can delete tools" (FOR DELETE). *)
Definition rls_delete (d : Database) (uid : option string) (t : AITool) : bool :=
  match uid with
  | None => false
  | Some u => bool_decide (created_by t = Some u) || is_owner d u
  end.

(** [from('ai_tools').delete().eq('id', toolId)]: the rows the policy lets
    the caller delete go, and with them the ratings that reference them
    ([tool_ratings.tool_id ... ON DELETE CASCADE]). *)
Definition delete_where_id (uid : option string) (toolId : string) (d : Database)
    : Database :=
  let hit t := bool_decide (tool_id t = toolId) && rls_delete d uid t in
  set_tool_ratings
    (if existsb hit (ai_tools d)
     then List.filter (fun r => negb (bool_decide (rating_tool_id r = toolId)))
                      (tool_ratings d)
     else tool_ratings d)
    (set_ai_tools (List.filter (fun t => negb (hit t)) (ai_tools d)) d).

(** [handleDelete(toolId)]; [confirmed] is the answer to [confirm(...)],
    [update_error] of the environment the store's answer to the delete. *)
Definition handleDelete (env : AdminPanel.StoreEnv) (confirmed : bool)
    (toolId : string) (w : World) (p : AdminPanel.Panel)
    : World * AdminPanel.Panel :=
  let tool := find (fun t => bool_decide (tool_id t = toolId)) (AdminPanel.tools p) in
  let uid := ToolsTable.auth_uid w in
  if negb confirmed then (w, p)
  else
    match AdminPanel.update_error env with
    | Some msg =>
        (AdminPanel.log env
           (ActivityLogger.mkParams delete_tool ResourceType.ai_tool (Some toolId)
              [("tool_name"%string, AdminPanel.json_of_option (tool_name <$> tool));
               ("error"%string, JStr msg);
               ("success"%string, JBool false)])
           w,
         p)
    | None =>
        let w := set_db (delete_where_id uid toolId (db w)) w in
        let w :=
          AdminPanel.log env
            (ActivityLogger.mkParams delete_tool ResourceType.ai_tool (Some toolId)
               [("tool_name"%string, AdminPanel.json_of_option (tool_name <$> tool));
                ("deleted_by"%string, AdminPanel.json_of_option uid);
                ("deleted_at"%string, JNum (AdminPanel.st_now env))])
            w in
        let w := AdminPanel.invalidatePattern (AdminPanel.invalidatePattern w) in
        (w, AdminPanel.fetchTools env w p)
    end.

(** [tools.filter(t => t.status === s).length], the three counters of the
    panel. *)
Definition count_status (s : ToolStatus) (ts : list AITool) : nat :=
  length (List.filter (fun t => bool_decide (status t = s)) ts).

End AdminPanelRest.

(** ** The rest of the tool form: tags, roles and the edit of a tool *)

(** A row of [tool_roles]: [UNIQUE(tool_id, role)]. *)
Record ToolRole := mkToolRole {
  tr_tool_id : string;
  tr_role : Role
}.

#[global] Instance ToolRole_eq_dec : EqDecision ToolRole.
Proof. solve_decision. Defined.

Module AIToolFormRest.

Section Inputs.

(** [String.prototype.trim], taken as given. *)
Variable trim : string -> string.

(** [handleAddTag]: the tag list and the tag field afterwards. *)
Definition handleAddTag (currentTag : string) (tags : list string)
    : list string * string :=
  if negb (bool_decide (trim currentTag = ""%string))
     && negb (bool_decide (trim currentTag ∈ tags))
  then (tags ++ [trim currentTag], ""%string)
  else (tags, currentTag).

End Inputs.

(** [handleRemoveTag] *)
Definition handleRemoveTag (tagToRemove : string) (tags : list string) : list string :=
  List.filter (fun tag => negb (bool_decide (tag = tagToRemove))) tags.

(** [handleRoleToggle] *)
Definition handleRoleToggle (r : Role) (roles : list Role) : list Role :=
  if bool_decide (r ∈ roles)
  then List.filter (fun x => negb (bool_decide (x = r))) roles
  else roles ++ [r].

(** The object given to [update] when a tool is edited: neither the
    status nor the approval columns are in it. *)
Definition edit_patch (name : string) (t : AITool) : AITool :=
  mkTool (tool_id t) name (created_by t) (status t) (approved_by t)
         (approved_at t) (rejection_reason t).

(** The policies "Tool creator can manage tool_roles" and "Owners can
    manage all tool_roles" (FOR ALL) for the role tags of [toolId]. *)
Definition rls_roles (d : Database) (uid : option string) (toolId : string) : bool :=
  match uid with
  | None => false
  | Some u =>
      existsb (fun t => bool_decide (tool_id t = toolId)
                        && bool_decide (created_by t = Some u))
              (ai_tools d)
      || is_owner d u
  end.

(** "Update tool roles": delete the tags of the tool, then insert one row
    per chosen role when there is any. Neither answer is looked at; the
    insert is one statement, refused as a whole by [UNIQUE(tool_id, role)]
    when a role is chosen twice. *)
Definition replace_roles (d : Database) (uid : option string) (toolId : string)
    (chosen : list Role) (table : list ToolRole) : list ToolRole :=
  if rls_roles d uid toolId
  then
    let table := List.filter (fun x => negb (bool_decide (tr_tool_id x = toolId))) table in
    if bool_decide (NoDup chosen)
    then table ++ map (mkToolRole toolId) chosen
    else table
  else table.

(** [handleSubmit] with a [tool] prop (an edit): [.update(...).eq('id',
    tool.id).select().single()] fails when no row comes back, and then
    (as on any store error) nothing else happens; otherwise the role tags
    are replaced, the activity is logged (the category and role entries
    of its details are left out) and the cache is cleared. *)
Definition handleSubmit_edit (env : AdminPanel.StoreEnv) (tool : AITool)
    (name : string) (chosen : list Role) (w : World) (table : list ToolRole)
    : World * list ToolRole :=
  match user (auth_state w) with
  | None => (w, table)
  | Some u =>
      let uid := ToolsTable.auth_uid w in
      match AdminPanel.update_error env with
      | Some _ => (w, table)
      | None =>
          if existsb (fun t => bool_decide (tool_id t = tool_id tool)
                               && ToolsTable.rls_update (db w) uid t)
                     (ai_tools (db w))
          then
            let w := set_db (ToolsTable.update_where_id uid (tool_id tool)
                               (edit_patch name) (db w)) w in
            let table := replace_roles (db w) uid (tool_id tool) chosen table in
            let w :=
              AdminPanel.log env
                (ActivityLogger.mkParams update_tool ResourceType.ai_tool
                   (Some (tool_id tool))
                   [("name"%string, JStr name);
                    ("changes"%string, JStr "Updated tool details and roles")])
                w in
            (AdminPanel.invalidatePattern (AdminPanel.invalidatePattern w), table)
          else (w, table)
      end
  end.

End AIToolFormRest.

(** ** The rest of the rating widget *)

Module ToolRatingRest.


(** [renderStars(rating)] of the average display: for each of the five
    stars, whether it is filled ([rating >= index + 1]). *)
Definition renderStars (rating : Q) : list bool :=
  map (fun index : Z => Qle_bool (inject_Z (index + 1)) rating) [0; 1; 2; 3; 4].

(** [renderStars(userRating, true)]: the hovered star counts when there is
    one ([hoveredRating || userRating]). *)
Definition renderStars_interactive (hoveredRating userRating : Z) : list bool :=
  map (fun index : Z =>
         (index + 1 <=? (if bool_decide (hoveredRating = 0) then userRating
                         else hoveredRating)))
      [0; 1; 2; 3; 4].

End ToolRatingRest.

(** ** Comments ([ToolComments], [src/unnamed/part_001]) *)

(** A row of [tool_comments]. *)
Record ToolComment := mkComment {
  comment_id : string;
  comment_tool_id : string;
  comment_user_id : string;
  content : string
}.

Module ToolComments.

(** The state the handlers use: the two text fields and the flags. *)
Record Box := mkBox {
  newComment : string;
  editingComment : option string;
  editContent : string;
  submitting : bool
}.

(** [canEditComment(comment)]: who is shown the edit and delete buttons. *)
Definition canEditComment (w : World) (c : ToolComment) : bool :=
  match user (auth_state w) with
  | Some u => bool_decide (comment_user_id c = user_id u)
  | None => false
  end
  || AIToolsList.owner_profile (profile (auth_state w)).

(** Policy "Users can read all comments for approved tools". An update
    or a delete that selects its rows with [.eq('id', ...)] reads them,
    so it reaches only rows that pass this policy as well. *)
Definition rls_select (d : Database) (uid : option string) (c : ToolComment) : bool :=
  match uid with
  | None => false
  | Some _ => RatingsTable.tool_approved d (comment_tool_id c)
  end.

(** Policy "Users can update their own comments". *)
Definition rls_update (uid : option string) (c : ToolComment) : bool :=
  bool_decide (uid = Some (comment_user_id c)).

(** Policies "Users can delete their own comments" and "Owners can delete
    any comment": either one lets the row go. *)
Definition rls_delete (d : Database) (uid : option string) (c : ToolComment) : bool :=
  match uid with
  | None => false
  | Some u => bool_decide (comment_user_id c = u) || is_owner d u
  end.

Section Inputs.

(** [String.prototype.trim], taken as given. *)
Variable trim : string -> string.

(** [handleSubmitComment]: [store_error] is the store's answer to the
    insert, [fresh_id] the [gen_random_uuid()] default; the INSERT policy
    asks for [auth.uid() = user_id], which the row built here meets. *)
Definition handleSubmitComment (store_error : bool) (fresh_id toolId : string)
    (w : World) (table : list ToolComment) (b : Box) : list ToolComment * Box :=
  match user (auth_state w) with
  | None => (table, b)
  | Some u =>
      if bool_decide (trim (newComment b) = ""%string) || submitting b
      then (table, b)
      else if store_error
      then (table, mkBox (newComment b) (editingComment b) (editContent b) false)
      else (table ++ [mkComment fresh_id toolId (user_id u) (trim (newComment b))],
            mkBox "" (editingComment b) (editContent b) false)
  end.

(** [handleEditComment(commentId)]: an update that the policy keeps from
    every row is no error. *)
Definition handleEditComment (store_error : bool) (commentId : string) (w : World)
    (table : list ToolComment) (b : Box) : list ToolComment * Box :=
  if bool_decide (trim (editContent b) = ""%string) || submitting b
  then (table, b)
  else if store_error
  then (table, mkBox (newComment b) (editingComment b) (editContent b) false)
  else (map (fun c => if bool_decide (comment_id c = commentId)
                         && rls_select (db w) (ToolsTable.auth_uid w) c
                         && rls_update (ToolsTable.auth_uid w) c
                      then mkComment (comment_id c) (comment_tool_id c)
                                     (comment_user_id c) (trim (editContent b))
                      else c)
            table,
        mkBox (newComment b) None "" false).

End Inputs.

(** [handleDeleteComment(commentId)]; [confirmed] is the answer to
    [confirm(...)]. *)
Definition handleDeleteComment (confirmed store_error : bool) (commentId : string)
    (w : World) (table : list ToolComment) : list ToolComment :=
  if negb confirmed then table
  else if store_error then table
  else List.filter
         (fun c => negb (bool_decide (comment_id c = commentId)
                         && rls_select (db w) (ToolsTable.auth_uid w) c
                         && rls_delete (db w) (ToolsTable.auth_uid w) c))
         table.

End ToolComments.

(** ** Runs of the application

    One operation of the client on the world, with what it needs from
    outside, and sequences of them. *)

Module System.

Inductive Op :=
| SignIn (env : AuthContext.SignInEnv) (email password : string)
| VerifyTwoFactor (env : EdgeFunctions.Verify2faEnv) (email code : string)
| ResendTwoFactorCode (code email : string)
| SignOut (o : AuthProvider.SignOutOutcome)
| HandleSignOut (env : AdminPanel.StoreEnv) (o : AuthProvider.SignOutOutcome)
| AuthEvent (fetch : QueryOutcome) (s : option Session)
| Reload (fetch : QueryOutcome)
| LogActivity (env : AdminPanel.StoreEnv) (p : ActivityLogger.LogActivityParams)
| CreateTool (env : AdminPanel.StoreEnv) (fresh_id name : string)
| EditTool (env : AdminPanel.StoreEnv) (tool : AITool) (name : string)
           (chosen : list Role) (table : list ToolRole)
| ApproveTool (env : AdminPanel.StoreEnv) (toolId : string) (p : AdminPanel.Panel)
| ConfirmReject (env : AdminPanel.StoreEnv) (p : AdminPanel.Panel)
| DeleteTool (env : AdminPanel.StoreEnv) (confirmed : bool) (toolId : string)
             (p : AdminPanel.Panel)
| RateTool (fresh_id : string) (rating : Z) (c : ToolRatingComponent.Widget)
| ToggleTwoFactor (env : AdminPanel.StoreEnv) (fetch : QueryOutcome)
                  (s : TwoFactorSettings.Settings).

Definition run (op : Op) (w : World) : World :=
  match op with
  | SignIn env email password => (AuthContext.signIn env email password w).2
  | VerifyTwoFactor env email code => (AuthContext.verifyTwoFactor env email code w).2
  | ResendTwoFactorCode code email => (AuthContext.resendTwoFactorCode code email w).2
  | SignOut o => (AuthContext.signOut o w).2
  | HandleSignOut env o => (Dashboard.handleSignOut env o w).2
  | AuthEvent fetch s => AuthContext.auth_listener fetch s w
  | Reload fetch => AuthContextMount.reload fetch w
  | LogActivity env p => AdminPanel.log env p w
  | CreateTool env fresh_id name => AIToolForm.handleSubmit env fresh_id name w
  | EditTool env tool name chosen table =>
      (AIToolFormRest.handleSubmit_edit env tool name chosen w table).1
  | ApproveTool env toolId p => (AdminPanel.handleApprove env toolId w p).1
  | ConfirmReject env p => (AdminPanel.confirmReject env w p).1
  | DeleteTool env confirmed toolId p =>
      (AdminPanelRest.handleDelete env confirmed toolId w p).1
  | RateTool fresh_id rating c =>
      (ToolRatingComponent.handleRatingClick fresh_id rating w c).1
  | ToggleTwoFactor env fetch s =>
      (TwoFactorSettings.handleToggleTwoFactor env fetch w s).1
  end.

Definition run_all (ops : list Op) (w : World) : World :=
  fold_left (fun w op => run op w) ops w.

(** The user cell of the auth context is the user of its session. *)
Definition user_of_session (w : World) : Prop :=
  user (auth_state w) = session_user <$> session (auth_state w).

End System.

(** ** What the tables promise *)

Module Invariants.

(** The constraints declared on [tool_ratings]: the primary key,
    [UNIQUE(tool_id, user_id)] and the CHECK on [rating]. *)
Definition ratings_ok (rows : list ToolRating) : Prop :=
  NoDup (map rating_id rows)
  /\ NoDup (map (fun r => (rating_tool_id r, rating_user_id r)) rows)
  /\ Forall (fun r => 1 <= rating r <= 5) rows.

(** A moderation record that hangs together: a decided tool carries the
    time of the decision, an approved one no reason, a rejected one a
    reason that is not empty. *)
Definition moderation_record_ok (t : AITool) : Prop :=
  match status t with
  | pending => True
  | approved => approved_at t <> None /\ rejection_reason t = None
  | rejected =>
      approved_at t <> None
      /\ exists s, rejection_reason t = Some s /\ s <> ""%string
  end.

End Invariants.

(** ** More sample data *)

Module MoreExamples.

(** A comment of Elena on [bar]. *)
Definition elena_comment : ToolComment :=
  mkComment "c-1" "t-bar" "u-elena" "Works well".

(** The moderation of [foo] by Ivan: approve, then open the modal, type a
    reason and confirm. *)
Definition approved_then_rejected : World :=
  (AdminPanel.confirmReject Examples.store_env
     (AdminPanel.handleApprove Examples.store_env "t-foo"
        (Examples.signed_in Examples.ivan) Examples.panel).1
     (AdminPanel.setRejectionReason "duplicate"
        (AdminPanel.handleReject Examples.foo Examples.panel))).1.

Definition clock (t : Z) : UseCache.Clock := UseCache.mkClock t t t.


(** The panel with the rejection modal open on [foo] and a reason typed. *)
Definition reject_modal : AdminPanel.Panel :=
  AdminPanel.setRejectionReason "duplicate"
    (AdminPanel.handleReject Examples.foo Examples.panel).

(** A session of Ivan: he signs in, approves [foo], and then confirms a
    rejection of it from the modal. *)
Definition moderation_session : list System.Op :=
  [System.SignIn Examples.signIn_env "ivan@admin.local" "password";
   System.ApproveTool Examples.store_env "t-foo" Examples.panel;
   System.ConfirmReject Examples.store_env reject_modal].

(** A visit of Elena: she signs in, rates [bar] and leaves. *)
Definition visit : list System.Op :=
  [System.SignIn Examples.signIn_env "elena@frontend.local" "password";
   System.RateTool "r-1" 3 Examples.bar_widget;
   System.HandleSignOut Examples.store_env AuthProvider.SignOutOk].

End MoreExamples.

(** * Properties *)

(** ** TTL cache *)

Lemma cache_get_absent {T : Type} (key : string) (now : Z)
    (c : gmap string (SimpleCache.CacheEntry T)) :
  c !! key = None -> SimpleCache.get key now c = (None, c).
Proof. intros H. unfold SimpleCache.get. by rewrite H. Qed.

Lemma cache_get_fresh {T : Type} (key : string) (now : Z)
    (c : gmap string (SimpleCache.CacheEntry T)) (e : SimpleCache.CacheEntry T) :
  c !! key = Some e ->
  now - SimpleCache.timestamp e <= SimpleCache.ttl e ->
  SimpleCache.get key now c = (Some (SimpleCache.data e), c).
Proof.
  intros H Hle. unfold SimpleCache.get. rewrite H.
  destruct (Z.gtb_spec (now - SimpleCache.timestamp e) (SimpleCache.ttl e)); [lia | done].
Qed.

Lemma cache_get_stale {T : Type} (key : string) (now : Z)
    (c : gmap string (SimpleCache.CacheEntry T)) (e : SimpleCache.CacheEntry T) :
  c !! key = Some e ->
  now - SimpleCache.timestamp e > SimpleCache.ttl e ->
  SimpleCache.get key now c = (None, delete key c).
Proof.
  intros H Hgt. unfold SimpleCache.get. rewrite H.
  destruct (Z.gtb_spec (now - SimpleCache.timestamp e) (SimpleCache.ttl e)); [done | lia].
Qed.

(** [has] answers as [get] does, and deletes what [get] deletes. *)
Lemma cache_has_agrees_with_get {T : Type} (key : string) (now : Z)
    (c : gmap string (SimpleCache.CacheEntry T)) :
  SimpleCache.has key now c
  = (bool_decide (is_Some (SimpleCache.get key now c).1),
     (SimpleCache.get key now c).2).
Proof.
  unfold SimpleCache.has, SimpleCache.get.
  destruct (c !! key) as [e|]; [destruct (_ >? _) |]; reflexivity.
Qed.

(** C4, as stated, fails at the boundary: an entry stored at time 0 with a
    ttl of one second is still returned at time 1000, where
    [now - storedAt] equals [ttl]. *)
Lemma cache_get_at_ttl_is_hit :
  ~ (forall (key : string) (now : Z) (c : gmap string (SimpleCache.CacheEntry Z))
            (e : SimpleCache.CacheEntry Z),
        c !! key = Some e ->
        now - SimpleCache.timestamp e >= SimpleCache.ttl e ->
        (SimpleCache.get key now c).1 = None).
Proof.
  intros H.
  specialize (H "categories"%string 1000 Examples.cached_categories
                (SimpleCache.mkEntry 7 0 1000)).
  unfold Examples.cached_categories, SimpleCache.set in H.
  rewrite lookup_insert_eq in H.
  specialize (H eq_refl ltac:(simpl; lia)).
  unfold SimpleCache.get in H. rewrite lookup_insert_eq in H.
  simpl in H. discriminate H.
Qed.

(** C4 (amended): [get key] returns the stored value exactly when the key
    is present and [now - storedAt <= ttl], leaving the map as it is; when
    [now - storedAt > ttl] the call is a miss and the entry is deleted;
    an absent key is a miss. *)
Theorem cache_get_hit_iff_within_ttl {T : Type} (key : string) (now : Z)
    (c : gmap string (SimpleCache.CacheEntry T)) :
  (forall v : T,
      (SimpleCache.get key now c).1 = Some v <->
      exists e, c !! key = Some e /\ SimpleCache.data e = v
                /\ now - SimpleCache.timestamp e <= SimpleCache.ttl e)
  /\ (forall e, c !! key = Some e ->
                now - SimpleCache.timestamp e <= SimpleCache.ttl e ->
                (SimpleCache.get key now c).2 = c)
  /\ (forall e, c !! key = Some e ->
                now - SimpleCache.timestamp e > SimpleCache.ttl e ->
                SimpleCache.get key now c = (None, delete key c)
                /\ (SimpleCache.get key now c).2 !! key = None)
  /\ (c !! key = None -> SimpleCache.get key now c = (None, c)).
Proof.
  split; [| split; [| split]].
  - intros v. split.
    + intros Hv. destruct (c !! key) as [e|] eqn:He.
      * destruct (Z_le_gt_dec (now - SimpleCache.timestamp e) (SimpleCache.ttl e))
          as [Hle|Hgt].
        -- rewrite (cache_get_fresh key now c e He Hle) in Hv. simpl in Hv.
           exists e. repeat split; [congruence | done].
        -- rewrite (cache_get_stale key now c e He Hgt) in Hv. discriminate Hv.
      * rewrite (cache_get_absent key now c He) in Hv. discriminate Hv.
    + intros (e & He & Hd & Hle).
      rewrite (cache_get_fresh key now c e He Hle). simpl. by rewrite Hd.
  - intros e He Hle. by rewrite (cache_get_fresh key now c e He Hle).
  - intros e He Hgt. rewrite (cache_get_stale key now c e He Hgt).
    split; [done | apply lookup_delete_eq].
  - apply cache_get_absent.
Qed.

Lemma cache_get_hit_iff_within_ttl_witness :
  (SimpleCache.get "categories" 1000 Examples.cached_categories).1 = Some 7
  /\ SimpleCache.get "categories" 1001 Examples.cached_categories
     = (None, delete "categories" Examples.cached_categories).
Proof.
  pose proof (cache_get_hit_iff_within_ttl "categories" 1000 Examples.cached_categories)
    as (Hhit & _).
  pose proof (cache_get_hit_iff_within_ttl "categories" 1001 Examples.cached_categories)
    as (_ & _ & Hstale & _).
  split.
  - apply Hhit. exists (SimpleCache.mkEntry 7 0 1000).
    split; [apply lookup_insert_eq | split; [reflexivity | simpl; lia]].
  - apply (Hstale (SimpleCache.mkEntry 7 0 1000)); [apply lookup_insert_eq | simpl; lia].
Defined.

(** ** Visibility of tools *)

Lemma existsb_filter_split {A : Type} (f g : A -> bool) (l : list A) :
  existsb (fun x => f x && g x) l = existsb g (List.filter f l).
Proof.
  induction l as [|x l IH]; [done |].
  simpl. destruct (f x); simpl; by rewrite IH.
Qed.

Lemma is_owner_of_actor (w : World) (a : Profile) :
  acts_as w a -> is_owner (db w) (profile_id a) = bool_decide (role a = owner).
Proof.
  intros (_ & _ & Hrow). unfold is_owner.
  rewrite existsb_filter_split, Hrow. simpl. by rewrite orb_false_r.
Qed.

Lemma canView_unfold (w : World) (a : Profile) (t : AITool) :
  acts_as w a ->
  AIToolsList.canView w t =
    bool_decide (status t = approved)
    || bool_decide (created_by t = Some (profile_id a))
    || bool_decide (role a = owner).
Proof.
  intros Ha. pose proof (is_owner_of_actor w a Ha) as Hown.
  destruct Ha as (Huid & Hprof & _).
  unfold AIToolsList.canView, ToolsTable.rls_select, AIToolsList.query_filter,
    AIToolsList.owner_profile.
  rewrite Huid, Hprof, Hown.
  unfold ToolsTable.auth_uid in Huid.
  destruct (user (auth_state w)) as [u|]; [| discriminate Huid].
  simpl in Huid. injection Huid as ->.
  destruct (bool_decide (status t = approved)),
    (bool_decide (created_by t = Some (profile_id a))),
    (bool_decide (role a = owner)); reflexivity.
Qed.

(** C7: a pending tool of somebody else is not shown to an actor who is
    not an owner, and [canView] is true exactly when the tool is approved,
    or the actor created it, or the actor's role is owner. *)
Theorem canView_iff_approved_creator_or_owner (w : World) (a : Profile) (t : AITool) :
  acts_as w a ->
  (status t = pending -> created_by t <> Some (profile_id a) -> role a <> owner ->
   AIToolsList.canView w t = false)
  /\ (AIToolsList.canView w t = true <->
      status t = approved \/ created_by t = Some (profile_id a) \/ role a = owner).
Proof.
  intros Ha. rewrite (canView_unfold w a t Ha). split.
  - intros Hp Hc Hr.
    rewrite !bool_decide_eq_false_2; [done | done | done | congruence].
  - rewrite !orb_true_iff, !bool_decide_eq_true. tauto.
Qed.

Lemma canView_iff_approved_creator_or_owner_witness :
  AIToolsList.canView (Examples.signed_in Examples.elena) Examples.foo = false
  /\ AIToolsList.canView (Examples.signed_in Examples.ivan) Examples.foo = true.
Proof.
  split.
  - apply (canView_iff_approved_creator_or_owner
             (Examples.signed_in Examples.elena) Examples.elena Examples.foo).
    + repeat split; reflexivity.
    + reflexivity.
    + simpl. discriminate.
    + simpl. discriminate.
  - apply (canView_iff_approved_creator_or_owner
             (Examples.signed_in Examples.ivan) Examples.ivan Examples.foo).
    + repeat split; reflexivity.
    + right. right. reflexivity.
Defined.

(** ** Moderation *)

Lemma find_map_preserving {A : Type} (p : A -> bool) (f : A -> A) (l : list A) :
  (forall x, p (f x) = p x) -> find p (map f l) = f <$> find p l.
Proof.
  intros Hp. induction l as [|x l IH]; [done |].
  simpl. rewrite Hp. destruct (p x); [done | exact IH].
Qed.

Lemma find_holds {A : Type} (p : A -> bool) (l : list A) (x : A) :
  find p l = Some x -> p x = true.
Proof. intros H. by destruct (find_some _ _ H). Qed.

(** An update by id reaches the row with that key when the UPDATE policy
    lets the caller touch it, and keeps the key. *)
Lemma lookup_update_where_id (d : Database) (uid : option string) (toolId : string)
    (patch : AITool -> AITool) (r : AITool) :
  (forall t, tool_id (patch t) = tool_id t) ->
  ToolsTable.lookup toolId d = Some r ->
  ToolsTable.rls_update d uid r = true ->
  ToolsTable.lookup toolId (ToolsTable.update_where_id uid toolId patch d)
  = Some (patch r).
Proof.
  intros Hid Hr Hrls. unfold ToolsTable.lookup, ToolsTable.update_where_id in *.
  simpl. rewrite find_map_preserving.
  - rewrite Hr. simpl. rewrite (find_holds _ _ _ Hr), Hrls. done.
  - intros x. destruct (_ && _); [by rewrite Hid | done].
Qed.

Lemma actor_user (w : World) (a : Profile) :
  acts_as w a -> exists u, user (auth_state w) = Some u /\ user_id u = profile_id a.
Proof.
  intros (Huid & _ & _). unfold ToolsTable.auth_uid in Huid.
  destruct (user (auth_state w)) as [u|]; [| discriminate Huid].
  exists u. split; [done |]. simpl in Huid. by injection Huid.
Qed.

Lemma owner_may_update (w : World) (a : Profile) (t : AITool) :
  acts_as w a -> role a = owner ->
  ToolsTable.rls_update (db w) (ToolsTable.auth_uid w) t = true.
Proof.
  intros Ha Hr. pose proof (is_owner_of_actor w a Ha) as Hown.
  destruct Ha as (Huid & _ & _). unfold ToolsTable.rls_update.
  rewrite Huid, Hown, (bool_decide_eq_true_2 _ Hr). apply orb_true_r.
Qed.

(** What [handleApprove] leaves in the store when an owner runs it and
    the store accepts the update: the row carries the approval. *)
Lemma handleApprove_updates_row (env : AdminPanel.StoreEnv) (w : World)
    (p : AdminPanel.Panel) (a : Profile) (toolId : string) (r : AITool) :
  acts_as w a -> role a = owner ->
  ToolsTable.lookup toolId (db w) = Some r ->
  AdminPanel.update_error env = None ->
  ToolsTable.lookup toolId (db (AdminPanel.handleApprove env toolId w p).1)
  = Some (AdminPanel.approve_patch (Some (profile_id a)) (AdminPanel.st_now env) r).
Proof.
  intros Ha Hr Hrow Herr.
  pose proof (owner_may_update w a r Ha Hr) as Hrls.
  destruct (actor_user w a Ha) as (u & Hu & _).
  destruct Ha as (Huid & _ & _).
  unfold AdminPanel.handleApprove. rewrite Herr. simpl.
  unfold AdminPanel.log, ActivityLogger.logActivity. simpl.
  rewrite Hu, <- Huid.
  destruct (supabase w), (AdminPanel.log_insert_error env); simpl;
    apply lookup_update_where_id; done.
Qed.

(** What [confirmReject] leaves in the store when an owner runs it on the
    selected tool and the store accepts the update and the log insert. *)
Lemma confirmReject_effect (env : AdminPanel.StoreEnv) (w : World)
    (p : AdminPanel.Panel) (a : Profile) (sel r : AITool) :
  supabase w = true ->
  acts_as w a -> role a = owner ->
  AdminPanel.selectedTool p = Some sel ->
  ToolsTable.lookup (tool_id sel) (db w) = Some r ->
  AdminPanel.update_error env = None ->
  AdminPanel.log_insert_error env = false ->
  ToolsTable.lookup (tool_id sel) (db (AdminPanel.confirmReject env w p).1)
  = Some (AdminPanel.reject_patch (Some (profile_id a)) (AdminPanel.st_now env)
            (AdminPanel.rejectionReason p) r)
  /\ exists e,
      activity_logs (db (AdminPanel.confirmReject env w p).1)
      = activity_logs (db w) ++ [e]
      /\ action e = reject_tool
      /\ log_user_id e = Some (profile_id a)
      /\ resource_id e = Some (tool_id sel).
Proof.
  intros Hsb Ha Hr Hsel Hrow Herr Hlog.
  pose proof (owner_may_update w a r Ha Hr) as Hrls.
  destruct (actor_user w a Ha) as (u & Hu & Huid').
  destruct Ha as (Huid & _ & _).
  unfold AdminPanel.confirmReject. rewrite Hsel, Herr. simpl.
  unfold AdminPanel.log, ActivityLogger.logActivity. simpl.
  rewrite Hu, Hsb, Hlog. simpl. split.
  - rewrite <- Huid. apply lookup_update_where_id; done.
  - eexists. split; [reflexivity |]. simpl. by rewrite Huid'.
Qed.

Lemma log_keeps_tools (env : AdminPanel.StoreEnv)
    (p : ActivityLogger.LogActivityParams) (w : World) :
  ai_tools (db (AdminPanel.log env p w)) = ai_tools (db w).
Proof.
  unfold AdminPanel.log, ActivityLogger.logActivity. simpl.
  destruct (user (auth_state w)); [| done].
  destruct (supabase w); simpl; [| done].
  by destruct (AdminPanel.log_insert_error env).
Qed.

Lemma moderation_buttons_iff (t : AITool) (b : AdminPanel.Button) :
  In b (AdminPanel.moderation_buttons t) <-> status t = pending.
Proof.
  unfold AdminPanel.moderation_buttons. case_bool_decide as Hs; simpl.
  - split; [done |]. intros _. destruct b; auto.
  - split; [tauto | done].
Qed.

Lemma decide_tool_needs_pending (env : AdminPanel.StoreEnv) (d : AdminPanel.Decision)
    (t : AITool) (w : World) (p : AdminPanel.Panel) :
  is_Some (AdminPanel.decide_tool env d t w p) -> status t = pending.
Proof.
  unfold AdminPanel.decide_tool. intros [r Hr].
  destruct (AdminPanel.panel_rendered w); [| discriminate Hr].
  destruct (bool_decide (t ∈ AdminPanel.tools p)); [| discriminate Hr].
  simpl in Hr. case_bool_decide as Hb; [| discriminate Hr].
  apply (moderation_buttons_iff t (AdminPanel.button_of d)).
  by apply list_elem_of_In.
Qed.

(** What [confirmReject] leaves in the store when an owner runs it on
    the selected tool and the store accepts the update. *)
Lemma confirmReject_updates_row (env : AdminPanel.StoreEnv) (w : World)
    (p : AdminPanel.Panel) (a : Profile) (sel r : AITool) :
  acts_as w a -> role a = owner ->
  AdminPanel.selectedTool p = Some sel ->
  ToolsTable.lookup (tool_id sel) (db w) = Some r ->
  AdminPanel.update_error env = None ->
  ToolsTable.lookup (tool_id sel) (db (AdminPanel.confirmReject env w p).1)
  = Some (AdminPanel.reject_patch (Some (profile_id a)) (AdminPanel.st_now env)
            (AdminPanel.rejectionReason p) r).
Proof.
  intros Ha Hr Hsel Hrow Herr.
  pose proof (owner_may_update w a r Ha Hr) as Hrls.
  destruct (actor_user w a Ha) as (u & Hu & _).
  destruct Ha as (Huid & _ & _).
  unfold AdminPanel.confirmReject. rewrite Hsel, Herr. simpl.
  unfold AdminPanel.log, ActivityLogger.logActivity. simpl.
  rewrite Hu, <- Huid.
  destruct (supabase w), (AdminPanel.log_insert_error env); simpl;
    apply lookup_update_where_id; done.
Qed.




(** C8, as stated, fails on the default text: rejecting [foo] with the
    reason field left empty stores the literal of the code, which is not
    "no reason given". *)
Lemma confirmReject_default_reason_literal :
  rejection_reason <$>
    ToolsTable.lookup "t-foo"
      (db (AdminPanel.confirmReject Examples.store_env
             (Examples.signed_in Examples.ivan)
             (AdminPanel.handleReject Examples.foo Examples.panel)).1)
  = Some (Some "Няма посочена причина"%string)
  /\ ~ (rejection_reason <$>
          ToolsTable.lookup "t-foo"
            (db (AdminPanel.confirmReject Examples.store_env
                   (Examples.signed_in Examples.ivan)
                   (AdminPanel.handleReject Examples.foo Examples.panel)).1)
        = Some (Some "no reason given"%string)).
Proof.
  split.
  - vm_compute. reflexivity.
  - vm_compute. discriminate.
Qed.

(** C8 (amended): when an owner confirms the rejection of the selected
    tool and the store accepts the update and the log insert, the row has
    [status = rejected], [approved_by] the owner's id, [approved_at] the
    current time and [rejection_reason] the text typed, or the literal
    "Няма посочена причина" when the field is empty; and one activity row
    with action [reject_tool] is added for the owner and the tool. *)
Theorem confirmReject_sets_rejected_with_reason (env : AdminPanel.StoreEnv)
    (w : World) (p : AdminPanel.Panel) (a : Profile) (sel r : AITool) :
  supabase w = true ->
  acts_as w a -> role a = owner ->
  AdminPanel.selectedTool p = Some sel ->
  ToolsTable.lookup (tool_id sel) (db w) = Some r ->
  AdminPanel.update_error env = None ->
  AdminPanel.log_insert_error env = false ->
  exists r' e,
    ToolsTable.lookup (tool_id sel) (db (AdminPanel.confirmReject env w p).1) = Some r'
    /\ tool_id r' = tool_id r
    /\ status r' = rejected
    /\ approved_by r' = Some (profile_id a)
    /\ approved_at r' = Some (AdminPanel.st_now env)
    /\ rejection_reason r'
       = Some (if bool_decide (AdminPanel.rejectionReason p = ""%string)
               then "Няма посочена причина"%string
               else AdminPanel.rejectionReason p)
    /\ activity_logs (db (AdminPanel.confirmReject env w p).1)
       = activity_logs (db w) ++ [e]
    /\ action e = reject_tool
    /\ log_user_id e = Some (profile_id a)
    /\ resource_id e = Some (tool_id sel).
Proof.
  intros Hsb Ha Hr Hsel Hrow Herr Hlog.
  destruct (confirmReject_effect env w p a sel r Hsb Ha Hr Hsel Hrow Herr Hlog)
    as (Hlk & e & Hlogs & Hact & Huid & Hres).
  eexists _, e. split; [exact Hlk |].
  repeat split; try done.
Qed.

Lemma confirmReject_sets_rejected_with_reason_witness :
  exists r' e,
    ToolsTable.lookup "t-foo"
      (db (AdminPanel.confirmReject Examples.store_env
             (Examples.signed_in Examples.ivan)
             (AdminPanel.handleReject Examples.foo Examples.panel)).1) = Some r'
    /\ tool_id r' = "t-foo"%string
    /\ status r' = rejected
    /\ approved_by r' = Some "u-ivan"%string
    /\ approved_at r' = Some 7000
    /\ rejection_reason r' = Some "Няма посочена причина"%string
    /\ activity_logs
         (db (AdminPanel.confirmReject Examples.store_env
                (Examples.signed_in Examples.ivan)
                (AdminPanel.handleReject Examples.foo Examples.panel)).1)
       = [e]
    /\ action e = reject_tool
    /\ log_user_id e = Some "u-ivan"%string
    /\ resource_id e = Some "t-foo"%string.
Proof.
  apply (confirmReject_sets_rejected_with_reason Examples.store_env
           (Examples.signed_in Examples.ivan)
           (AdminPanel.handleReject Examples.foo Examples.panel)
           Examples.ivan Examples.foo Examples.foo).
  - reflexivity.
  - repeat split; reflexivity.
  - reflexivity.
  - reflexivity.
  - reflexivity.
  - reflexivity.
  - reflexivity.
Defined.

(** ** Login *)

Lemma fetchProfile_keeps_session (o : QueryOutcome) (uid : string) (w : World) :
  session (auth_state (AuthContext.fetchProfile o uid w)) = session (auth_state w).
Proof.
  unfold AuthContext.fetchProfile. destruct (supabase w); simpl; [| done].
  destruct o; [| done | done]. by destruct (maybeSingle _).
Qed.

Lemma fetchProfile_keeps_store (o : QueryOutcome) (uid : string) (w : World) :
  db (AuthContext.fetchProfile o uid w) = db w
  /\ supabase (AuthContext.fetchProfile o uid w) = supabase w
  /\ side_channel (AuthContext.fetchProfile o uid w) = side_channel w.
Proof.
  unfold AuthContext.fetchProfile. destruct (supabase w) eqn:Hs; simpl; [| done].
  destruct o; [| done | done]. by destruct (maybeSingle _).
Qed.

Lemma fetchProfile_keeps_user (o : QueryOutcome) (uid : string) (w : World) :
  user (auth_state (AuthContext.fetchProfile o uid w)) = user (auth_state w).
Proof.
  unfold AuthContext.fetchProfile. destruct (supabase w); simpl; [| done].
  destruct o; [| done | done]. by destruct (maybeSingle _).
Qed.

Lemma auth_listener_session (o : QueryOutcome) (s : Session) (w : World) :
  session (auth_state (AuthContext.auth_listener o (Some s) w)) = Some s.
Proof.
  unfold AuthContext.auth_listener. by rewrite fetchProfile_keeps_session.
Qed.

Lemma auth_listener_keeps_store (o : QueryOutcome) (s : option Session) (w : World) :
  db (AuthContext.auth_listener o s w) = db w
  /\ supabase (AuthContext.auth_listener o s w) = supabase w
  /\ side_channel (AuthContext.auth_listener o s w) = side_channel w.
Proof.
  unfold AuthContext.auth_listener. destruct s as [se|]; [| done].
  apply (fetchProfile_keeps_store _ _ (set_auth_state _ w)).
Qed.

(** Whatever [signIn] answers, it is never the error the form waits for
    to open the code step. *)
Lemma signIn_error_cases (env : AuthContext.SignInEnv) (email password : string)
    (w : World) :
  AuthContext.error (AuthContext.signIn env email password w).1 = None
  \/ AuthContext.error (AuthContext.signIn env email password w).1
     = Some AuthContext.not_configured
  \/ AuthContext.error (AuthContext.signIn env email password w).1
     = Some (mkError "Грешка при влизане")
  \/ AuthContext.error (AuthContext.signIn env email password w).1
     = Some AuthProvider.invalid_login_credentials.
Proof.
  unfold AuthContext.signIn.
  destruct (supabase w); simpl; [| auto].
  destruct (AuthContext.auth_throws env); simpl; [auto |].
  unfold AuthProvider.signInWithPassword.
  destruct (find _ _) as [a|]; simpl; [| auto].
  destruct (bool_decide (au_password a = password)); simpl; [| auto].
  destruct (AuthContext.profile_throws env); simpl; auto.
Qed.

(** The submit handler of the credentials form never opens the code step. *)
Lemma handleSubmit_keeps_showTwoFactor (env : AuthContext.SignInEnv) (w : World)
    (f : LoginForm.Form) :
  LoginForm.showTwoFactor (LoginForm.handleSubmit env w f).2 = LoginForm.showTwoFactor f.
Proof.
  unfold LoginForm.handleSubmit. destruct (supabase w); [| done].
  pose proof (signIn_error_cases env (LoginForm.email f) (LoginForm.password f) w) as H.
  destruct (AuthContext.signIn env (LoginForm.email f) (LoginForm.password f) w)
    as [r w'].
  simpl in H. destruct H as [H | [H | [H | H]]]; rewrite H; reflexivity.
Qed.

(** With the right password [signIn] opens the session, whether or not the
    profile has two-factor authentication enabled. *)
Lemma signIn_valid_credentials_opens_session (env : AuthContext.SignInEnv)
    (email password : string) (w : World) (au : AuthUser) :
  supabase w = true ->
  AuthContext.auth_throws env = false ->
  AuthProvider.signInWithPassword (db w) email password = inr au ->
  session (auth_state (AuthContext.signIn env email password w).2)
  = Some (mkSession (AuthProvider.to_user au)).
Proof.
  intros Hsb Hth Hok. unfold AuthContext.signIn.
  rewrite Hsb, Hth. cbn [negb set_auth_state db]. rewrite Hok.
  set (w1 := AuthContext.auth_listener _ _ _).
  assert (Hs : session (auth_state w1) = Some (mkSession (AuthProvider.to_user au)))
    by apply auth_listener_session.
  clearbody w1.
  destruct (AuthContext.profile_throws env); [exact Hs |].
  destruct (if AuthContext.profile_error env then _ else _) as [p|];
    [destruct (two_factor_enabled p) |];
    destruct (AuthContext.log_insert_fails env); exact Hs.
Qed.

(** C1 evaluated on the seed account with two-factor authentication
    enabled: after the credentials form is submitted with the right
    password the session is open and the code step was never shown. *)
Theorem signIn_with_two_factor_enabled_opens_session :
  two_factor_enabled Examples.elena = true
  /\ LoginForm.login_state Examples.signed_out Examples.elena_form
     = LoginForm.AwaitingCredentials
  /\ LoginForm.login_state
       (LoginForm.handleSubmit Examples.signIn_env Examples.signed_out
                               Examples.elena_form).1
       (LoginForm.handleSubmit Examples.signIn_env Examples.signed_out
                               Examples.elena_form).2
     = LoginForm.Authenticated
  /\ LoginForm.showTwoFactor
       (LoginForm.handleSubmit Examples.signIn_env Examples.signed_out
                               Examples.elena_form).2
     = false
  /\ LoginForm.toasts
       (LoginForm.handleSubmit Examples.signIn_env Examples.signed_out
                               Examples.elena_form).2
     = [LoginForm.SuccessToast "Успешен вход в системата"].
Proof. vm_compute. repeat split. Qed.

(** ** Code verification *)

Lemma empty_code_is_malformed (code : string) :
  code = ""%string -> EdgeFunctions.malformed_code code = true.
Proof. by intros ->. Qed.

(** A malformed code is answered with status 400 and the store is left
    alone. *)
Lemma verify_2fa_rejects_malformed (env : EdgeFunctions.Verify2faEnv)
    (email code : string) (d : Database) :
  EdgeFunctions.malformed_code code = true ->
  exists b, EdgeFunctions.verify_2fa env email code d
            = (EdgeFunctions.mkResponse 400 b, d).
Proof.
  intros Hm. unfold EdgeFunctions.verify_2fa.
  destruct (_ || _); [by eexists |]. rewrite Hm. by eexists.
Qed.

(** Any six-digit code is answered with a temporary password for the
    account, which the function installs. *)
Lemma verify_2fa_accepts_six_digits (env : EdgeFunctions.Verify2faEnv)
    (email code : string) (d : Database) (u : AuthUser) :
  email <> ""%string ->
  EdgeFunctions.malformed_code code = false ->
  EdgeFunctions.listUsers_error env = None ->
  EdgeFunctions.updateUserById_error env = None ->
  find (fun a => bool_decide (au_email a = email)) (auth_users d) = Some u ->
  EdgeFunctions.verify_2fa env email code d
  = (EdgeFunctions.mkResponse 200
       (EdgeFunctions.BodySuccess (EdgeFunctions.temp_password env)
          "Кодът е потвърден успешно"),
     set_auth_users
       (map (EdgeFunctions.set_password (au_id u) (EdgeFunctions.temp_password env))
            (auth_users d))
       d).
Proof.
  intros He Hm Hl Hu Hfind. unfold EdgeFunctions.verify_2fa.
  rewrite (bool_decide_eq_false_2 _ He). simpl.
  case_bool_decide as Hc.
  - rewrite (empty_code_is_malformed code Hc) in Hm. discriminate Hm.
  - rewrite Hm, Hl, Hfind, Hu. reflexivity.
Qed.

Lemma set_password_keeps_email (uid pw : string) (a : AuthUser) :
  au_email (EdgeFunctions.set_password uid pw a) = au_email a.
Proof. unfold EdgeFunctions.set_password. by case_bool_decide. Qed.

(** After the function has run, the temporary password signs the account
    in. *)
Lemma temp_password_signs_in (d : Database) (email pw : string) (u : AuthUser) :
  find (fun a => bool_decide (au_email a = email)) (auth_users d) = Some u ->
  AuthProvider.signInWithPassword
    (set_auth_users (map (EdgeFunctions.set_password (au_id u) pw) (auth_users d)) d)
    email pw
  = inr (mkAuthUser (au_id u) (au_email u) pw).
Proof.
  intros Hfind. unfold AuthProvider.signInWithPassword. simpl.
  rewrite find_map_preserving.
  - rewrite Hfind. simpl. unfold EdgeFunctions.set_password.
    rewrite (bool_decide_eq_true_2 (au_id u = au_id u)) by done. simpl.
    by rewrite bool_decide_eq_true_2.
  - intros x. by rewrite set_password_keeps_email.
Qed.

(** A malformed code stops [verifyTwoFactor] with an error, whatever the
    outside does; no session is opened and the store is left alone. *)
Lemma verifyTwoFactor_rejects_malformed (env : EdgeFunctions.Verify2faEnv)
    (email code : string) (w : World) :
  EdgeFunctions.malformed_code code = true ->
  (exists e, AuthContext.error (AuthContext.verifyTwoFactor env email code w).1 = Some e)
  /\ session (auth_state (AuthContext.verifyTwoFactor env email code w).2)
     = session (auth_state w)
  /\ db (AuthContext.verifyTwoFactor env email code w).2 = db w.
Proof.
  intros Hm. unfold AuthContext.verifyTwoFactor.
  destruct (supabase w); simpl; [| by eauto].
  destruct (verify_2fa_rejects_malformed env email code (db w) Hm) as (b & ->).
  destruct (EdgeFunctions.invoke_error env); simpl; eauto.
Qed.

(** The client's part of a verification once the function has answered
    with its success body and the answer has arrived. *)
Lemma verifyTwoFactor_after_success (env : EdgeFunctions.Verify2faEnv)
    (email code : string) (w : World) (u : AuthUser) :
  supabase w = true ->
  email <> ""%string ->
  EdgeFunctions.malformed_code code = false ->
  EdgeFunctions.listUsers_error env = None ->
  EdgeFunctions.updateUserById_error env = None ->
  find (fun a => bool_decide (au_email a = email)) (auth_users (db w)) = Some u ->
  AuthContext.verifyTwoFactor env email code w
  = let w1 :=
      set_db (set_auth_users
                (map (EdgeFunctions.set_password (au_id u)
                        (EdgeFunctions.temp_password env))
                     (auth_users (db w)))
                (db w))
             (set_auth_state (setLoading true (auth_state w)) w) in
    let stop e :=
      (AuthContext.mkResult (Some e),
       set_auth_state (setLoading false (auth_state w1)) w1) in
    match EdgeFunctions.invoke_error env with
    | Some e => stop e
    | None =>
        match EdgeFunctions.signIn_error env with
        | Some e => stop e
        | None =>
            let w2 :=
              AuthContext.auth_listener (EdgeFunctions.listener_fetch env)
                (Some (mkSession
                         (AuthProvider.to_user
                            (mkAuthUser (au_id u) (au_email u)
                               (EdgeFunctions.temp_password env)))))
                w1 in
            (AuthContext.mkResult None,
             set_auth_state (setLoading false (auth_state w2)) w2)
        end
    end.
Proof.
  intros Hsb He Hm Hl Hu Hfind. unfold AuthContext.verifyTwoFactor.
  rewrite Hsb. cbn [negb set_auth_state db].
  rewrite (verify_2fa_accepts_six_digits env email code (db w) u He Hm Hl Hu Hfind).
  cbv zeta. destruct (EdgeFunctions.invoke_error env); [done |].
  cbn [EdgeFunctions.invoke EdgeFunctions.resp_status EdgeFunctions.resp_body
       andb Z.leb Z.ltb Z.compare Pos.compare Pos.compare_cont set_db db].
  destruct (EdgeFunctions.signIn_error env); [done |].
  by rewrite (temp_password_signs_in (db w) email _ u Hfind).
Qed.

Lemma verifyTwoFactor_accepts_six_digits (env : EdgeFunctions.Verify2faEnv)
    (email code : string) (w : World) (u : AuthUser) :
  supabase w = true ->
  email <> ""%string ->
  EdgeFunctions.malformed_code code = false ->
  EdgeFunctions.listUsers_error env = None ->
  EdgeFunctions.updateUserById_error env = None ->
  EdgeFunctions.invoke_error env = None ->
  EdgeFunctions.signIn_error env = None ->
  find (fun a => bool_decide (au_email a = email)) (auth_users (db w)) = Some u ->
  AuthContext.error (AuthContext.verifyTwoFactor env email code w).1 = None
  /\ session (auth_state (AuthContext.verifyTwoFactor env email code w).2)
     = Some (mkSession (mkUser (au_id u) (au_email u)))
  /\ loading (auth_state (AuthContext.verifyTwoFactor env email code w).2) = false.
Proof.
  intros Hsb He Hm Hl Hu Hi Hs Hfind.
  rewrite (verifyTwoFactor_after_success env email code w u Hsb He Hm Hl Hu Hfind).
  cbv zeta. rewrite Hi, Hs. split; [reflexivity |]. split; [| reflexivity].
  cbn [snd]. unfold set_auth_state at 1. cbn [auth_state session setLoading].
  apply auth_listener_session.
Qed.

(** C2, as stated, fails: the code 123456 has been issued for Elena and
    nobody is signed in; verifying 654321 for her succeeds and opens her
    session. *)
Lemma wrong_code_is_accepted :
  session (auth_state Examples.awaiting_code) = None
  /\ side_channel Examples.awaiting_code
     = [("elena@frontend.local"%string, "123456"%string)]
  /\ AuthContext.error
       (AuthContext.verifyTwoFactor Examples.verify_env "elena@frontend.local"
          "654321" Examples.awaiting_code).1 = None
  /\ session
       (auth_state
          (AuthContext.verifyTwoFactor Examples.verify_env "elena@frontend.local"
             "654321" Examples.awaiting_code).2)
     = Some (mkSession (Examples.user_of Examples.elena))
  /\ (forall f,
        LoginForm.login_state
          (AuthContext.verifyTwoFactor Examples.verify_env "elena@frontend.local"
             "654321" Examples.awaiting_code).2 f
        = LoginForm.Authenticated).
Proof.
  vm_compute. repeat split.
Qed.

(** C2 (amended): [verifyTwoFactor] fails for a code that is not a string
    of exactly six decimal digits: it resolves with an error, opens no
    session and leaves the store as it was. Every code of six decimal
    digits is accepted, whatever code was issued: the session is opened
    and the dashboard is shown, provided the account exists, the admin
    calls of the function succeed, its answer arrives and the provider
    accepts the sign-in that follows. *)
Theorem verification_checks_only_the_format (env : EdgeFunctions.Verify2faEnv)
    (email code : string) (w : World) :
  supabase w = true ->
  (EdgeFunctions.malformed_code code = true ->
   AuthContext.error (AuthContext.verifyTwoFactor env email code w).1 <> None
   /\ session (auth_state (AuthContext.verifyTwoFactor env email code w).2)
      = session (auth_state w)
   /\ db (AuthContext.verifyTwoFactor env email code w).2 = db w)
  /\ (EdgeFunctions.malformed_code code = false ->
      email <> ""%string ->
      EdgeFunctions.listUsers_error env = None ->
      EdgeFunctions.updateUserById_error env = None ->
      EdgeFunctions.invoke_error env = None ->
      EdgeFunctions.signIn_error env = None ->
      forall u,
        find (fun a => bool_decide (au_email a = email)) (auth_users (db w)) = Some u ->
        AuthContext.error (AuthContext.verifyTwoFactor env email code w).1 = None
        /\ session (auth_state (AuthContext.verifyTwoFactor env email code w).2)
           = Some (mkSession (mkUser (au_id u) (au_email u)))
        /\ (forall f,
              LoginForm.login_state
                (AuthContext.verifyTwoFactor env email code w).2 f
              = LoginForm.Authenticated)).
Proof.
  intros Hsb. split.
  - intros Hm.
    destruct (verifyTwoFactor_rejects_malformed env email code w Hm)
      as ((e & He) & Hs & Hdb).
    rewrite He. done.
  - intros Hm He Hl Hu Hi Hsi u Hfind.
    destruct (verifyTwoFactor_accepts_six_digits env email code w u
                Hsb He Hm Hl Hu Hi Hsi Hfind) as (Hr & Hs & Hload).
    split; [done |]. split; [done |].
    intros f. unfold LoginForm.login_state. by rewrite Hload, Hs.
Qed.

Lemma verification_checks_only_the_format_witness :
  session
    (auth_state
       (AuthContext.verifyTwoFactor Examples.verify_env "elena@frontend.local"
          "12a45" Examples.awaiting_code).2) = None
  /\ session
       (auth_state
          (AuthContext.verifyTwoFactor Examples.verify_env "elena@frontend.local"
             "654321" Examples.awaiting_code).2)
     = Some (mkSession (mkUser "u-elena" "elena@frontend.local")).
Proof.
  split.
  - apply (proj1 (verification_checks_only_the_format Examples.verify_env
                    "elena@frontend.local" "12a45" Examples.awaiting_code eq_refl)).
    reflexivity.
  - apply (proj2 (verification_checks_only_the_format Examples.verify_env
                    "elena@frontend.local" "654321" Examples.awaiting_code eq_refl)
             eq_refl ltac:(discriminate) eq_refl eq_refl eq_refl eq_refl
             (mkAuthUser "u-elena" "elena@frontend.local" "password") eq_refl).
Defined.

(** ** Sign-out *)

(** C9: [signOut] resolves with [{ error: null }] on every path, whatever
    the provider's sign-out does (success, an error of either kind, an
    exception); with a client present the session, the user and the
    profile of the auth context are cleared whatever the provider does,
    and without a client nothing is touched. *)
Theorem signOut_resolves_without_error (o : AuthProvider.SignOutOutcome) (w : World) :
  AuthContext.error (AuthContext.signOut o w).1 = None
  /\ (supabase w = true ->
      session (auth_state (AuthContext.signOut o w).2) = None
      /\ user (auth_state (AuthContext.signOut o w).2) = None
      /\ profile (auth_state (AuthContext.signOut o w).2) = None
      /\ cache (AuthContext.signOut o w).2 = ∅)
  /\ (supabase w = false -> (AuthContext.signOut o w).2 = w).
Proof.
  unfold AuthContext.signOut. destruct (supabase w).
  - destruct o as [| e |]; simpl.
    + repeat split; done.
    + destruct (_ || _); repeat split; done.
    + repeat split; done.
  - simpl. repeat split; done.
Qed.

Lemma signOut_resolves_without_error_witness :
  session (auth_state
             (AuthContext.signOut
                (AuthProvider.SignOutError (mkError "Failed to fetch"))
                (Examples.signed_in Examples.elena)).2) = None
  /\ user (auth_state
             (AuthContext.signOut AuthProvider.SignOutThrows
                (Examples.signed_in Examples.elena)).2) = None.
Proof.
  split.
  - apply (signOut_resolves_without_error
             (AuthProvider.SignOutError (mkError "Failed to fetch"))
             (Examples.signed_in Examples.elena)).
    reflexivity.
  - apply (signOut_resolves_without_error AuthProvider.SignOutThrows
             (Examples.signed_in Examples.elena)).
    reflexivity.
Defined.

(** ** Audit trail *)

(** C10: [logActivity] writes nothing when no user is signed in; [signIn]
    writes nothing when the provider refuses the credentials; and whatever
    [signIn] writes is one [login] row carrying the id of the account the
    provider has just authenticated. *)
Theorem audit_rows_only_for_authenticated_users :
  (forall sb now ua ie p d,
      ActivityLogger.logActivity sb None now ua ie p d = d)
  /\ (forall env email password w e,
        AuthProvider.signInWithPassword (db w) email password = inl e ->
        activity_logs (db (AuthContext.signIn env email password w).2)
        = activity_logs (db w))
  /\ (forall env email password w,
        activity_logs (db (AuthContext.signIn env email password w).2)
        = activity_logs (db w)
        \/ exists au has_2fa,
             AuthProvider.signInWithPassword (db w) email password = inr au
             /\ activity_logs (db (AuthContext.signIn env email password w).2)
                = activity_logs (db w)
                  ++ [AuthContext.login_entry env (au_id au) email has_2fa]).
Proof.
  split; [done | split].
  - intros env email password w e He. unfold AuthContext.signIn.
    destruct (supabase w); [| done]. cbn [negb set_auth_state db].
    destruct (AuthContext.auth_throws env); [done |]. by rewrite He.
  - intros env email password w. unfold AuthContext.signIn.
    destruct (supabase w); [| by left]. cbn [negb set_auth_state db].
    destruct (AuthContext.auth_throws env); [by left |].
    destruct (AuthProvider.signInWithPassword (db w) email password) as [e | au];
      [by left |].
    set (w1 := AuthContext.auth_listener _ _ _).
    assert (Hdb : db w1 = db w) by exact (proj1 (auth_listener_keeps_store _ _ _)).
    clearbody w1.
    destruct (AuthContext.profile_throws env); [left; simpl; by rewrite Hdb |].
    destruct (AuthContext.log_insert_fails env).
    + left. destruct (if AuthContext.profile_error env then _ else _) as [p|];
        [destruct (two_factor_enabled p) |]; simpl; by rewrite Hdb.
    + right. exists au.
      destruct (if AuthContext.profile_error env then _ else _) as [p|]; [destruct (two_factor_enabled p) |];
        eexists; (split; [reflexivity |]); simpl; by rewrite Hdb.
Qed.

Lemma audit_rows_only_for_authenticated_users_witness :
  activity_logs
    (db (AuthContext.signIn Examples.signIn_env "elena@frontend.local" "guess"
           Examples.signed_out).2)
  = [].
Proof.
  destruct audit_rows_only_for_authenticated_users as (_ & Hbad & _).
  apply (Hbad Examples.signIn_env "elena@frontend.local"%string "guess"%string
              Examples.signed_out AuthProvider.invalid_login_credentials).
  reflexivity.
Defined.

(** ** Ratings *)

(** With the arbiter the call leaves to the store (the primary key), a
    rating for a pair that already has a row is refused, and the table is
    left as it was. *)
Lemma upsert_default_rejects_second_rating (uid : option string) (fresh_id : string)
    (v : RatingsTable.NewRating) (rows : list ToolRating) (old : ToolRating) :
  uid = Some (RatingsTable.new_user_id v) ->
  1 <= RatingsTable.new_rating v <= 5 ->
  old ∈ rows ->
  rating_tool_id old = RatingsTable.new_tool_id v ->
  rating_user_id old = RatingsTable.new_user_id v ->
  (forall x, x ∈ rows -> rating_id x <> fresh_id) ->
  RatingsTable.upsert uid None fresh_id v rows
  = (Some RatingsTable.UniqueViolation, rows).
Proof.
  intros Huid Hrange Hold Ht Hu Hfresh. unfold RatingsTable.upsert.
  rewrite (bool_decide_eq_true_2 _ Huid). simpl.
  replace ((1 <=? RatingsTable.new_rating v) && (RatingsTable.new_rating v <=? 5))
    with true by (symmetry; apply andb_true_iff; split; apply Z.leb_le; lia).
  simpl.
  replace (existsb _ rows) with false.
  - replace (existsb _ rows) with true; [done |].
    symmetry. apply existsb_exists. exists old.
    split; [by apply list_elem_of_In |].
    apply orb_true_iff. right. unfold RatingsTable.same_pair. simpl.
    by rewrite !bool_decide_eq_true_2.
  - symmetry. apply not_true_is_false. intros Hex.
    apply existsb_exists in Hex as (x & Hx & Hsame).
    unfold RatingsTable.same_id in Hsame. simpl in Hsame.
    apply bool_decide_eq_true in Hsame.
    by apply (Hfresh x); [apply list_elem_of_In |].
Qed.

(** Had the call named the unique pair as the arbiter, the second rating
    would have replaced the first. *)
Lemma upsert_on_pair_overwrites (id1 id2 t u : string) (v1 v2 : Z) :
  1 <= v1 <= 5 -> 1 <= v2 <= 5 ->
  RatingsTable.upsert (Some u) (Some ["tool_id"%string; "user_id"%string]) id2
    (RatingsTable.mkNew t u v2)
    (RatingsTable.upsert (Some u) (Some ["tool_id"%string; "user_id"%string]) id1
       (RatingsTable.mkNew t u v1) []).2
  = (None, [mkRating id1 t u v2]).
Proof.
  intros H1 H2. unfold RatingsTable.upsert. simpl.
  rewrite !bool_decide_eq_true_2 by done. simpl.
  replace ((1 <=? v1) && (v1 <=? 5)) with true
    by (symmetry; apply andb_true_iff; split; apply Z.leb_le; lia).
  replace ((1 <=? v2) && (v2 <=? 5)) with true
    by (symmetry; apply andb_true_iff; split; apply Z.leb_le; lia).
  simpl. unfold RatingsTable.same_pair. simpl.
  rewrite !bool_decide_eq_true_2 by done. reflexivity.
Qed.

(** The instance the specification tests: the same value twice leaves one
    row with that value (the second write is refused, not merged). *)
Lemma same_rating_twice_leaves_one_row :
  tool_ratings
    (db (ToolRatingComponent.handleRatingClick "r-2" 5
           (ToolRatingComponent.handleRatingClick "r-1" 5
              (Examples.signed_in Examples.elena) Examples.bar_widget).1
           (ToolRatingComponent.handleRatingClick "r-1" 5
              (Examples.signed_in Examples.elena) Examples.bar_widget).2).1)
  = [mkRating "r-1" "t-bar" "u-elena" 5].
Proof. vm_compute. reflexivity. Qed.

(** C5 evaluated on a second rating with another value: Elena rates the
    approved tool [bar] with 3 and then with 5; the second upsert is
    refused by [UNIQUE(tool_id, user_id)], so the one row still holds 3
    and the widget still shows 3. *)
Theorem second_rating_does_not_overwrite :
  tool_ratings (db Examples.rated_once.1) = [mkRating "r-1" "t-bar" "u-elena" 3]
  /\ RatingsTable.upsert (Some "u-elena"%string) None "r-2"
       (RatingsTable.mkNew "t-bar" "u-elena" 5)
       (tool_ratings (db Examples.rated_once.1))
     = (Some RatingsTable.UniqueViolation, tool_ratings (db Examples.rated_once.1))
  /\ tool_ratings (db Examples.rated_twice.1) = [mkRating "r-1" "t-bar" "u-elena" 3]
  /\ ToolRatingComponent.userRating Examples.rated_twice.2 = 3.
Proof. vm_compute. repeat split. Qed.

(** ** Rating statistics *)

Lemma fold_left_sum_acc (l : list ToolRating) (acc : Z) :
  fold_left (fun sum r => sum + rating r) l acc
  = acc + foldr Z.add 0 (map rating l).
Proof.
  revert acc. induction l as [|r l IH]; intros acc; simpl; [lia |].
  rewrite IH. lia.
Qed.

Lemma averageRating_nil : AIToolsList.averageRating [] = 0%Q.
Proof. reflexivity. Qed.

Lemma averageRating_mean (l : list ToolRating) :
  l <> [] -> AIToolsList.averageRating l = AIToolsList.mean l.
Proof.
  intros Hl. unfold AIToolsList.averageRating, AIToolsList.mean.
  destruct l as [|r l]; [done |].
  replace (0 <? length (r :: l))%nat with true by (symmetry; apply Nat.ltb_lt; simpl; lia).
  by rewrite fold_left_sum_acc, Z.add_0_l.
Qed.

Lemma filter_Permutation_bool {A : Type} (f : A -> bool) (l l' : list A) :
  Permutation l l' -> Permutation (List.filter f l) (List.filter f l').
Proof.
  induction 1 as [| x l l' _ IH | x y l | l l' l'' _ IH1 _ IH2]; simpl.
  - done.
  - destruct (f x); [by constructor | done].
  - destruct (f x), (f y); try done. apply perm_swap.
  - by etrans.
Qed.

Lemma sum_Permutation (l l' : list ToolRating) :
  Permutation l l' ->
  foldr Z.add 0 (map rating l) = foldr Z.add 0 (map rating l').
Proof.
  induction 1 as [| x l l' _ IH | x y l | l l' l'' _ IH1 _ IH2]; simpl; lia.
Qed.

Lemma averageRating_Permutation (l l' : list ToolRating) :
  Permutation l l' -> AIToolsList.averageRating l = AIToolsList.averageRating l'.
Proof.
  intros Hp. unfold AIToolsList.averageRating.
  rewrite !fold_left_sum_acc, (sum_Permutation l l' Hp).
  by rewrite (Permutation_length Hp).
Qed.

(** For a signed-in caller the SELECT policy hides no rating of an
    approved tool and every rating of a tool that is not approved. *)
Lemma select_by_tool_approved (d : Database) (u toolId : string) :
  RatingsTable.tool_approved d toolId = true ->
  RatingsTable.select_by_tool d (Some u) toolId = RatingsTable.stored_for d toolId.
Proof.
  intros Ha. unfold RatingsTable.select_by_tool, RatingsTable.stored_for.
  apply List.filter_ext. intros r. unfold RatingsTable.rls_select.
  case_bool_decide as Hr; [| by rewrite andb_false_r].
  by rewrite Hr, Ha.
Qed.

Lemma select_by_tool_not_approved (d : Database) (uid : option string)
    (toolId : string) :
  RatingsTable.tool_approved d toolId = false ->
  RatingsTable.select_by_tool d uid toolId = [].
Proof.
  intros Ha. unfold RatingsTable.select_by_tool.
  induction (tool_ratings d) as [|r l IH]; [done |]. simpl.
  unfold RatingsTable.rls_select at 1.
  case_bool_decide as Hr.
  - rewrite Hr, Ha. by destruct uid.
  - by rewrite andb_false_r.
Qed.

(** C6, as stated, fails for a tool that is not approved: the pending tool
    [foo] has one stored rating, of 4, which the SELECT policy hides even
    from its creator, and its average comes out as 0. *)
Lemma pending_tool_average_ignores_stored_rating :
  RatingsTable.stored_for (db (Examples.rated_world Examples.petar)) "t-foo"
  = [mkRating "r-1" "t-foo" "u-petar" 4]
  /\ AIToolsList.average_rating
       (AIToolsList.aggregate false (Examples.rated_world Examples.petar) "t-foo")
     = 0%Q
  /\ ~ (AIToolsList.average_rating
          (AIToolsList.aggregate false (Examples.rated_world Examples.petar) "t-foo")
        == AIToolsList.mean
             (RatingsTable.stored_for (db (Examples.rated_world Examples.petar)) "t-foo"))%Q.
Proof.
  split; [reflexivity | split; [reflexivity |]].
  vm_compute. discriminate.
Qed.

(** C6 (amended): for a signed-in viewer and an approved tool, the count
    is the number of stored ratings of the tool and the average is 0 when
    there is none and their arithmetic mean otherwise, the same for every
    order of the stored rows; for a tool that is not approved the ratings
    are not readable and count and average are 0. *)
Theorem average_is_mean_for_approved_tool (w : World) (u toolId : string) :
  ToolsTable.auth_uid w = Some u ->
  (RatingsTable.tool_approved (db w) toolId = true ->
   AIToolsList.total_ratings (AIToolsList.aggregate false w toolId)
   = length (RatingsTable.stored_for (db w) toolId)
   /\ (RatingsTable.stored_for (db w) toolId = [] ->
       AIToolsList.average_rating (AIToolsList.aggregate false w toolId) = 0%Q)
   /\ (RatingsTable.stored_for (db w) toolId <> [] ->
       AIToolsList.average_rating (AIToolsList.aggregate false w toolId)
       = AIToolsList.mean (RatingsTable.stored_for (db w) toolId))
   /\ (forall w',
          ToolsTable.auth_uid w' = Some u ->
          ai_tools (db w') = ai_tools (db w) ->
          Permutation (tool_ratings (db w)) (tool_ratings (db w')) ->
          AIToolsList.aggregate false w' toolId = AIToolsList.aggregate false w toolId))
  /\ (RatingsTable.tool_approved (db w) toolId = false ->
      AIToolsList.aggregate false w toolId = AIToolsList.mkStats 0 0%Q).
Proof.
  intros Hu. split.
  - intros Ha. unfold AIToolsList.aggregate. rewrite Hu.
    rewrite (select_by_tool_approved (db w) u toolId Ha). simpl.
    split; [done | split; [| split]].
    + by intros ->.
    + apply averageRating_mean.
    + intros w' Hu' Htools Hperm. rewrite Hu'.
      assert (Ha' : RatingsTable.tool_approved (db w') toolId = true).
      { unfold RatingsTable.tool_approved in *. by rewrite Htools. }
      rewrite (select_by_tool_approved (db w') u toolId Ha').
      assert (Hp : Permutation (RatingsTable.stored_for (db w') toolId)
                               (RatingsTable.stored_for (db w) toolId)).
      { apply filter_Permutation_bool. by symmetry. }
      by rewrite (Permutation_length Hp), (averageRating_Permutation _ _ Hp).
  - intros Ha. unfold AIToolsList.aggregate.
    by rewrite (select_by_tool_not_approved (db w) _ toolId Ha).
Qed.

Lemma average_is_mean_for_approved_tool_witness :
  AIToolsList.total_ratings
    (AIToolsList.aggregate false (Examples.rated_world Examples.elena) "t-bar")
  = 2%nat
  /\ (AIToolsList.average_rating
        (AIToolsList.aggregate false (Examples.rated_world Examples.elena) "t-bar")
      == 7 # 2)%Q.
Proof.
  destruct (average_is_mean_for_approved_tool (Examples.rated_world Examples.elena)
              "u-elena" "t-bar" eq_refl) as (Happ & _).
  destruct (Happ eq_refl) as (Hcount & _ & Hmean & _).
  split.
  - rewrite Hcount. reflexivity.
  - rewrite Hmean; [| discriminate]. reflexivity.
Defined.

(** * Further properties of the code *)

(** ** Cache: round trip, frame, finality of a miss *)

(** X1: a value stored with [set] is returned by [get] at every reading
    of the clock up to [ttlSeconds * 1000] ms after the store, whatever
    the key held before, and past that bound the call is a miss that
    leaves the key absent. *)
Theorem cache_set_then_get {T : Type} (key : string) (d : T) (ttlSeconds t now : Z)
    (c : gmap string (SimpleCache.CacheEntry T)) :
  (now - t <= ttlSeconds * 1000 ->
   SimpleCache.get key now (SimpleCache.set key d ttlSeconds t c)
   = (Some d, SimpleCache.set key d ttlSeconds t c))
  /\ (now - t > ttlSeconds * 1000 ->
      SimpleCache.get key now (SimpleCache.set key d ttlSeconds t c)
      = (None, delete key c)).
Proof.
  split; intros H.
  - rewrite (cache_get_fresh key now _ (SimpleCache.mkEntry d t (ttlSeconds * 1000)));
      [done | apply lookup_insert_eq | simpl; lia].
  - rewrite (cache_get_stale key now _ (SimpleCache.mkEntry d t (ttlSeconds * 1000)));
      [| apply lookup_insert_eq | simpl; lia].
    unfold SimpleCache.set. by rewrite delete_insert_eq.
Qed.

Lemma cache_set_then_get_witness :
  SimpleCache.get "dashboard-stats" 60000
    (SimpleCache.set "dashboard-stats" (JNum 3) 60 0 ∅)
  = (Some (JNum 3), SimpleCache.set "dashboard-stats" (JNum 3) 60 0 ∅)
  /\ SimpleCache.get "dashboard-stats" 60001
       (SimpleCache.set "dashboard-stats" (JNum 3) 60 0 ∅)
     = (None, delete "dashboard-stats" ∅).
Proof.
  split.
  - apply (cache_set_then_get "dashboard-stats" (JNum 3) 60 0 60000 ∅). lia.
  - apply (cache_set_then_get "dashboard-stats" (JNum 3) 60 0 60001 ∅). lia.
Defined.

Lemma cache_get_other {T : Type} (key key' : string) (now : Z)
    (c : gmap string (SimpleCache.CacheEntry T)) :
  key <> key' -> (SimpleCache.get key now c).2 !! key' = c !! key'.
Proof.
  intros Hne. unfold SimpleCache.get. destruct (c !! key) as [e|]; [| done].
  destruct (_ >? _); simpl; [by apply lookup_delete_ne | done].
Qed.

Lemma cache_get_depends_on_entry {T : Type} (key : string) (now : Z)
    (c c' : gmap string (SimpleCache.CacheEntry T)) :
  c !! key = c' !! key ->
  (SimpleCache.get key now c).1 = (SimpleCache.get key now c').1.
Proof.
  intros H. unfold SimpleCache.get. rewrite <- H.
  destruct (c !! key) as [e|]; [| done]. by destruct (_ >? _).
Qed.

(** X2: what [get] returns for a key does not depend on what was done to
    any other key: a [set], a [get], a [has] or a [delete] on [key] leaves
    the answer of [get] for [key'] as it was. *)
Theorem cache_operations_are_per_key {T : Type} (key key' : string) (d : T)
    (ttlSeconds t now now' : Z) (c : gmap string (SimpleCache.CacheEntry T)) :
  key <> key' ->
  (SimpleCache.get key' now' (SimpleCache.set key d ttlSeconds t c)).1
  = (SimpleCache.get key' now' c).1
  /\ (SimpleCache.get key' now' (SimpleCache.get key now c).2).1
     = (SimpleCache.get key' now' c).1
  /\ (SimpleCache.get key' now' (SimpleCache.has key now c).2).1
     = (SimpleCache.get key' now' c).1
  /\ (SimpleCache.get key' now' (SimpleCache.delete key c)).1
     = (SimpleCache.get key' now' c).1.
Proof.
  intros Hne. repeat split; apply cache_get_depends_on_entry.
  - by apply lookup_insert_ne.
  - by apply cache_get_other.
  - rewrite cache_has_agrees_with_get. by apply cache_get_other.
  - by apply lookup_delete_ne.
Qed.

Lemma cache_operations_are_per_key_witness :
  (SimpleCache.get "categories" 10
     (SimpleCache.delete "dashboard-stats" Examples.cached_categories)).1
  = (SimpleCache.get "categories" 10 Examples.cached_categories).1.
Proof.
  apply (cache_operations_are_per_key "dashboard-stats" "categories" 0 0 0 0 10
           Examples.cached_categories).
  discriminate.
Defined.

(** A miss is final: after [get] has missed, the key is absent, so
    every later [get] and [has] on it misses too, whatever the clock
    reads, until the key is set again. *)
Lemma cache_miss_is_final {T : Type} (key : string) (now now' : Z)
    (c : gmap string (SimpleCache.CacheEntry T)) :
  (SimpleCache.get key now c).1 = None ->
  (SimpleCache.get key now c).2 !! key = None
  /\ SimpleCache.get key now' (SimpleCache.get key now c).2
     = (None, (SimpleCache.get key now c).2)
  /\ SimpleCache.has key now' (SimpleCache.get key now c).2
     = (false, (SimpleCache.get key now c).2).
Proof.
  intros Hmiss.
  assert (Habs : (SimpleCache.get key now c).2 !! key = None).
  { unfold SimpleCache.get in *. destruct (c !! key) as [e|] eqn:He; [| done].
    destruct (_ >? _); simpl in *; [apply lookup_delete_eq | discriminate Hmiss]. }
  split; [exact Habs |]. split.
  - by apply cache_get_absent.
  - unfold SimpleCache.has. by rewrite Habs.
Qed.

(** ** The [useCache] hook *)

Lemma lookup_cached_some_iff (key : string) (forceRefresh : bool)
    (clk : UseCache.Clock) (c : gmap string (SimpleCache.CacheEntry Json)) (v : Json) :
  (UseCache.lookup_cached key forceRefresh clk c).1 = Some v <->
  forceRefresh = false
  /\ exists e, c !! key = Some e /\ SimpleCache.data e = v /\ v <> JNull
               /\ UseCache.t_has clk - SimpleCache.timestamp e <= SimpleCache.ttl e
               /\ UseCache.t_get clk - SimpleCache.timestamp e <= SimpleCache.ttl e.
Proof.
  unfold UseCache.lookup_cached. destruct forceRefresh.
  { simpl. split; [discriminate | by intros [? _]]. }
  unfold SimpleCache.has. destruct (c !! key) as [e|] eqn:He.
  - destruct (Z.gtb_spec (UseCache.t_has clk - SimpleCache.timestamp e)
                         (SimpleCache.ttl e)) as [Hh | Hh].
    { simpl. split; [discriminate |]. intros (_ & e' & He' & _ & _ & Hle & _).
      injection He' as <-. lia. }
    unfold SimpleCache.get. rewrite He.
    destruct (Z.gtb_spec (UseCache.t_get clk - SimpleCache.timestamp e)
                         (SimpleCache.ttl e)) as [Hg | Hg].
    { simpl. split; [discriminate |]. intros (_ & e' & He' & _ & _ & _ & Hle).
      injection He' as <-. lia. }
    simpl. split.
    + intros Hv. split; [done |]. exists e.
      destruct (SimpleCache.data e) eqn:Hd; simpl in Hv; try discriminate Hv;
        injection Hv as <-; repeat split; done.
    + intros (_ & e' & He' & Hd & Hnn & _). injection He' as <-. rewrite Hd.
      by destruct v.
  - simpl. split; [discriminate |]. by intros (_ & e' & He' & _).
Qed.

Lemma lookup_cached_some_keeps_cache (key : string) (forceRefresh : bool)
    (clk : UseCache.Clock) (c : gmap string (SimpleCache.CacheEntry Json)) (v : Json) :
  (UseCache.lookup_cached key forceRefresh clk c).1 = Some v ->
  (UseCache.lookup_cached key forceRefresh clk c).2 = c.
Proof.
  unfold UseCache.lookup_cached. destruct forceRefresh; [done |].
  unfold SimpleCache.has, SimpleCache.get.
  destruct (c !! key) as [e|] eqn:He; [| done].
  destruct (_ >? _); simpl; [discriminate |]. rewrite He.
  by destruct (_ >? _).
Qed.

Lemma fetchData_called (key : string) (ttl : Z) (enabled forceRefresh : bool)
    (clk : UseCache.Clock) (fetcher : UseCache.FetchOutcome)
    (c : gmap string (SimpleCache.CacheEntry Json)) (h : UseCache.Hook) :
  (UseCache.fetchData key ttl enabled forceRefresh clk fetcher c h).2
  = negb enabled
    || negb (bool_decide (is_Some (UseCache.lookup_cached key forceRefresh clk c).1)).
Proof.
  unfold UseCache.fetchData. destruct enabled; [| done]. simpl.
  by destruct (UseCache.lookup_cached key forceRefresh clk c) as [[v|] c1].
Qed.

(** X3: [fetchData] answers from the cache, without calling the fetcher,
    exactly when the hook is enabled, no refresh is forced, and the key
    holds an entry that is not [null] and is within its ttl both when
    [has] and when [get] read the clock; in every other case the fetcher
    is called. *)
Theorem fetchData_skips_fetcher_iff (key : string) (ttl : Z)
    (enabled forceRefresh : bool) (clk : UseCache.Clock)
    (fetcher : UseCache.FetchOutcome)
    (c : gmap string (SimpleCache.CacheEntry Json)) (h : UseCache.Hook) :
  (UseCache.fetchData key ttl enabled forceRefresh clk fetcher c h).2 = false <->
  enabled = true /\ forceRefresh = false
  /\ exists e, c !! key = Some e /\ SimpleCache.data e <> JNull
               /\ UseCache.t_has clk - SimpleCache.timestamp e <= SimpleCache.ttl e
               /\ UseCache.t_get clk - SimpleCache.timestamp e <= SimpleCache.ttl e.
Proof.
  rewrite fetchData_called. destruct enabled; simpl.
  - rewrite negb_false_iff, bool_decide_eq_true. split.
    + intros [v Hv]. apply lookup_cached_some_iff in Hv
        as (Hf & e & He & Hd & Hnn & Hh & Hg).
      repeat split; [done |]. exists e. rewrite Hd. done.
    + intros (_ & Hf & e & He & Hnn & Hh & Hg). exists (SimpleCache.data e).
      apply lookup_cached_some_iff. split; [done |]. by exists e.
  - split; [discriminate | by intros [? _]].
Qed.

Lemma fetchData_skips_fetcher_iff_witness :
  (UseCache.fetchData "dashboard-stats" 60 true false (MoreExamples.clock 59000)
     (UseCache.FetchFailed (mkError "offline"))
     (SimpleCache.set "dashboard-stats" (JNum 3) 60 0 ∅) UseCache.initial).2
  = false.
Proof.
  apply fetchData_skips_fetcher_iff. split; [reflexivity | split; [reflexivity |]].
  exists (SimpleCache.mkEntry (JNum 3) 0 60000).
  split; [apply lookup_insert_eq | split; [discriminate | split; simpl; lia]].
Defined.

(** X4: what a forced refresh has fetched is served to every later
    [fetchData] on the key while both clock readings of that call stay
    within the ttl of the store: the fetcher is not called again and the
    hook shows the fetched value; a fetched [null] is not covered. *)
Theorem fetchData_serves_what_refresh_stored (key : string) (ttl : Z)
    (clk clk' : UseCache.Clock) (result : Json) (fetcher' : UseCache.FetchOutcome)
    (c : gmap string (SimpleCache.CacheEntry Json)) (h h' : UseCache.Hook) :
  result <> JNull ->
  UseCache.t_has clk' - UseCache.t_set clk <= ttl * 1000 ->
  UseCache.t_get clk' - UseCache.t_set clk <= ttl * 1000 ->
  UseCache.fetchData key ttl true false clk' fetcher'
    (UseCache.refresh key ttl true clk (UseCache.Fetched result) c h).1.1 h'
  = ((UseCache.refresh key ttl true clk (UseCache.Fetched result) c h).1.1,
     UseCache.mkHook result (UseCache.loading h') (UseCache.error h'),
     false).
Proof.
  intros Hnn Hh Hg.
  assert (Hc1 : (UseCache.refresh key ttl true clk (UseCache.Fetched result) c h).1.1
                = SimpleCache.set key result ttl (UseCache.t_set clk) c) by reflexivity.
  rewrite Hc1. set (c1 := SimpleCache.set key result ttl (UseCache.t_set clk) c).
  assert (Hv : (UseCache.lookup_cached key false clk' c1).1 = Some result).
  { apply lookup_cached_some_iff. split; [done |].
    exists (SimpleCache.mkEntry result (UseCache.t_set clk) (ttl * 1000)).
    repeat split; try done. apply lookup_insert_eq. }
  pose proof (lookup_cached_some_keeps_cache _ _ _ _ _ Hv) as Hc.
  unfold UseCache.fetchData. cbn [negb].
  destruct (UseCache.lookup_cached key false clk' c1) as [o c2].
  simpl in Hv, Hc. by rewrite Hv, Hc.
Qed.

Lemma fetchData_serves_what_refresh_stored_witness :
  (UseCache.fetchData "categories" 300 true false (MoreExamples.clock 300000)
     (UseCache.FetchFailed (mkError "offline"))
     (UseCache.refresh "categories" 300 true (MoreExamples.clock 0)
        (UseCache.Fetched (JStr "seven")) ∅ UseCache.initial).1.1
     UseCache.initial).1.2
  = UseCache.mkHook (JStr "seven") false None.
Proof.
  rewrite (fetchData_serves_what_refresh_stored "categories" 300
             (MoreExamples.clock 0) (MoreExamples.clock 300000) (JStr "seven")).
  - reflexivity.
  - discriminate.
  - simpl. lia.
  - simpl. lia.
Defined.

(** A refresh whose fetcher fails evicts nothing and keeps the data
    of the hook: the cache is left exactly as it was and the hook only
    records the error. *)
Lemma failed_refresh_keeps_cache_and_data (key : string) (ttl : Z) (enabled : bool)
    (clk : UseCache.Clock) (e : Error)
    (c : gmap string (SimpleCache.CacheEntry Json)) (h : UseCache.Hook) (key' : string)
    (now : Z) :
  (UseCache.refresh key ttl enabled clk (UseCache.FetchFailed e) c h).1.1 = c
  /\ UseCache.data (UseCache.refresh key ttl enabled clk (UseCache.FetchFailed e) c h).1.2
     = UseCache.data h
  /\ UseCache.error (UseCache.refresh key ttl enabled clk (UseCache.FetchFailed e) c h).1.2
     = Some e
  /\ SimpleCache.get key' now
       (UseCache.refresh key ttl enabled clk (UseCache.FetchFailed e) c h).1.1
     = SimpleCache.get key' now c.
Proof.
  unfold UseCache.refresh, UseCache.fetchData. by destruct enabled.
Qed.

(** X5: [invalidatePattern(pattern)] and [clearAll()] empty the whole
    cache: after either, for every key and whatever the pattern was, the
    next [fetchData] calls the fetcher. *)
Theorem invalidatePattern_evicts_every_key (pattern key : string) (ttl : Z)
    (enabled forceRefresh : bool) (clk : UseCache.Clock)
    (fetcher : UseCache.FetchOutcome)
    (c : gmap string (SimpleCache.CacheEntry Json)) (h : UseCache.Hook) :
  (UseCache.fetchData key ttl enabled forceRefresh clk fetcher
     (UseCache.invalidatePattern pattern c) h).2 = true
  /\ (UseCache.fetchData key ttl enabled forceRefresh clk fetcher
        (UseCache.clearAll c) h).2 = true.
Proof.
  split; rewrite fetchData_called; apply orb_true_iff; right;
    apply negb_true_iff, bool_decide_eq_false; intros [v Hv];
    apply lookup_cached_some_iff in Hv as (_ & e & He & _);
    unfold UseCache.invalidatePattern, UseCache.clearAll, SimpleCache.clear in He;
    by rewrite lookup_empty in He.
Qed.

(** ** Role protection *)

(** X6: the component wrapped by [withRoleProtection] is rendered exactly
    when loading is over and there is a profile whose role is among the
    allowed ones; the effect of [useRoleProtection] (callback or redirect)
    fires only when the access-denied view is shown, never while loading,
    and the callback, when given, takes the place of the redirect. *)
Theorem role_protection_renders_iff_allowed (loading : bool) (pr : option Profile)
    (allowedRoles : list Role) (onUnauthorized : bool) (redirectTo : option string) :
  (RoleProtection.withRoleProtection loading pr allowedRoles = RoleProtection.Protected
   <-> loading = false /\ exists p, pr = Some p /\ role p ∈ allowedRoles)
  /\ (RoleProtection.effect loading pr allowedRoles onUnauthorized redirectTo
      <> RoleProtection.NoEffect ->
      RoleProtection.withRoleProtection loading pr allowedRoles
      = RoleProtection.AccessDenied)
  /\ (onUnauthorized = true ->
      forall url,
        RoleProtection.effect loading pr allowedRoles onUnauthorized redirectTo
        <> RoleProtection.RedirectTo url).
Proof.
  unfold RoleProtection.withRoleProtection, RoleProtection.effect,
    RoleProtection.isAuthorized, RoleProtection.hasAccess.
  split; [| split].
  - destruct loading; simpl.
    + split; [discriminate | by intros [? _]].
    + destruct pr as [p|].
      * case_bool_decide as Hin.
        -- split; [| done]. intros _. split; [done |]. by exists p.
        -- split; [discriminate |].
           intros (_ & p' & Hp & Hin'). injection Hp as <-. contradiction.
      * split; [discriminate |]. by intros (_ & p' & Hp & _).
  - destruct loading; simpl; [done |].
    destruct pr as [p|]; [case_bool_decide |]; simpl; done.
  - intros -> url. destruct (_ && _); discriminate.
Qed.

Lemma role_protection_renders_iff_allowed_witness :
  RoleProtection.withRoleProtection false (Some Examples.elena) [owner]
  = RoleProtection.AccessDenied.
Proof.
  apply (role_protection_renders_iff_allowed false (Some Examples.elena) [owner] false
           (Some "/login"%string)).
  vm_compute. discriminate.
Defined.

(** ** Sign-in, continued *)

Lemma profile_row_has_id (d : Database) (uid : string) (a : Profile) :
  List.filter (fun p => bool_decide (profile_id p = uid)) (profiles d) = [a] ->
  profile_id a = uid.
Proof.
  intros H. assert (Hin : In a (List.filter (fun p => bool_decide (profile_id p = uid))
                                           (profiles d))) by (rewrite H; by left).
  apply filter_In in Hin as [_ Hid]. by apply bool_decide_eq_true in Hid.
Qed.

Lemma fetchProfile_finds_row (uid : string) (w : World) (a : Profile) :
  supabase w = true ->
  List.filter (fun p => bool_decide (profile_id p = uid)) (profiles (db w)) = [a] ->
  profile (auth_state (AuthContext.fetchProfile Answered uid w)) = Some a
  /\ user (auth_state (AuthContext.fetchProfile Answered uid w)) = user (auth_state w)
  /\ loading (auth_state (AuthContext.fetchProfile Answered uid w)) = false.
Proof.
  intros Hsb Hrow. unfold AuthContext.fetchProfile. by rewrite Hsb, Hrow.
Qed.

(** A profile query that is not answered leaves the profile of the
    context as it was. *)
Lemma fetchProfile_unanswered (o : QueryOutcome) (uid : string) (w : World) :
  o <> Answered ->
  profile (auth_state (AuthContext.fetchProfile o uid w)) = profile (auth_state w).
Proof.
  intros Ho. unfold AuthContext.fetchProfile. destruct (supabase w); [| done].
  by destruct o.
Qed.

(** X7: a sign-in the provider accepts opens the session of the account,
    whatever the later calls of [signIn] meet. When the profile query of
    the auth listener is answered, the profile of the context is the one
    row of [profiles] under the account's id, so that the actor "acts
    as" that profile in every policy check that follows; when that query
    fails, the session is open all the same and the context keeps the
    profile it had before. *)
Theorem signIn_makes_actor (env : AuthContext.SignInEnv) (email password : string)
    (w : World) (au : AuthUser) :
  supabase w = true ->
  AuthContext.auth_throws env = false ->
  AuthProvider.signInWithPassword (db w) email password = inr au ->
  session (auth_state (AuthContext.signIn env email password w).2)
  = Some (mkSession (AuthProvider.to_user au))
  /\ (AuthContext.listener_fetch env = Answered ->
      forall a,
        List.filter (fun p => bool_decide (profile_id p = au_id au)) (profiles (db w))
        = [a] ->
        acts_as (AuthContext.signIn env email password w).2 a)
  /\ (AuthContext.listener_fetch env <> Answered ->
      profile (auth_state (AuthContext.signIn env email password w).2)
      = profile (auth_state w)).
Proof.
  intros Hsb Hth Hok.
  unfold AuthContext.signIn. rewrite Hsb, Hth. cbn [negb set_auth_state db].
  rewrite Hok.
  set (w1 := AuthContext.auth_listener _ _ _).
  assert (H1 : db w1 = db w
               /\ session (auth_state w1) = Some (mkSession (AuthProvider.to_user au))
               /\ user (auth_state w1) = Some (AuthProvider.to_user au)
               /\ (AuthContext.listener_fetch env = Answered ->
                   forall a,
                     List.filter (fun p => bool_decide (profile_id p = au_id au))
                                 (profiles (db w)) = [a] ->
                     profile (auth_state w1) = Some a)
               /\ (AuthContext.listener_fetch env <> Answered ->
                   profile (auth_state w1) = profile (auth_state w))).
  { subst w1. unfold AuthContext.auth_listener.
    set (w0 := set_auth_state _ _).
    split; [apply (fetchProfile_keeps_store _ _ w0) |].
    split; [by rewrite fetchProfile_keeps_session |].
    split; [| split].
    - unfold AuthContext.fetchProfile. subst w0. cbn [supabase set_auth_state].
      rewrite Hsb. cbn [negb].
      destruct (AuthContext.listener_fetch env); [| done | done].
      by destruct (maybeSingle _).
    - intros -> a Hrow. by apply (fetchProfile_finds_row (au_id au) w0 a Hsb Hrow).
    - intros Ho. by rewrite (fetchProfile_unanswered _ _ w0 Ho). }
  clearbody w1. destruct H1 as (Hdb & Hs & Hu & Hp & Hq).
  assert (Hgoal : forall w2,
            profiles (db w2) = profiles (db w) -> auth_state w2 = auth_state w1 ->
            session (auth_state (set_auth_state (setLoading false (auth_state w2)) w2))
            = Some (mkSession (AuthProvider.to_user au))
            /\ (AuthContext.listener_fetch env = Answered ->
                forall a,
                  List.filter (fun p => bool_decide (profile_id p = au_id au))
                              (profiles (db w)) = [a] ->
                  acts_as (set_auth_state (setLoading false (auth_state w2)) w2) a)
            /\ (AuthContext.listener_fetch env <> Answered ->
                profile (auth_state
                           (set_auth_state (setLoading false (auth_state w2)) w2))
                = profile (auth_state w))).
  { intros w2 Hd Ha. split; [| split].
    - simpl. by rewrite Ha.
    - intros Ho a Hrow. pose proof (profile_row_has_id _ _ _ Hrow) as Hid.
      unfold acts_as, ToolsTable.auth_uid. simpl.
      rewrite Ha, Hu, (Hp Ho a Hrow), Hd, Hid. simpl. by rewrite Hrow.
    - intros Ho. simpl. rewrite Ha. by apply Hq. }
  cbv zeta.
  destruct (AuthContext.profile_throws env);
    [apply (Hgoal w1); [by rewrite Hdb | done] |].
  destruct (if AuthContext.profile_error env then _ else _) as [p|];
    [destruct (two_factor_enabled p) |];
    destruct (AuthContext.log_insert_fails env);
    (apply Hgoal; [simpl; by rewrite Hdb | done]).
Qed.

Lemma signIn_makes_actor_witness :
  acts_as (AuthContext.signIn Examples.signIn_env "ivan@admin.local" "password"
             Examples.signed_out).2 Examples.ivan.
Proof.
  refine (proj1 (proj2 (signIn_makes_actor Examples.signIn_env "ivan@admin.local"
            "password" Examples.signed_out
            (mkAuthUser "u-ivan" "ivan@admin.local" "password") _ _ _))
            _ Examples.ivan _); reflexivity.
Defined.

(** X8: on a sign-in the provider accepts, for an email with exactly one
    profile row, the code is put on the side channel exactly when the
    profile query is answered without an error and that profile has
    two-factor authentication enabled, and the login row that is written
    records the same as [has_2fa]: when the query is answered with an
    error, no code is issued and the row says [has_2fa: false], also
    for a profile that has it enabled. *)
Theorem signIn_shows_code_iff_enabled (env : AuthContext.SignInEnv)
    (email password : string) (w : World) (au : AuthUser) (p : Profile) :
  supabase w = true ->
  AuthContext.auth_throws env = false ->
  AuthContext.profile_throws env = false ->
  AuthProvider.signInWithPassword (db w) email password = inr au ->
  List.filter (fun q => bool_decide (profile_email q = email)) (profiles (db w)) = [p] ->
  side_channel (AuthContext.signIn env email password w).2
  = side_channel w
    ++ (if negb (AuthContext.profile_error env) && two_factor_enabled p
        then [(email, AuthContext.env_code env)] else [])
  /\ (AuthContext.log_insert_fails env = false ->
      activity_logs (db (AuthContext.signIn env email password w).2)
      = activity_logs (db w)
        ++ [AuthContext.login_entry env (au_id au) email
              (negb (AuthContext.profile_error env) && two_factor_enabled p)]).
Proof.
  intros Hsb Hth Hpt Hok Hrow. unfold AuthContext.signIn.
  rewrite Hsb, Hth. cbn [negb set_auth_state db]. rewrite Hok, Hpt.
  set (w1 := AuthContext.auth_listener _ _ _).
  destruct (auth_listener_keeps_store (AuthContext.listener_fetch env)
              (Some (mkSession (AuthProvider.to_user au)))
              (set_auth_state (setLoading true (auth_state w)) w))
    as (Hdb & _ & Hside).
  fold w1 in Hdb, Hside. simpl in Hdb, Hside. clearbody w1.
  rewrite Hdb, Hrow. simpl.
  destruct (AuthContext.profile_error env), (two_factor_enabled p),
    (AuthContext.log_insert_fails env); simpl;
    rewrite ?Hside, ?Hdb, ?app_nil_r; split; done.
Qed.

Lemma signIn_shows_code_iff_enabled_witness :
  side_channel (AuthContext.signIn Examples.signIn_env "ivan@admin.local" "password"
                  Examples.signed_out).2 = []
  /\ side_channel (AuthContext.signIn Examples.signIn_env "elena@frontend.local"
                     "password" Examples.signed_out).2
     = [("elena@frontend.local"%string, "123456"%string)].
Proof.
  split.
  - apply (signIn_shows_code_iff_enabled Examples.signIn_env "ivan@admin.local"
             "password" Examples.signed_out
             (mkAuthUser "u-ivan" "ivan@admin.local" "password") Examples.ivan);
      reflexivity.
  - apply (signIn_shows_code_iff_enabled Examples.signIn_env "elena@frontend.local"
             "password" Examples.signed_out
             (mkAuthUser "u-elena" "elena@frontend.local" "password") Examples.elena);
      reflexivity.
Defined.

(** X9: when the provider refuses the credentials, submitting the login
    form changes nothing in the store, the session, the user, the
    profile and the side channel; the form that made the call was
    unmounted while [signIn] ran, so the form shown afterwards is a new
    one, at the credentials step with every field empty (what was typed
    is gone), and the one toast added is the wrong-credentials error. *)
Theorem refused_submit_resets_the_form (env : AuthContext.SignInEnv) (w : World)
    (f : LoginForm.Form) (e : Error) :
  supabase w = true ->
  AuthContext.auth_throws env = false ->
  AuthProvider.signInWithPassword (db w) (LoginForm.email f) (LoginForm.password f)
  = inl e ->
  (App.handleSubmit env w f).1
  = set_auth_state (setLoading false (auth_state w)) w
  /\ (App.handleSubmit env w f).2
     = LoginForm.mkForm "" "" "" false ""
         (LoginForm.toasts f ++ [LoginForm.ErrorToast "Грешен email или парола"])
  /\ (session (auth_state w) = None ->
      LoginForm.login_state (App.handleSubmit env w f).1 (App.handleSubmit env w f).2
      = LoginForm.AwaitingCredentials).
Proof.
  intros Hsb Hth Hbad.
  assert (He : e = AuthProvider.invalid_login_credentials).
  { unfold AuthProvider.signInWithPassword in Hbad.
    destruct (find _ _) as [a|]; [destruct (bool_decide _) |]; congruence. }
  unfold App.handleSubmit, LoginForm.handleSubmit, AuthContext.signIn.
  rewrite Hsb, Hth. cbn [negb set_auth_state db]. rewrite Hbad, He. simpl.
  split; [done |]. split; [done |].
  intros Hs. unfold LoginForm.login_state. simpl. by rewrite Hs.
Qed.

Lemma refused_submit_resets_the_form_witness :
  (App.handleSubmit Examples.signIn_env Examples.signed_out
     (LoginForm.mkForm "elena@frontend.local" "guess" "" false "" [])).2
  = LoginForm.mkForm "" "" "" false ""
      [LoginForm.ErrorToast "Грешен email или парола"].
Proof.
  apply (refused_submit_resets_the_form Examples.signIn_env Examples.signed_out
           (LoginForm.mkForm "elena@frontend.local" "guess" "" false "" [])
           AuthProvider.invalid_login_credentials); reflexivity.
Defined.

(** ** Code verification, continued *)

Lemma verifyTwoFactor_store_after_success (env : EdgeFunctions.Verify2faEnv)
    (email code : string) (w : World) (u : AuthUser) :
  supabase w = true ->
  email <> ""%string ->
  EdgeFunctions.malformed_code code = false ->
  EdgeFunctions.listUsers_error env = None ->
  EdgeFunctions.updateUserById_error env = None ->
  find (fun a => bool_decide (au_email a = email)) (auth_users (db w)) = Some u ->
  db (AuthContext.verifyTwoFactor env email code w).2
  = set_auth_users
      (map (EdgeFunctions.set_password (au_id u) (EdgeFunctions.temp_password env))
           (auth_users (db w)))
      (db w).
Proof.
  intros Hsb He Hm Hl Hu Hfind.
  rewrite (verifyTwoFactor_after_success env email code w u Hsb He Hm Hl Hu Hfind).
  cbv zeta.
  destruct (EdgeFunctions.invoke_error env); [done |].
  destruct (EdgeFunctions.signIn_error env); [done |].
  cbn [snd]. unfold set_auth_state at 1. cbn [db].
  exact (proj1 (auth_listener_keeps_store _ _ _)).
Qed.

(** X10: a successful verification replaces the password of the account
    for good: afterwards the provider accepts the temporary password made
    up by the function and refuses the password the account had before
    (when the two differ). *)
Theorem verification_replaces_the_password (env : EdgeFunctions.Verify2faEnv)
    (email code : string) (w : World) (u : AuthUser) :
  supabase w = true ->
  email <> ""%string ->
  EdgeFunctions.malformed_code code = false ->
  EdgeFunctions.listUsers_error env = None ->
  EdgeFunctions.updateUserById_error env = None ->
  find (fun a => bool_decide (au_email a = email)) (auth_users (db w)) = Some u ->
  au_password u <> EdgeFunctions.temp_password env ->
  AuthProvider.signInWithPassword (db w) email (au_password u) = inr u
  /\ AuthProvider.signInWithPassword
       (db (AuthContext.verifyTwoFactor env email code w).2) email (au_password u)
     = inl AuthProvider.invalid_login_credentials
  /\ AuthProvider.signInWithPassword
       (db (AuthContext.verifyTwoFactor env email code w).2) email
       (EdgeFunctions.temp_password env)
     = inr (mkAuthUser (au_id u) (au_email u) (EdgeFunctions.temp_password env)).
Proof.
  intros Hsb He Hm Hl Hu Hfind Hne.
  rewrite (verifyTwoFactor_store_after_success env email code w u Hsb He Hm Hl Hu Hfind).
  split; [| split].
  - unfold AuthProvider.signInWithPassword. rewrite Hfind.
    by rewrite bool_decide_eq_true_2.
  - unfold AuthProvider.signInWithPassword. simpl.
    rewrite find_map_preserving by (intros x; by rewrite set_password_keeps_email).
    rewrite Hfind. simpl. unfold EdgeFunctions.set_password.
    rewrite (bool_decide_eq_true_2 (au_id u = au_id u)) by done. simpl.
    rewrite bool_decide_eq_false_2; [done | congruence].
  - by apply temp_password_signs_in.
Qed.

Lemma verification_replaces_the_password_witness :
  AuthProvider.signInWithPassword
    (db (AuthContext.verifyTwoFactor Examples.verify_env "elena@frontend.local"
           "654321" Examples.signed_out).2)
    "elena@frontend.local" "password"
  = inl AuthProvider.invalid_login_credentials.
Proof.
  apply (verification_replaces_the_password Examples.verify_env
           "elena@frontend.local" "654321" Examples.signed_out
           (mkAuthUser "u-elena" "elena@frontend.local" "password"));
    try reflexivity; discriminate.
Defined.

Lemma set_auth_users_same (d : Database) : set_auth_users (auth_users d) d = d.
Proof. by destruct d. Qed.

(** Of the store, [verifyTwoFactor] can change the accounts only. *)
Lemma verifyTwoFactor_touches_accounts_only (env : EdgeFunctions.Verify2faEnv)
    (email code : string) (w : World) :
  set_auth_users (auth_users (db w))
    (db (AuthContext.verifyTwoFactor env email code w).2) = db w.
Proof.
  unfold AuthContext.verifyTwoFactor.
  destruct (supabase w); [| apply set_auth_users_same].
  cbn [negb set_auth_state db].
  assert (Hd : set_auth_users (auth_users (db w))
                 (EdgeFunctions.verify_2fa env email code (db w)).2 = db w).
  { unfold EdgeFunctions.verify_2fa.
    destruct (_ || _); [apply set_auth_users_same |].
    destruct (EdgeFunctions.malformed_code code); [apply set_auth_users_same |].
    destruct (EdgeFunctions.listUsers_error env); [apply set_auth_users_same |].
    destruct (find _ _); [| apply set_auth_users_same].
    destruct (EdgeFunctions.updateUserById_error env);
      [apply set_auth_users_same | cbn [snd]; by destruct (db w)]. }
  destruct (EdgeFunctions.verify_2fa env email code (db w)) as [resp d].
  cbv zeta. simpl in Hd.
  destruct (match EdgeFunctions.invoke_error env with
            | Some e => inl e
            | None => EdgeFunctions.invoke resp
            end) as [e | [m | m | tp m]]; [done | done | done |].
  destruct (EdgeFunctions.signIn_error env); [done |].
  destruct (AuthProvider.signInWithPassword _ _ _); [done |].
  cbn [snd]. unfold set_auth_state at 1. cbn [db].
  by rewrite (proj1 (auth_listener_keeps_store _ _ _)).
Qed.

(** X11: a verification that resolves with an error has opened no
    session and has touched neither the side channel nor any table but
    the accounts. When the error comes from the function (a malformed
    code, an unknown account, a failing admin call) the accounts are
    untouched too. When the function has done its work and it is its
    answer that is lost, or the sign-in that follows that fails, the
    call resolves with that error after the password has been replaced:
    the account no longer accepts the password it had. *)
Theorem failed_verification_opens_no_session (env : EdgeFunctions.Verify2faEnv)
    (email code : string) (w : World) :
  AuthContext.error (AuthContext.verifyTwoFactor env email code w).1 <> None ->
  session (auth_state (AuthContext.verifyTwoFactor env email code w).2)
  = session (auth_state w)
  /\ side_channel (AuthContext.verifyTwoFactor env email code w).2 = side_channel w
  /\ set_auth_users (auth_users (db w))
       (db (AuthContext.verifyTwoFactor env email code w).2) = db w
  /\ (EdgeFunctions.invoke_error env = None ->
      EdgeFunctions.signIn_error env = None ->
      db (AuthContext.verifyTwoFactor env email code w).2 = db w)
  /\ (forall u,
        supabase w = true ->
        email <> ""%string ->
        EdgeFunctions.malformed_code code = false ->
        EdgeFunctions.listUsers_error env = None ->
        EdgeFunctions.updateUserById_error env = None ->
        find (fun a => bool_decide (au_email a = email)) (auth_users (db w)) = Some u ->
        au_password u <> EdgeFunctions.temp_password env ->
        AuthProvider.signInWithPassword
          (db (AuthContext.verifyTwoFactor env email code w).2) email (au_password u)
        = inl AuthProvider.invalid_login_credentials).
Proof.
  intros Herr. split; [| split; [| split; [| split]]].
  - revert Herr. unfold AuthContext.verifyTwoFactor. destruct (supabase w); [| done].
    cbn [negb set_auth_state db].
    destruct (EdgeFunctions.verify_2fa env email code (db w)) as [resp d].
    cbv zeta.
    destruct (match EdgeFunctions.invoke_error env with
              | Some e => inl e
              | None => EdgeFunctions.invoke resp
              end) as [e | [m | m | tp m]]; [done | done | done |].
    destruct (EdgeFunctions.signIn_error env); [done |].
    destruct (AuthProvider.signInWithPassword _ _ _); [done |].
    simpl. intros H. by destruct H.
  - revert Herr. unfold AuthContext.verifyTwoFactor. destruct (supabase w); [| done].
    cbn [negb set_auth_state db].
    destruct (EdgeFunctions.verify_2fa env email code (db w)) as [resp d].
    cbv zeta.
    destruct (match EdgeFunctions.invoke_error env with
              | Some e => inl e
              | None => EdgeFunctions.invoke resp
              end) as [e | [m | m | tp m]]; [done | done | done |].
    destruct (EdgeFunctions.signIn_error env); [done |].
    destruct (AuthProvider.signInWithPassword _ _ _); [done |].
    simpl. intros H. by destruct H.
  - apply verifyTwoFactor_touches_accounts_only.
  - intros Hi Hs. revert Herr. unfold AuthContext.verifyTwoFactor.
    destruct (supabase w); [| done].
    cbn [negb set_auth_state db]. rewrite Hi, Hs. unfold EdgeFunctions.verify_2fa.
    destruct (_ || _); [done |].
    destruct (EdgeFunctions.malformed_code code); [done |].
    destruct (EdgeFunctions.listUsers_error env); [done |].
    destruct (find _ _) as [u|] eqn:Hfind; [| done].
    destruct (EdgeFunctions.updateUserById_error env); [done |].
    cbn [EdgeFunctions.invoke EdgeFunctions.resp_status EdgeFunctions.resp_body
         andb Z.leb Z.ltb Z.compare Pos.compare Pos.compare_cont set_db db].
    rewrite (temp_password_signs_in (db w) email _ u Hfind). simpl.
    intros H. by destruct H.
  - intros u Hsb He Hm Hl Hu Hfind Hne.
    rewrite (verifyTwoFactor_store_after_success env email code w u
               Hsb He Hm Hl Hu Hfind).
    unfold AuthProvider.signInWithPassword. simpl.
    rewrite find_map_preserving by (intros x; by rewrite set_password_keeps_email).
    rewrite Hfind. simpl. unfold EdgeFunctions.set_password.
    rewrite (bool_decide_eq_true_2 (au_id u = au_id u)) by done. simpl.
    rewrite bool_decide_eq_false_2; [done | congruence].
Qed.

Lemma failed_verification_opens_no_session_witness :
  db (AuthContext.verifyTwoFactor Examples.verify_env "nobody@nowhere.local"
        "654321" Examples.signed_out).2
  = Examples.store.
Proof.
  refine (proj1 (proj2 (proj2 (proj2
            (failed_verification_opens_no_session Examples.verify_env
               "nobody@nowhere.local" "654321" Examples.signed_out _)))) eq_refl eq_refl).
  vm_compute. discriminate.
Defined.

(** ** The code field *)

Lemma length_string_of_list_ascii (l : list ascii) :
  String.length (String.string_of_list_ascii l) = length l.
Proof. induction l as [|a l IH]; [done |]. simpl. by rewrite IH. Qed.

Lemma forallb_take {A : Type} (f : A -> bool) (n : nat) (l : list A) :
  forallb f l = true -> forallb f (take n l) = true.
Proof.
  revert n. induction l as [|x l IH]; intros [|n]; simpl; try done.
  intros [Hx Hl]%andb_true_iff. rewrite Hx. simpl. by apply IH.
Qed.

Lemma forallb_filter_self {A : Type} (f : A -> bool) (l : list A) :
  forallb f (List.filter f l) = true.
Proof.
  induction l as [|x l IH]; [done |]. simpl.
  destruct (f x) eqn:Hx; [| done]. simpl. by rewrite Hx.
Qed.

(** X12: whatever is typed or pasted into the code field, the field
    holds at most six characters, all of them decimal digits; and it
    holds exactly six (the condition under which the submit button is
    enabled) exactly when the code passes the format check of the
    verification function. *)
Theorem code_field_is_sanitised (value : string) (f : LoginForm.Form) :
  (String.length (LoginForm.twoFactorCode (LoginForm.setTwoFactorCode value f)) <= 6)%nat
  /\ forallb EdgeFunctions.is_digit
       (String.list_ascii_of_string
          (LoginForm.twoFactorCode (LoginForm.setTwoFactorCode value f))) = true
  /\ (String.length (LoginForm.twoFactorCode (LoginForm.setTwoFactorCode value f)) = 6%nat
      <-> EdgeFunctions.malformed_code
            (LoginForm.twoFactorCode (LoginForm.setTwoFactorCode value f)) = false).
Proof.
  unfold LoginForm.setTwoFactorCode. simpl.
  set (l := take 6 (List.filter EdgeFunctions.is_digit
                                (String.list_ascii_of_string value))).
  assert (Hlen : (length l <= 6)%nat) by (subst l; rewrite length_take; lia).
  assert (Hdig : forallb EdgeFunctions.is_digit l = true)
    by (subst l; apply forallb_take, forallb_filter_self).
  clearbody l. unfold EdgeFunctions.malformed_code, EdgeFunctions.test_six_digits.
  rewrite length_string_of_list_ascii, String.list_ascii_of_string_of_list_ascii.
  split; [done | split; [done |]]. split.
  - intros H6. rewrite H6.
    do 7 (destruct l as [|? l]; try discriminate H6).
    simpl in Hdig |- *. by rewrite Hdig.
  - intros Hm. apply orb_false_iff in Hm as [Hm _].
    apply negb_false_iff in Hm. by apply Nat.eqb_eq in Hm.
Qed.

(** ** Sign-out from the dashboard *)

Lemma signOut_keeps_store (o : AuthProvider.SignOutOutcome) (w : World) :
  db (AuthContext.signOut o w).2 = db w.
Proof.
  unfold AuthContext.signOut. destruct (supabase w); [| done].
  destruct o as [| e |]; simpl; [done | by destruct (_ || _) | done].
Qed.

(** X13: the dashboard's sign-out writes its [logout] row for the user
    who is leaving before the auth context is cleared: with a signed-in
    user and a store that takes the insert, the row carries that user's
    id, and afterwards session and user are gone, whatever the provider's
    sign-out does. *)
Theorem handleSignOut_logs_then_clears (env : AdminPanel.StoreEnv)
    (o : AuthProvider.SignOutOutcome) (w : World) (u : User) :
  supabase w = true ->
  user (auth_state w) = Some u ->
  AdminPanel.log_insert_error env = false ->
  AuthContext.error (Dashboard.handleSignOut env o w).1 = None
  /\ (exists e, activity_logs (db (Dashboard.handleSignOut env o w).2)
                = activity_logs (db w) ++ [e]
                /\ action e = logout
                /\ log_user_id e = Some (user_id u))
  /\ session (auth_state (Dashboard.handleSignOut env o w).2) = None
  /\ user (auth_state (Dashboard.handleSignOut env o w).2) = None.
Proof.
  intros Hsb Hu Hlog. unfold Dashboard.handleSignOut.
  set (w1 := AdminPanel.log _ _ w).
  assert (Hsb1 : supabase w1 = true) by (subst w1; done).
  assert (Hlogs : activity_logs (db w1)
                  = activity_logs (db w)
                    ++ [mkLog (Some (user_id u)) logout ResourceType.auth None
                              [("timestamp"%string, JNum (AdminPanel.st_now env));
                               ("user_id"%string, JStr (user_id u))]
                              (Some (AdminPanel.st_userAgent env))]).
  { subst w1. unfold AdminPanel.log, ActivityLogger.logActivity. simpl.
    by rewrite Hu, Hsb, Hlog. }
  clearbody w1. rewrite signOut_keeps_store.
  split; [| split; [by eexists |]].
  - unfold AuthContext.signOut. rewrite Hsb1.
    destruct o as [| e |]; simpl; [done | by destruct (_ || _) | done].
  - unfold AuthContext.signOut. rewrite Hsb1.
    destruct o as [| e |]; simpl; [done | by destruct (_ || _) | done].
Qed.

Lemma handleSignOut_logs_then_clears_witness :
  session (auth_state
             (Dashboard.handleSignOut Examples.store_env AuthProvider.SignOutThrows
                (Examples.signed_in Examples.elena)).2) = None.
Proof.
  apply (handleSignOut_logs_then_clears Examples.store_env AuthProvider.SignOutThrows
           (Examples.signed_in Examples.elena) (Examples.user_of Examples.elena));
    reflexivity.
Defined.

(** ** Two-factor settings *)

Lemma filter_map_preserving {A : Type} (p : A -> bool) (f : A -> A) (l : list A) :
  (forall x, p (f x) = p x) -> List.filter p (map f l) = map f (List.filter p l).
Proof.
  intros Hp. induction l as [|x l IH]; [done |].
  simpl. rewrite Hp. destruct (p x); simpl; by rewrite IH.
Qed.

Lemma log_keeps_profiles (env : AdminPanel.StoreEnv)
    (p : ActivityLogger.LogActivityParams) (w : World) :
  profiles (db (AdminPanel.log env p w)) = profiles (db w)
  /\ auth_state (AdminPanel.log env p w) = auth_state w
  /\ supabase (AdminPanel.log env p w) = supabase w.
Proof.
  unfold AdminPanel.log, ActivityLogger.logActivity. simpl.
  destruct (user (auth_state w)); [| done].
  destruct (supabase w); simpl; [| done].
  by destruct (AdminPanel.log_insert_error env).
Qed.

Lemma set_two_factor_twice (a : Profile) :
  TwoFactorSettings.set_two_factor (two_factor_enabled a)
    (TwoFactorSettings.set_two_factor (negb (two_factor_enabled a)) a) = a.
Proof. by destruct a. Qed.

(** The effect of one toggle by the actor [a] that the store accepts. *)
Lemma toggle_effect (env : AdminPanel.StoreEnv) (fetch : QueryOutcome) (w : World)
    (s : TwoFactorSettings.Settings) (a : Profile) :
  supabase w = true -> acts_as w a -> System.user_of_session w ->
  AdminPanel.update_error env = None ->
  System.user_of_session (TwoFactorSettings.handleToggleTwoFactor env fetch w s).1
  /\ supabase (TwoFactorSettings.handleToggleTwoFactor env fetch w s).1 = true
  /\ session (auth_state (TwoFactorSettings.handleToggleTwoFactor env fetch w s).1)
     = session (auth_state w)
  /\ profiles (db (TwoFactorSettings.handleToggleTwoFactor env fetch w s).1)
     = map (fun p => if bool_decide (profile_id p = profile_id a)
                     then TwoFactorSettings.set_two_factor
                            (negb (two_factor_enabled a)) p
                     else p)
           (profiles (db w))
  /\ (fetch = Answered ->
      acts_as (TwoFactorSettings.handleToggleTwoFactor env fetch w s).1
              (TwoFactorSettings.set_two_factor (negb (two_factor_enabled a)) a))
  /\ (fetch <> Answered ->
      profile (auth_state (TwoFactorSettings.handleToggleTwoFactor env fetch w s).1)
      = None).
Proof.
  intros Hsb (Huid & Hprof & Hrow) Hinv Herr.
  unfold TwoFactorSettings.handleToggleTwoFactor. rewrite Hprof, Herr. cbn [fst].
  set (a' := TwoFactorSettings.set_two_factor (negb (two_factor_enabled a)) a).
  set (w1 := set_db _ w). set (w2 := AdminPanel.log env _ w1).
  set (f := fun p : Profile =>
              if bool_decide (profile_id p = profile_id a)
              then TwoFactorSettings.set_two_factor (negb (two_factor_enabled a)) p
              else p).
  assert (Hps : profiles (db w2) = map f (profiles (db w))).
  { subst w2. rewrite (proj1 (log_keeps_profiles env _ w1)). subst w1. simpl.
    rewrite Huid. apply List.map_ext. intros p. subst f. simpl.
    case_bool_decide as Hid; [| done]. simpl.
    by rewrite bool_decide_eq_true_2 by congruence. }
  assert (Ha2 : auth_state w2 = auth_state w)
    by (subst w2; by rewrite (proj1 (proj2 (log_keeps_profiles env _ w1)))).
  assert (Hsb2 : supabase w2 = true)
    by (subst w2; by rewrite (proj2 (proj2 (log_keeps_profiles env _ w1)))).
  clearbody w2. clear w1.
  assert (Hrow' : List.filter (fun p => bool_decide (profile_id p = profile_id a))
                              (profiles (db w2)) = [a']).
  { rewrite Hps, filter_map_preserving.
    - rewrite Hrow. simpl. subst f. simpl. by rewrite bool_decide_eq_true_2.
    - intros x. subst f. simpl.
      destruct (bool_decide (profile_id x = profile_id a)) eqn:E; simpl;
        by rewrite ?E. }
  unfold AuthContextMount.reload, AuthContextMount.mount. cbn [supabase].
  rewrite Hsb2, Ha2. cbn [negb].
  unfold ToolsTable.auth_uid in Huid. unfold System.user_of_session in Hinv.
  rewrite Hinv in Huid.
  destruct (session (auth_state w)) as [se|] eqn:Hse; [| discriminate Huid].
  simpl in Huid. injection Huid as Huid.
  set (w0 := set_auth_state _ _).
  assert (Hsb0 : supabase w0 = true) by (subst w0; done).
  assert (Hrow0 : List.filter (fun p => bool_decide
                                          (profile_id p = user_id (session_user se)))
                              (profiles (db w0)) = [a'])
    by (subst w0; simpl; by rewrite Huid).
  destruct (fetchProfile_keeps_store fetch (user_id (session_user se)) w0)
    as (Hdb & Hsbk & _).
  pose proof (fetchProfile_keeps_session fetch (user_id (session_user se)) w0) as Hs.
  pose proof (fetchProfile_keeps_user fetch (user_id (session_user se)) w0) as Hu.
  assert (Hu0 : user (auth_state w0) = Some (session_user se)) by (subst w0; done).
  assert (Hs0 : session (auth_state w0) = Some se) by (subst w0; done).
  assert (Hp0 : profile (auth_state w0) = None) by (subst w0; done).
  assert (Hdb0 : db w0 = db w2) by (subst w0; done).
  clearbody w0.
  split; [| split; [| split; [| split; [| split]]]].
  - unfold System.user_of_session. by rewrite Hu, Hu0, Hs, Hs0.
  - by rewrite Hsbk.
  - by rewrite Hs, Hs0.
  - by rewrite Hdb, Hdb0.
  - intros ->.
    destruct (fetchProfile_finds_row _ w0 a' Hsb0 Hrow0) as (Hp & _ & _).
    unfold acts_as, ToolsTable.auth_uid. rewrite Hu, Hu0, Hp, Hdb, Hdb0. simpl.
    by rewrite Huid.
  - intros Ho. by rewrite (fetchProfile_unanswered _ _ w0 Ho).
Qed.

(** X14: a toggle of the two-factor setting that the store accepts
    negates the flag of the actor's own profile row and of no other row
    and keeps the session, whatever the reloaded page meets. When the
    profile query of the reloaded page is answered, the auth context
    carries the new row afterwards, and toggling a second time gives the
    profile back as it was; when that query fails, the context is left
    without a profile. *)
Theorem toggle_two_factor_flips_own_flag (env env' : AdminPanel.StoreEnv)
    (fetch : QueryOutcome) (w : World) (s s' : TwoFactorSettings.Settings)
    (a : Profile) :
  supabase w = true -> acts_as w a -> System.user_of_session w ->
  AdminPanel.update_error env = None ->
  AdminPanel.update_error env' = None ->
  session (auth_state (TwoFactorSettings.handleToggleTwoFactor env fetch w s).1)
  = session (auth_state w)
  /\ List.filter (fun p => bool_decide (profile_id p = profile_id a))
       (profiles (db (TwoFactorSettings.handleToggleTwoFactor env fetch w s).1))
     = [TwoFactorSettings.set_two_factor (negb (two_factor_enabled a)) a]
  /\ (forall p, p ∈ profiles (db w) -> profile_id p <> profile_id a ->
                p ∈ profiles
                      (db (TwoFactorSettings.handleToggleTwoFactor env fetch w s).1))
  /\ (fetch = Answered ->
      acts_as (TwoFactorSettings.handleToggleTwoFactor env fetch w s).1
              (TwoFactorSettings.set_two_factor (negb (two_factor_enabled a)) a)
      /\ acts_as (TwoFactorSettings.handleToggleTwoFactor env' Answered
                    (TwoFactorSettings.handleToggleTwoFactor env fetch w s).1 s').1 a)
  /\ (fetch <> Answered ->
      profile (auth_state (TwoFactorSettings.handleToggleTwoFactor env fetch w s).1)
      = None).
Proof.
  intros Hsb Ha Hinv Herr Herr'.
  destruct (toggle_effect env fetch w s a Hsb Ha Hinv Herr)
    as (Hinv1 & Hsb1 & Hs1 & Hps & Ha1 & Hnone).
  split; [done |]. split; [| split; [| split; [| done]]].
  - rewrite Hps, filter_map_preserving.
    + destruct Ha as (_ & _ & ->). simpl. by rewrite bool_decide_eq_true_2.
    + intros x. destruct (bool_decide (profile_id x = profile_id a)) eqn:E; simpl;
        by rewrite ?E.
  - intros p Hp Hne. rewrite Hps. apply list_elem_of_fmap. exists p.
    split; [| done]. by rewrite bool_decide_eq_false_2.
  - intros Hf. split; [by apply Ha1 |].
    destruct (toggle_effect env' Answered _ s' _ Hsb1 (Ha1 Hf) Hinv1 Herr')
      as (_ & _ & _ & _ & Ha2 & _).
    specialize (Ha2 eq_refl). simpl in Ha2. rewrite negb_involutive in Ha2.
    by rewrite set_two_factor_twice in Ha2.
Qed.

Lemma toggle_two_factor_flips_own_flag_witness :
  acts_as (TwoFactorSettings.handleToggleTwoFactor Examples.store_env Answered
             (Examples.signed_in Examples.ivan)
             (TwoFactorSettings.mkSettings false "" "")).1
          (mkProfile "u-ivan" "ivan@admin.local" "Иван Иванов" owner true).
Proof.
  refine (proj1 (proj1 (proj2 (proj2 (proj2
            (toggle_two_factor_flips_own_flag Examples.store_env Examples.store_env
               Answered (Examples.signed_in Examples.ivan)
               (TwoFactorSettings.mkSettings false "" "")
               (TwoFactorSettings.mkSettings false "" "") Examples.ivan
               _ _ _ _ _)))) eq_refl));
    [reflexivity | repeat split; reflexivity | reflexivity | reflexivity
     | reflexivity].
Defined.

(** ** Runs: the audit trail and the auth context *)

Lemma log_appends (env : AdminPanel.StoreEnv) (p : ActivityLogger.LogActivityParams)
    (w : World) :
  activity_logs (db w) `prefix_of` activity_logs (db (AdminPanel.log env p w)).
Proof.
  unfold AdminPanel.log, ActivityLogger.logActivity. simpl.
  destruct (user (auth_state w)); [| done].
  destruct (supabase w); simpl; [| done].
  destruct (AdminPanel.log_insert_error env); simpl; [done |].
  by apply prefix_app_r.
Qed.

Lemma signIn_appends (env : AuthContext.SignInEnv) (email password : string)
    (w : World) :
  activity_logs (db w)
  `prefix_of` activity_logs (db (AuthContext.signIn env email password w).2).
Proof.
  unfold AuthContext.signIn.
  destruct (supabase w); [| done]. cbn [negb set_auth_state db].
  destruct (AuthContext.auth_throws env); [done |].
  destruct (AuthProvider.signInWithPassword (db w) email password) as [e | au];
    [done |].
  set (w1 := AuthContext.auth_listener _ _ _).
  assert (Hdb : db w1 = db w) by exact (proj1 (auth_listener_keeps_store _ _ _)).
  clearbody w1. cbv zeta.
  destruct (AuthContext.profile_throws env); [simpl; by rewrite Hdb |].
  destruct (if AuthContext.profile_error env then _ else _) as [p|]; [destruct (two_factor_enabled p) |];
    destruct (AuthContext.log_insert_fails env); simpl; rewrite Hdb;
    done || by apply prefix_app_r.
Qed.

Lemma verifyTwoFactor_keeps_logs (env : EdgeFunctions.Verify2faEnv)
    (email code : string) (w : World) :
  activity_logs (db (AuthContext.verifyTwoFactor env email code w).2)
  = activity_logs (db w).
Proof.
  exact (f_equal activity_logs
           (verifyTwoFactor_touches_accounts_only env email code w)).
Qed.

Lemma reload_keeps_store (o : QueryOutcome) (w : World) :
  db (AuthContextMount.reload o w) = db w.
Proof.
  unfold AuthContextMount.reload, AuthContextMount.mount. cbn [supabase].
  destruct (supabase w) eqn:Hsb; [| done]. cbn [negb].
  destruct (session (auth_state w)) as [se|]; [| done].
  by rewrite (proj1 (fetchProfile_keeps_store _ _ _)).
Qed.

Lemma run_appends (op : System.Op) (w : World) :
  activity_logs (db w) `prefix_of` activity_logs (db (System.run op w)).
Proof.
  destruct op; simpl.
  - apply signIn_appends.
  - by rewrite verifyTwoFactor_keeps_logs.
  - unfold AuthContext.resendTwoFactorCode. destruct (supabase w); [| done].
    simpl. by destruct (EdgeFunctions.invoke _).
  - by rewrite signOut_keeps_store.
  - unfold Dashboard.handleSignOut. rewrite signOut_keeps_store. apply log_appends.
  - by rewrite (proj1 (auth_listener_keeps_store _ _ _)).
  - by rewrite reload_keeps_store.
  - apply log_appends.
  - unfold AIToolForm.handleSubmit.
    destruct (user (auth_state w)) as [u|]; [| done].
    destruct (ToolsTable.rls_insert _ _); [| done].
    unfold AdminPanel.invalidatePattern, set_cache. cbn [db].
    etrans; [| apply log_appends]. done.
  - unfold AIToolFormRest.handleSubmit_edit.
    destruct (user (auth_state w)) as [u|]; [| done].
    destruct (AdminPanel.update_error env); [done |].
    destruct (existsb _ _); [| done].
    unfold AdminPanel.invalidatePattern, set_cache. cbn [fst db].
    etrans; [| apply log_appends]. done.
  - unfold AdminPanel.handleApprove.
    destruct (AdminPanel.update_error env); cbn [fst]; [apply log_appends |].
    unfold AdminPanel.invalidatePattern, set_cache. cbn [db].
    etrans; [| apply log_appends]. done.
  - unfold AdminPanel.confirmReject.
    destruct (AdminPanel.selectedTool p) as [sel|]; [| done].
    destruct (AdminPanel.update_error env); cbn [fst]; [apply log_appends |].
    unfold AdminPanel.invalidatePattern, set_cache. cbn [db].
    etrans; [| apply log_appends]. done.
  - unfold AdminPanelRest.handleDelete. destruct confirmed; [| done]. cbn [negb].
    destruct (AdminPanel.update_error env); cbn [fst]; [apply log_appends |].
    unfold AdminPanel.invalidatePattern, set_cache. cbn [db].
    etrans; [| apply log_appends]. done.
  - unfold ToolRatingComponent.handleRatingClick.
    destruct (user (auth_state w)) as [u|]; [| done].
    destruct (ToolRatingComponent.submitting c); [done |].
    by destruct (RatingsTable.upsert_with_policies _ _ _ _ _) as [[e|] rows].
  - unfold TwoFactorSettings.handleToggleTwoFactor.
    destruct (profile (auth_state w)) as [pr|]; [| done].
    destruct (AdminPanel.update_error env); cbn [fst]; [apply log_appends |].
    rewrite reload_keeps_store. etrans; [| apply log_appends]. done.
Qed.

(** X15: the audit trail is append-only: whatever sequence of operations
    the client runs (sign-in, verification, sign-out, logging, creating,
    editing, approving, rejecting and deleting tools, rating, toggling
    the two-factor setting, reloading), and whatever the outside answers,
    the rows that were in [activity_logs] are still there afterwards, in
    the same order and unchanged, at the head of the table. *)
Theorem audit_trail_is_append_only (ops : list System.Op) (w : World) :
  activity_logs (db w) `prefix_of` activity_logs (db (System.run_all ops w)).
Proof.
  revert w. induction ops as [|op ops IH]; intros w; [done |].
  simpl. etrans; [apply (run_appends op) | apply IH].
Qed.

Lemma auth_listener_user_of_session (o : QueryOutcome) (s : option Session)
    (w : World) :
  System.user_of_session (AuthContext.auth_listener o s w).
Proof.
  unfold System.user_of_session, AuthContext.auth_listener.
  destruct s as [se|]; [| done].
  by rewrite fetchProfile_keeps_user, fetchProfile_keeps_session.
Qed.

Lemma reload_user_of_session (o : QueryOutcome) (w : World) :
  System.user_of_session w -> System.user_of_session (AuthContextMount.reload o w).
Proof.
  unfold System.user_of_session, AuthContextMount.reload, AuthContextMount.mount.
  intros _. cbn [supabase]. destruct (supabase w); [| done]. cbn [negb].
  destruct (session (auth_state w)) as [se|]; [| done].
  by rewrite fetchProfile_keeps_user, fetchProfile_keeps_session.
Qed.

Lemma signIn_user_of_session (env : AuthContext.SignInEnv) (email password : string)
    (w : World) :
  System.user_of_session w ->
  System.user_of_session (AuthContext.signIn env email password w).2.
Proof.
  unfold AuthContext.signIn. intros Hw.
  destruct (supabase w); [| done]. cbn [negb set_auth_state db].
  destruct (AuthContext.auth_throws env); [done |].
  destruct (AuthProvider.signInWithPassword (db w) email password) as [e | au];
    [done |].
  set (w1 := AuthContext.auth_listener _ _ _).
  assert (H1 : System.user_of_session w1) by apply auth_listener_user_of_session.
  clearbody w1. cbv zeta. unfold System.user_of_session in *.
  destruct (AuthContext.profile_throws env); [done |].
  destruct (if AuthContext.profile_error env then _ else _) as [p|]; [destruct (two_factor_enabled p) |];
    by destruct (AuthContext.log_insert_fails env).
Qed.

Lemma verifyTwoFactor_user_of_session (env : EdgeFunctions.Verify2faEnv)
    (email code : string) (w : World) :
  System.user_of_session w ->
  System.user_of_session (AuthContext.verifyTwoFactor env email code w).2.
Proof.
  unfold AuthContext.verifyTwoFactor. intros Hw. destruct (supabase w); [| done].
  cbn [negb set_auth_state db].
  destruct (EdgeFunctions.verify_2fa env email code (db w)) as [resp d].
  cbv zeta.
  destruct (match EdgeFunctions.invoke_error env with
            | Some e => inl e
            | None => EdgeFunctions.invoke resp
            end) as [e | [m | m | tp m]]; [done | done | done |].
  destruct (EdgeFunctions.signIn_error env); [done |].
  destruct (AuthProvider.signInWithPassword _ _ _) as [e | au]; [done |].
  cbn [snd].
  match goal with
  | |- System.user_of_session
         (set_auth_state _ (AuthContext.auth_listener ?o ?s ?x)) =>
      exact (auth_listener_user_of_session o s x)
  end.
Qed.

Lemma run_keeps_user_of_session (op : System.Op) (w : World) :
  System.user_of_session w -> System.user_of_session (System.run op w).
Proof.
  intros Hw. destruct op; simpl.
  - by apply signIn_user_of_session.
  - by apply verifyTwoFactor_user_of_session.
  - unfold AuthContext.resendTwoFactorCode. destruct (supabase w); [| done].
    simpl. by destruct (EdgeFunctions.invoke _).
  - unfold AuthContext.signOut. destruct (supabase w); [| done].
    destruct o as [| e |]; simpl; [done | by destruct (_ || _) | done].
  - unfold Dashboard.handleSignOut, AuthContext.signOut.
    destruct (supabase _);
      [| cbn [negb snd]; unfold System.user_of_session;
         by rewrite (proj1 (proj2 (log_keeps_profiles _ _ _)))].
    destruct o as [| e |]; simpl; [done | by destruct (_ || _) | done].
  - apply auth_listener_user_of_session.
  - by apply reload_user_of_session.
  - unfold System.user_of_session.
    by rewrite (proj1 (proj2 (log_keeps_profiles _ _ _))).
  - unfold AIToolForm.handleSubmit.
    destruct (user (auth_state w)) as [u|] eqn:Hu; [| done].
    destruct (ToolsTable.rls_insert _ _); [| done].
    unfold System.user_of_session, AdminPanel.invalidatePattern, set_cache.
    cbn [auth_state]. by rewrite (proj1 (proj2 (log_keeps_profiles _ _ _))).
  - unfold AIToolFormRest.handleSubmit_edit.
    destruct (user (auth_state w)) as [u|] eqn:Hu; [| done].
    destruct (AdminPanel.update_error env); [done |].
    destruct (existsb _ _); [| done].
    unfold System.user_of_session, AdminPanel.invalidatePattern, set_cache.
    cbn [fst auth_state]. by rewrite (proj1 (proj2 (log_keeps_profiles _ _ _))).
  - unfold AdminPanel.handleApprove, System.user_of_session.
    destruct (AdminPanel.update_error env); cbn [fst];
      unfold AdminPanel.invalidatePattern, set_cache; cbn [auth_state];
      by rewrite (proj1 (proj2 (log_keeps_profiles _ _ _))).
  - unfold AdminPanel.confirmReject, System.user_of_session.
    destruct (AdminPanel.selectedTool p) as [sel|]; [| done].
    destruct (AdminPanel.update_error env); cbn [fst];
      unfold AdminPanel.invalidatePattern, set_cache; cbn [auth_state];
      by rewrite (proj1 (proj2 (log_keeps_profiles _ _ _))).
  - unfold AdminPanelRest.handleDelete, System.user_of_session.
    destruct confirmed; [| done]. cbn [negb].
    destruct (AdminPanel.update_error env); cbn [fst];
      unfold AdminPanel.invalidatePattern, set_cache; cbn [auth_state];
      by rewrite (proj1 (proj2 (log_keeps_profiles _ _ _))).
  - unfold ToolRatingComponent.handleRatingClick.
    destruct (user (auth_state w)) as [u|] eqn:Hu; [| done].
    destruct (ToolRatingComponent.submitting c); [done |].
    unfold System.user_of_session in *.
    destruct (RatingsTable.upsert_with_policies _ _ _ _ _) as [[e|] rows]; simpl; exact Hw.
  - unfold TwoFactorSettings.handleToggleTwoFactor.
    destruct (profile (auth_state w)) as [pr|]; [| done].
    destruct (AdminPanel.update_error env); cbn [fst].
    + unfold System.user_of_session.
      by rewrite (proj1 (proj2 (log_keeps_profiles _ _ _))).
    + apply reload_user_of_session. unfold System.user_of_session.
      by rewrite (proj1 (proj2 (log_keeps_profiles _ _ _))).
Qed.

(** X16: the [user] cell of the auth context never drifts from its
    session: if it is the session's user (or both are empty) before a
    sequence of operations, it is so after it, whatever the operations
    are and whatever the provider and the store answer. *)
Theorem user_is_the_session_user (ops : list System.Op) (w : World) :
  System.user_of_session w -> System.user_of_session (System.run_all ops w).
Proof.
  revert w. induction ops as [|op ops IH]; intros w Hw; [done |].
  simpl. by apply IH, run_keeps_user_of_session.
Qed.

Lemma user_is_the_session_user_witness :
  System.user_of_session Examples.signed_out
  /\ System.user_of_session (System.run_all MoreExamples.visit Examples.signed_out).
Proof.
  split; [reflexivity |].
  apply (user_is_the_session_user MoreExamples.visit Examples.signed_out).
  reflexivity.
Defined.

(** ** Moderation and deletion as operations on the store *)

Lemma log_keeps_ratings (env : AdminPanel.StoreEnv)
    (p : ActivityLogger.LogActivityParams) (w : World) :
  tool_ratings (db (AdminPanel.log env p w)) = tool_ratings (db w)
  /\ auth_users (db (AdminPanel.log env p w)) = auth_users (db w)
  /\ cache (AdminPanel.log env p w) = cache w.
Proof.
  unfold AdminPanel.log, ActivityLogger.logActivity. simpl.
  destruct (user (auth_state w)); [| done].
  destruct (supabase w); simpl; [| done].
  by destruct (AdminPanel.log_insert_error env).
Qed.

Lemma acts_as_transfer (w w' : World) (a : Profile) :
  auth_state w' = auth_state w -> profiles (db w') = profiles (db w) ->
  acts_as w a -> acts_as w' a.
Proof.
  unfold acts_as, ToolsTable.auth_uid. intros -> ->. done.
Qed.

(** What the moderation handlers do to the tables: the tools are those of
    the store, or those after the update by id; nothing else moves. *)
Lemma handleApprove_tables (env : AdminPanel.StoreEnv) (toolId : string)
    (w : World) (p : AdminPanel.Panel) :
  ai_tools (db (AdminPanel.handleApprove env toolId w p).1)
  = match AdminPanel.update_error env with
    | Some _ => ai_tools (db w)
    | None =>
        ai_tools (ToolsTable.update_where_id (ToolsTable.auth_uid w) toolId
                    (AdminPanel.approve_patch (ToolsTable.auth_uid w)
                       (AdminPanel.st_now env)) (db w))
    end
  /\ tool_ratings (db (AdminPanel.handleApprove env toolId w p).1) = tool_ratings (db w)
  /\ profiles (db (AdminPanel.handleApprove env toolId w p).1) = profiles (db w)
  /\ auth_state (AdminPanel.handleApprove env toolId w p).1 = auth_state w.
Proof.
  unfold AdminPanel.handleApprove.
  destruct (AdminPanel.update_error env); cbn [fst];
    unfold AdminPanel.invalidatePattern, set_cache; cbn [db auth_state];
    rewrite log_keeps_tools, (proj1 (log_keeps_ratings _ _ _)),
      (proj1 (log_keeps_profiles _ _ _)), (proj1 (proj2 (log_keeps_profiles _ _ _)));
    done.
Qed.

Lemma confirmReject_tables (env : AdminPanel.StoreEnv) (w : World)
    (p : AdminPanel.Panel) (sel : AITool) :
  AdminPanel.selectedTool p = Some sel ->
  ai_tools (db (AdminPanel.confirmReject env w p).1)
  = match AdminPanel.update_error env with
    | Some _ => ai_tools (db w)
    | None =>
        ai_tools (ToolsTable.update_where_id (ToolsTable.auth_uid w) (tool_id sel)
                    (AdminPanel.reject_patch (ToolsTable.auth_uid w)
                       (AdminPanel.st_now env) (AdminPanel.rejectionReason p)) (db w))
    end
  /\ tool_ratings (db (AdminPanel.confirmReject env w p).1) = tool_ratings (db w)
  /\ profiles (db (AdminPanel.confirmReject env w p).1) = profiles (db w)
  /\ auth_state (AdminPanel.confirmReject env w p).1 = auth_state w.
Proof.
  intros Hsel. unfold AdminPanel.confirmReject. rewrite Hsel.
  destruct (AdminPanel.update_error env); cbn [fst];
    unfold AdminPanel.invalidatePattern, set_cache; cbn [db auth_state];
    rewrite log_keeps_tools, (proj1 (log_keeps_ratings _ _ _)),
      (proj1 (log_keeps_profiles _ _ _)), (proj1 (proj2 (log_keeps_profiles _ _ _)));
    done.
Qed.

(** An update by id that keeps name, key and creator keeps them in every
    row, and keeps every row under another key as it is. *)
Lemma update_where_id_frame (uid : option string) (toolId : string)
    (patch : AITool -> AITool) (d : Database) :
  (forall t, tool_id (patch t) = tool_id t /\ tool_name (patch t) = tool_name t
             /\ created_by (patch t) = created_by t) ->
  map (fun x => (tool_id x, tool_name x, created_by x))
      (ai_tools (ToolsTable.update_where_id uid toolId patch d))
  = map (fun x => (tool_id x, tool_name x, created_by x)) (ai_tools d)
  /\ forall x, tool_id x <> toolId ->
       x ∈ ai_tools (ToolsTable.update_where_id uid toolId patch d) <-> x ∈ ai_tools d.
Proof.
  intros Hp. unfold ToolsTable.update_where_id. cbn [ai_tools set_ai_tools].
  generalize (ToolsTable.rls_update d uid). intros q.
  induction (ai_tools d) as [|t l [IH1 IH2]]; [done |]. split.
  - simpl. rewrite IH1. destruct (_ && _); [| done].
    destruct (Hp t) as (-> & -> & ->). done.
  - intros x Hx. simpl. rewrite !elem_of_cons, (IH2 x Hx).
    case_bool_decide as Hid; simpl; [| done].
    destruct (q t); [| done]. split; (intros [-> | H]; [| by right]); exfalso.
    + by rewrite (proj1 (Hp t)) in Hx.
    + done.
Qed.

(** X17: a moderation decision taken in the panel changes nothing but the
    moderated row: the tools keep their keys, names and creators, in the
    same order; every tool under another key is in the store afterwards
    exactly as before (and nothing else appears under another key); the
    ratings, the profiles and the auth context are untouched. *)
Theorem moderation_leaves_the_rest (env : AdminPanel.StoreEnv)
    (d : AdminPanel.Decision) (t : AITool) (w : World) (p : AdminPanel.Panel)
    (r : World * AdminPanel.Panel) :
  AdminPanel.decide_tool env d t w p = Some r ->
  map (fun x => (tool_id x, tool_name x, created_by x)) (ai_tools (db r.1))
  = map (fun x => (tool_id x, tool_name x, created_by x)) (ai_tools (db w))
  /\ (forall x, tool_id x <> tool_id t ->
        x ∈ ai_tools (db r.1) <-> x ∈ ai_tools (db w))
  /\ tool_ratings (db r.1) = tool_ratings (db w)
  /\ profiles (db r.1) = profiles (db w)
  /\ auth_state r.1 = auth_state w.
Proof.
  unfold AdminPanel.decide_tool. destruct (_ && _); [| done].
  intros [= <-]. destruct d as [| reason].
  - destruct (handleApprove_tables env (tool_id t) w p) as (Ht & Hr & Hp & Ha).
    rewrite Ht, Hr, Hp, Ha. destruct (AdminPanel.update_error env); [done |].
    destruct (update_where_id_frame (ToolsTable.auth_uid w) (tool_id t)
                (AdminPanel.approve_patch (ToolsTable.auth_uid w)
                   (AdminPanel.st_now env)) (db w)) as [H1 H2]; done.
  - destruct (confirmReject_tables env w
                (AdminPanel.setRejectionReason reason (AdminPanel.handleReject t p))
                t eq_refl) as (Ht & Hr & Hp & Ha).
    rewrite Ht, Hr, Hp, Ha. destruct (AdminPanel.update_error env); [done |].
    destruct (update_where_id_frame (ToolsTable.auth_uid w) (tool_id t)
                (AdminPanel.reject_patch (ToolsTable.auth_uid w)
                   (AdminPanel.st_now env) reason) (db w)) as [H1 H2]; done.
Qed.

Lemma moderation_leaves_the_rest_witness :
  Examples.bar ∈ ai_tools
    (db (AdminPanel.handleApprove Examples.store_env "t-foo"
           (Examples.signed_in Examples.ivan) Examples.panel).1).
Proof.
  apply (moderation_leaves_the_rest Examples.store_env AdminPanel.Approve
           Examples.foo (Examples.signed_in Examples.ivan) Examples.panel
           (AdminPanel.handleApprove Examples.store_env "t-foo"
              (Examples.signed_in Examples.ivan) Examples.panel)).
  - reflexivity.
  - simpl. discriminate.
  - simpl. apply list_elem_of_In. simpl. tauto.
Defined.

(** X18: of two moderation decisions on the same tool, taken by an owner
    one after the other (the second, say, from a panel that still shows
    the tool as pending) and both accepted by the store, the later one
    alone shows in the row: approving
    and then rejecting leaves the row as rejecting alone would, with the
    reason stored; rejecting and then approving leaves it as approving
    alone would, the stored reason erased. *)
Theorem later_decision_overrides (env1 env2 : AdminPanel.StoreEnv) (w : World)
    (p1 p2 : AdminPanel.Panel) (a : Profile) (sel r : AITool) :
  acts_as w a -> role a = owner ->
  AdminPanel.update_error env1 = None -> AdminPanel.update_error env2 = None ->
  AdminPanel.selectedTool p2 = Some sel ->
  ToolsTable.lookup (tool_id sel) (db w) = Some r ->
  ToolsTable.lookup (tool_id sel)
    (db (AdminPanel.confirmReject env2
           (AdminPanel.handleApprove env1 (tool_id sel) w p1).1 p2).1)
  = Some (AdminPanel.reject_patch (Some (profile_id a)) (AdminPanel.st_now env2)
            (AdminPanel.rejectionReason p2) r)
  /\ ToolsTable.lookup (tool_id sel)
       (db (AdminPanel.handleApprove env1 (tool_id sel)
              (AdminPanel.confirmReject env2 w p2).1 p1).1)
     = Some (AdminPanel.approve_patch (Some (profile_id a)) (AdminPanel.st_now env1) r).
Proof.
  intros Ha Hr He1 He2 Hsel Hrow. split.
  - destruct (handleApprove_tables env1 (tool_id sel) w p1) as (_ & _ & Hp & Hau).
    rewrite (confirmReject_updates_row env2 _ p2 a sel
               (AdminPanel.approve_patch (Some (profile_id a))
                  (AdminPanel.st_now env1) r)); try done.
    + by apply (acts_as_transfer w).
    + by apply handleApprove_updates_row.
  - destruct (confirmReject_tables env2 w p2 sel Hsel) as (_ & _ & Hp & Hau).
    rewrite (handleApprove_updates_row env1 _ p1 a (tool_id sel)
               (AdminPanel.reject_patch (Some (profile_id a))
                  (AdminPanel.st_now env2) (AdminPanel.rejectionReason p2) r));
      try done.
    + by apply (acts_as_transfer w).
    + by apply confirmReject_updates_row.
Qed.

Lemma later_decision_overrides_witness :
  status <$> ToolsTable.lookup "t-foo" (db MoreExamples.approved_then_rejected)
  = Some rejected.
Proof.
  refine (f_equal (fmap status)
            (proj1 (later_decision_overrides Examples.store_env Examples.store_env
                      (Examples.signed_in Examples.ivan) Examples.panel
                      MoreExamples.reject_modal Examples.ivan Examples.foo
                      Examples.foo _ _ _ _ _ _)));
    [repeat split; reflexivity | reflexivity ..].
Defined.

Lemma map_if_never {A : Type} (hit : A -> bool) (f : A -> A) (l : list A) :
  (forall x, x ∈ l -> hit x = false) ->
  map (fun x => if hit x then f x else x) l = l.
Proof.
  induction l as [|x l IH]; intros H; [done |]. simpl.
  rewrite (H x) by apply list_elem_of_here.
  rewrite IH; [done |]. intros y Hy. apply H. by apply list_elem_of_further.
Qed.

Lemma filter_negb_never {A : Type} (hit : A -> bool) (l : list A) :
  (forall x, x ∈ l -> hit x = false) ->
  List.filter (fun x => negb (hit x)) l = l /\ existsb hit l = false.
Proof.
  induction l as [|x l IH]; intros H; [done |]. simpl.
  rewrite (H x) by apply list_elem_of_here. simpl.
  destruct IH as [-> ->]; [| done]. intros y Hy. apply H. by apply list_elem_of_further.
Qed.

(** Somebody who is neither an owner nor the creator of a row passes
    neither the UPDATE nor the DELETE policy on it. *)
Lemma stranger_passes_no_policy (w : World) (a : Profile) (t : AITool) :
  acts_as w a -> role a <> owner -> created_by t <> Some (profile_id a) ->
  ToolsTable.rls_update (db w) (ToolsTable.auth_uid w) t = false
  /\ AdminPanelRest.rls_delete (db w) (ToolsTable.auth_uid w) t = false.
Proof.
  intros Ha Hr Hc. pose proof (is_owner_of_actor w a Ha) as Hown.
  destruct Ha as (Huid & _ & _).
  unfold ToolsTable.rls_update, AdminPanelRest.rls_delete.
  rewrite Huid, Hown, (bool_decide_eq_false_2 _ Hr), (bool_decide_eq_false_2 _ Hc).
  done.
Qed.

Lemma handleDelete_tables (env : AdminPanel.StoreEnv) (toolId : string)
    (w : World) (p : AdminPanel.Panel) :
  AdminPanel.update_error env = None ->
  ai_tools (db (AdminPanelRest.handleDelete env true toolId w p).1)
  = ai_tools (AdminPanelRest.delete_where_id (ToolsTable.auth_uid w) toolId (db w))
  /\ tool_ratings (db (AdminPanelRest.handleDelete env true toolId w p).1)
     = tool_ratings (AdminPanelRest.delete_where_id (ToolsTable.auth_uid w) toolId (db w))
  /\ profiles (db (AdminPanelRest.handleDelete env true toolId w p).1) = profiles (db w).
Proof.
  intros Herr. unfold AdminPanelRest.handleDelete. rewrite Herr. cbn [negb fst].
  unfold AdminPanel.invalidatePattern, set_cache. cbn [db].
  by rewrite log_keeps_tools, (proj1 (log_keeps_ratings _ _ _)),
    (proj1 (log_keeps_profiles _ _ _)).
Qed.

(** X19: a signed-in user who is neither an owner nor the creator of a
    tool cannot change it through any handler: approving, rejecting,
    deleting (confirmed or not) leave the table of tools as it is,
    deleting leaves the ratings as they are, and the edit form leaves the
    whole world and the role tags as they are, whatever the store
    answers. *)
Theorem stranger_changes_no_tool (env : AdminPanel.StoreEnv) (w : World)
    (p : AdminPanel.Panel) (a : Profile) (toolId : string) :
  acts_as w a -> role a <> owner ->
  (forall t, t ∈ ai_tools (db w) -> tool_id t = toolId ->
             created_by t <> Some (profile_id a)) ->
  ai_tools (db (AdminPanel.handleApprove env toolId w p).1) = ai_tools (db w)
  /\ (forall sel, AdminPanel.selectedTool p = Some sel -> tool_id sel = toolId ->
        ai_tools (db (AdminPanel.confirmReject env w p).1) = ai_tools (db w))
  /\ (forall confirmed,
        ai_tools (db (AdminPanelRest.handleDelete env confirmed toolId w p).1)
        = ai_tools (db w)
        /\ tool_ratings (db (AdminPanelRest.handleDelete env confirmed toolId w p).1)
           = tool_ratings (db w))
  /\ (forall tool name chosen table, tool_id tool = toolId ->
        AIToolFormRest.handleSubmit_edit env tool name chosen w table = (w, table)).
Proof.
  intros Ha Hr Hc.
  assert (Hup : forall t, t ∈ ai_tools (db w) ->
            bool_decide (tool_id t = toolId)
            && ToolsTable.rls_update (db w) (ToolsTable.auth_uid w) t = false).
  { intros t Ht. case_bool_decide as Hid; [| done]. simpl.
    apply (stranger_passes_no_policy w a t Ha Hr). by apply Hc. }
  assert (Hdel : forall t, t ∈ ai_tools (db w) ->
            bool_decide (tool_id t = toolId)
            && AdminPanelRest.rls_delete (db w) (ToolsTable.auth_uid w) t = false).
  { intros t Ht. case_bool_decide as Hid; [| done]. simpl.
    apply (stranger_passes_no_policy w a t Ha Hr). by apply Hc. }
  split; [| split; [| split]].
  - rewrite (proj1 (handleApprove_tables env toolId w p)).
    destruct (AdminPanel.update_error env); [done |].
    unfold ToolsTable.update_where_id. cbn [ai_tools set_ai_tools].
    by apply map_if_never.
  - intros sel Hsel <-. rewrite (proj1 (confirmReject_tables env w p sel Hsel)).
    destruct (AdminPanel.update_error env); [done |].
    unfold ToolsTable.update_where_id. cbn [ai_tools set_ai_tools].
    by apply map_if_never.
  - intros [|]; [| done].
    destruct (AdminPanel.update_error env) as [msg|] eqn:Herr.
    + unfold AdminPanelRest.handleDelete. rewrite Herr. cbn [negb fst].
      by rewrite log_keeps_tools, (proj1 (log_keeps_ratings _ _ _)).
    + destruct (handleDelete_tables env toolId w p Herr) as (-> & -> & _).
      unfold AdminPanelRest.delete_where_id.
      cbn [ai_tools tool_ratings set_ai_tools set_tool_ratings].
      destruct (filter_negb_never _ _ Hdel) as [-> ->]. done.
  - intros tool name chosen table <-. unfold AIToolFormRest.handleSubmit_edit.
    destruct (user (auth_state w)); [| done].
    destruct (AdminPanel.update_error env); [done |].
    destruct (filter_negb_never _ _ Hup) as [_ ->]. done.
Qed.

Lemma stranger_changes_no_tool_witness :
  ai_tools (db (AdminPanel.handleApprove Examples.store_env "t-foo"
                  (Examples.signed_in Examples.elena) Examples.panel).1)
  = [Examples.foo; Examples.bar].
Proof.
  apply (stranger_changes_no_tool Examples.store_env
           (Examples.signed_in Examples.elena) Examples.panel Examples.elena "t-foo").
  - repeat split; reflexivity.
  - discriminate.
  - intros t Ht _. apply list_elem_of_In in Ht. simpl in Ht.
    destruct Ht as [<- | [<- | []]]; discriminate.
Defined.

Lemma find_filter_none {A : Type} (p q : A -> bool) (l : list A) :
  (forall x, x ∈ l -> p x = true -> q x = false) ->
  find p (List.filter q l) = None.
Proof.
  induction l as [|x l IH]; intros H; [done |]. simpl.
  assert (IH' : find p (List.filter q l) = None).
  { apply IH. intros y Hy. apply H. by apply list_elem_of_further. }
  destruct (q x) eqn:Hq; [| done]. simpl.
  destruct (p x) eqn:Hp; [| done].
  rewrite (H x) in Hq; [done | apply list_elem_of_here | done].
Qed.

Lemma filter_after_negb {A : Type} (q : A -> bool) (l : list A) :
  List.filter q (List.filter (fun x => negb (q x)) l) = [].
Proof.
  induction l as [|x l IH]; [done |]. simpl.
  destruct (q x) eqn:E; simpl; [done |]. by rewrite E.
Qed.

Lemma elem_of_filter_bool {A : Type} (q : A -> bool) (l : list A) (x : A) :
  x ∈ List.filter q l <-> x ∈ l /\ q x = true.
Proof. rewrite !list_elem_of_In. apply filter_In. Qed.

(** X20: a confirmed delete by an owner, or by the creator of the tool,
    takes the tool out of the store together with every rating given to
    it, and leaves alone every other tool, every rating of another tool
    and the profiles; declined at the confirm dialog, it does nothing. *)
Theorem delete_removes_tool_and_its_ratings (env : AdminPanel.StoreEnv) (w : World)
    (p : AdminPanel.Panel) (a : Profile) (toolId : string) (r : AITool) :
  acts_as w a ->
  role a = owner \/ (forall t, t ∈ ai_tools (db w) -> tool_id t = toolId ->
                               created_by t = Some (profile_id a)) ->
  AdminPanel.update_error env = None ->
  ToolsTable.lookup toolId (db w) = Some r ->
  ToolsTable.lookup toolId (db (AdminPanelRest.handleDelete env true toolId w p).1)
  = None
  /\ RatingsTable.stored_for (db (AdminPanelRest.handleDelete env true toolId w p).1)
       toolId = []
  /\ (forall x, tool_id x <> toolId ->
        x ∈ ai_tools (db (AdminPanelRest.handleDelete env true toolId w p).1)
        <-> x ∈ ai_tools (db w))
  /\ (forall x, rating_tool_id x <> toolId ->
        x ∈ tool_ratings (db (AdminPanelRest.handleDelete env true toolId w p).1)
        <-> x ∈ tool_ratings (db w))
  /\ profiles (db (AdminPanelRest.handleDelete env true toolId w p).1)
     = profiles (db w)
  /\ AdminPanelRest.handleDelete env false toolId w p = (w, p).
Proof.
  intros Ha Hright Herr Hrow.
  assert (Hhit : forall t, t ∈ ai_tools (db w) -> tool_id t = toolId ->
            AdminPanelRest.rls_delete (db w) (ToolsTable.auth_uid w) t = true).
  { intros t Ht Hid. pose proof (is_owner_of_actor w a Ha) as Hown.
    destruct Ha as (Huid & _ & _). unfold AdminPanelRest.rls_delete.
    rewrite Huid, Hown. destruct Hright as [Hr | Hc].
    - rewrite (bool_decide_eq_true_2 _ Hr). apply orb_true_r.
    - by rewrite (bool_decide_eq_true_2 _ (Hc t Ht Hid)). }
  destruct (handleDelete_tables env toolId w p Herr) as (Ht & Hr & Hp).
  unfold ToolsTable.lookup, RatingsTable.stored_for. rewrite Ht, Hr, Hp.
  unfold AdminPanelRest.delete_where_id.
  cbn [ai_tools tool_ratings set_ai_tools set_tool_ratings].
  assert (Hex : existsb (fun t => bool_decide (tool_id t = toolId)
                   && AdminPanelRest.rls_delete (db w) (ToolsTable.auth_uid w) t)
                  (ai_tools (db w)) = true).
  { apply existsb_exists. exists r. unfold ToolsTable.lookup in Hrow.
    destruct (find_some _ _ Hrow) as [Hin Hid]. split; [done |].
    rewrite Hid. simpl. apply Hhit; [by apply list_elem_of_In |].
    by apply bool_decide_eq_true_1 in Hid. }
  rewrite Hex. split; [| split; [| split; [| split; [| split]]]].
  - apply find_filter_none. intros x Hx Hid. rewrite Hid. simpl.
    rewrite Hhit; [done | done | by apply bool_decide_eq_true_1 in Hid].
  - apply filter_after_negb.
  - intros x Hx. rewrite elem_of_filter_bool.
    rewrite (bool_decide_eq_false_2 _ Hx). simpl. tauto.
  - intros x Hx. rewrite elem_of_filter_bool.
    rewrite (bool_decide_eq_false_2 _ Hx). simpl. tauto.
  - done.
  - done.
Qed.

Lemma delete_removes_tool_and_its_ratings_witness :
  RatingsTable.stored_for
    (db (AdminPanelRest.handleDelete Examples.store_env true "t-bar"
           (Examples.rated_world Examples.ivan) Examples.panel).1) "t-bar" = [].
Proof.
  refine (proj1 (proj2 (delete_removes_tool_and_its_ratings Examples.store_env
            (Examples.rated_world Examples.ivan) Examples.panel Examples.ivan
            "t-bar" Examples.bar _ _ _ _)));
    [repeat split; reflexivity | left; reflexivity | reflexivity | reflexivity].
Defined.

(** When the store refuses the update, the moderation and delete
    handlers apply nothing: tools, ratings and profiles stay as they are,
    the cache is not cleared and the panel keeps its state (the modal of a
    rejection stays open with its reason); all that happens is the
    attempt to log the failure. *)
Lemma refused_update_applies_nothing (env : AdminPanel.StoreEnv) (w : World)
    (p : AdminPanel.Panel) (toolId msg : string) :
  AdminPanel.update_error env = Some msg ->
  forall r, r = AdminPanel.handleApprove env toolId w p
            \/ r = AdminPanel.confirmReject env w p
            \/ r = AdminPanelRest.handleDelete env true toolId w p ->
  ai_tools (db r.1) = ai_tools (db w)
  /\ tool_ratings (db r.1) = tool_ratings (db w)
  /\ profiles (db r.1) = profiles (db w)
  /\ cache r.1 = cache w
  /\ r.2 = p.
Proof.
  intros Herr r [-> | [-> | ->]].
  - unfold AdminPanel.handleApprove. rewrite Herr. cbn [fst snd].
    by rewrite log_keeps_tools, (proj1 (log_keeps_ratings _ _ _)),
      (proj1 (log_keeps_profiles _ _ _)), (proj2 (proj2 (log_keeps_ratings _ _ _))).
  - unfold AdminPanel.confirmReject.
    destruct (AdminPanel.selectedTool p); [| done]. rewrite Herr. cbn [fst snd].
    by rewrite log_keeps_tools, (proj1 (log_keeps_ratings _ _ _)),
      (proj1 (log_keeps_profiles _ _ _)), (proj2 (proj2 (log_keeps_ratings _ _ _))).
  - unfold AdminPanelRest.handleDelete. rewrite Herr. cbn [negb fst snd].
    by rewrite log_keeps_tools, (proj1 (log_keeps_ratings _ _ _)),
      (proj1 (log_keeps_profiles _ _ _)), (proj2 (proj2 (log_keeps_ratings _ _ _))).
Qed.

(** ** The constraints of the ratings table *)

Lemma existsb_false_elem {A : Type} (q : A -> bool) (l : list A) (x : A) :
  existsb q l = false -> x ∈ l -> q x = false.
Proof.
  intros H Hx. destruct (q x) eqn:E; [| done].
  rewrite <- H. symmetry. apply existsb_exists. exists x.
  split; [by apply list_elem_of_In | done].
Qed.

Lemma elem_of_map_inv {A B : Type} (k : A -> B) (l : list A) (b : B) :
  b ∈ map k l -> exists y, y ∈ l /\ k y = b.
Proof.
  intros H. apply list_elem_of_In, in_map_iff in H as (y & Hy & Hin).
  exists y. split; [by apply list_elem_of_In | done].
Qed.

Lemma NoDup_map_snoc {A B : Type} (k : A -> B) (l : list A) (x : A) :
  NoDup (map k l) -> (forall y, y ∈ l -> k y <> k x) -> NoDup (map k (l ++ [x])).
Proof.
  intros Hl Hx. rewrite map_app. apply NoDup_app. split; [done |]. split.
  - intros b Hb Hb'. apply list_elem_of_singleton in Hb'. subst b.
    destruct (elem_of_map_inv _ _ _ Hb) as (y & Hy & Hk). by apply (Hx y).
  - apply NoDup_singleton.
Qed.

(** Rewriting the one row under a key [i] so that it takes the second key
    [p] keeps the second keys distinct when no other row has [p]. *)
Lemma NoDup_map_update {A B C : Type} `{EqDecision B} (k1 : A -> B) (k2 : A -> C)
    (i : B) (p : C) (g : A -> A) (l : list A) :
  (forall x, k1 (g x) = k1 x) -> (forall x, k2 (g x) = p) ->
  NoDup (map k1 l) -> NoDup (map k2 l) ->
  (forall y, y ∈ l -> k1 y <> i -> k2 y <> p) ->
  NoDup (map k2 (map (fun x => if bool_decide (k1 x = i) then g x else x) l)).
Proof.
  intros Hg1 Hg2. induction l as [|x l IH]; intros H1 H2 Hp; [apply NoDup_nil_2 |].
  simpl in *. apply NoDup_cons in H1 as [Hx1 H1]. apply NoDup_cons in H2 as [Hx2 H2].
  assert (Hp' : forall y, y ∈ l -> k1 y <> i -> k2 y <> p).
  { intros y Hy. apply Hp. by apply list_elem_of_further. }
  case_bool_decide as Hi.
  - assert (Hl : map (fun x0 => if bool_decide (k1 x0 = i) then g x0 else x0) l = l).
    { apply map_if_never. intros y Hy. apply bool_decide_eq_false_2. intros Hy1.
      apply Hx1. rewrite Hi, <- Hy1. apply list_elem_of_In, in_map.
      by apply list_elem_of_In. }
    rewrite Hl, Hg2. apply NoDup_cons. split; [| done].
    intros Hin. destruct (elem_of_map_inv _ _ _ Hin) as (y & Hy & Hk).
    apply (Hp' y Hy); [| done]. intros Hy1. apply Hx1. rewrite Hi, <- Hy1.
    apply list_elem_of_In, in_map. by apply list_elem_of_In.
  - apply NoDup_cons. split; [| by apply IH].
    intros Hin. destruct (elem_of_map_inv _ _ _ Hin) as (z & Hz & Hk).
    destruct (elem_of_map_inv _ _ _ Hz) as (y & Hy & Hf). subst z.
    case_bool_decide as Hy1.
    + rewrite Hg2 in Hk. apply (Hp x); [apply list_elem_of_here | done | done].
    + apply Hx2. rewrite <- Hk. apply list_elem_of_In, in_map.
      by apply list_elem_of_In.
Qed.

Ltac case_existsb H :=
  match goal with
  | |- context [existsb ?q ?l] => destruct (existsb q l) eqn:H
  end.

Lemma upsert_keeps_constraints (uid : option string) (oc : option (list string))
    (fid : string) (v : RatingsTable.NewRating) (rows rows' : list ToolRating) :
  Invariants.ratings_ok rows ->
  RatingsTable.upsert uid oc fid v rows = (None, rows') ->
  Invariants.ratings_ok rows'.
Proof.
  intros (Hid & Hpair & Hchk). unfold RatingsTable.upsert. cbv zeta.
  destruct (negb (bool_decide _)); [done |].
  destruct ((1 <=? _) && (_ <=? 5)) eqn:Hrange; [| done]. cbn [negb].
  apply andb_true_iff in Hrange as [H1 H5]. apply Z.leb_le in H1, H5.
  assert (Harb : RatingsTable.arbiter oc = None
                 \/ RatingsTable.arbiter oc = Some RatingsTable.same_id
                 \/ RatingsTable.arbiter oc = Some RatingsTable.same_pair).
  { unfold RatingsTable.arbiter. destruct oc; repeat case_bool_decide; auto. }
  destruct Harb as [-> | [-> | ->]]; [done | |].
  - case_existsb Hc.
    + case_existsb Hother; [done |]. intros [= <-].
      unfold RatingsTable.same_id in *. cbn [rating_id] in *.
      split; [| split].
      * rewrite map_map. erewrite map_ext; [exact Hid |].
        intros x. simpl. by destruct (bool_decide _).
      * apply (NoDup_map_update rating_id
                 (fun r => (rating_tool_id r, rating_user_id r)) fid
                 (RatingsTable.new_tool_id v, RatingsTable.new_user_id v)
                 (fun x => mkRating (rating_id x) (RatingsTable.new_tool_id v)
                             (RatingsTable.new_user_id v) (RatingsTable.new_rating v)));
          try done.
        intros y Hy Hne Heq. pose proof (existsb_false_elem _ _ y Hother Hy) as Hf.
        simpl in Hf. rewrite (bool_decide_eq_false_2 _ Hne) in Hf.
        unfold RatingsTable.same_pair in Hf. simpl in Hf, Heq.
        injection Heq as Ht Hu.
        by rewrite (bool_decide_eq_true_2 _ Ht), (bool_decide_eq_true_2 _ Hu) in Hf.
      * apply Forall_forall. intros z Hz.
        destruct (elem_of_map_inv _ _ _ Hz) as (y & Hy & <-).
        destruct (bool_decide _); [simpl; lia |].
        by apply (proj1 (Forall_forall _ _) Hchk).
    + case_existsb Hnew; [done |]. intros [= <-].
      split; [| split].
      * apply NoDup_map_snoc; [done |]. intros y Hy Heq.
        pose proof (existsb_false_elem _ _ y Hnew Hy) as Hf. simpl in Hf.
        apply orb_false_iff in Hf as [Hf _]. unfold RatingsTable.same_id in Hf.
        simpl in Hf, Heq. by rewrite (bool_decide_eq_true_2 _ Heq) in Hf.
      * apply NoDup_map_snoc; [done |]. intros y Hy Heq.
        pose proof (existsb_false_elem _ _ y Hnew Hy) as Hf. simpl in Hf.
        apply orb_false_iff in Hf as [_ Hf]. unfold RatingsTable.same_pair in Hf.
        simpl in Hf, Heq. injection Heq as Ht Hu.
        by rewrite (bool_decide_eq_true_2 _ Ht), (bool_decide_eq_true_2 _ Hu) in Hf.
      * apply Forall_app. split; [done |]. apply Forall_singleton. simpl. lia.
  - case_existsb Hc.
    + case_existsb Hother; [done |]. intros [= <-].
      split; [| split].
      * rewrite map_map. erewrite map_ext; [exact Hid |].
        intros x. simpl. by destruct (RatingsTable.same_pair _ _).
      * rewrite map_map. erewrite map_ext; [exact Hpair |].
        intros x. simpl. unfold RatingsTable.same_pair. simpl.
        do 2 case_bool_decide; simpl; congruence.
      * apply Forall_forall. intros z Hz.
        destruct (elem_of_map_inv _ _ _ Hz) as (y & Hy & <-).
        destruct (RatingsTable.same_pair _ _); [simpl; lia |].
        by apply (proj1 (Forall_forall _ _) Hchk).
    + case_existsb Hnew; [done |]. intros [= <-].
      split; [| split].
      * apply NoDup_map_snoc; [done |]. intros y Hy Heq.
        pose proof (existsb_false_elem _ _ y Hnew Hy) as Hf. simpl in Hf.
        apply orb_false_iff in Hf as [Hf _]. unfold RatingsTable.same_id in Hf.
        simpl in Hf, Heq. by rewrite (bool_decide_eq_true_2 _ Heq) in Hf.
      * apply NoDup_map_snoc; [done |]. intros y Hy Heq.
        pose proof (existsb_false_elem _ _ y Hnew Hy) as Hf. simpl in Hf.
        apply orb_false_iff in Hf as [_ Hf]. unfold RatingsTable.same_pair in Hf.
        simpl in Hf, Heq. injection Heq as Ht Hu.
        by rewrite (bool_decide_eq_true_2 _ Ht), (bool_decide_eq_true_2 _ Hu) in Hf.
      * apply Forall_app. split; [done |]. apply Forall_singleton. simpl. lia.
Qed.

(** What the whole call accepts, the write accepts. *)
Lemma upsert_with_policies_accepted (d : Database) (uid : option string)
    (oc : option (list string)) (fid : string) (v : RatingsTable.NewRating)
    (rows' : list ToolRating) :
  RatingsTable.upsert_with_policies d uid oc fid v = (None, rows') ->
  RatingsTable.upsert uid oc fid v (tool_ratings d) = (None, rows').
Proof.
  unfold RatingsTable.upsert_with_policies. cbv zeta.
  by destruct (_ || _).
Qed.

Lemma NoDup_map_filter {A B : Type} (k : A -> B) (q : A -> bool) (l : list A) :
  NoDup (map k l) -> NoDup (map k (List.filter q l)).
Proof.
  induction l as [|x l IH]; [done |]. simpl. intros H.
  apply NoDup_cons in H as [Hx H]. destruct (q x); [| by apply IH]. simpl.
  apply NoDup_cons. split; [| by apply IH]. intros Hin. apply Hx.
  destruct (elem_of_map_inv _ _ _ Hin) as (y & Hy & <-).
  apply elem_of_filter_bool in Hy as [Hy _].
  apply list_elem_of_In, in_map. by apply list_elem_of_In.
Qed.

Lemma filter_keeps_constraints (q : ToolRating -> bool) (rows : list ToolRating) :
  Invariants.ratings_ok rows -> Invariants.ratings_ok (List.filter q rows).
Proof.
  intros (Hid & Hpair & Hchk). split; [| split].
  - by apply NoDup_map_filter.
  - by apply NoDup_map_filter.
  - apply Forall_forall. intros x Hx. apply elem_of_filter_bool in Hx as [Hx _].
    by apply (proj1 (Forall_forall _ _) Hchk).
Qed.

Lemma signIn_keeps_tables (env : AuthContext.SignInEnv) (email password : string)
    (w : World) :
  tool_ratings (db (AuthContext.signIn env email password w).2) = tool_ratings (db w)
  /\ ai_tools (db (AuthContext.signIn env email password w).2) = ai_tools (db w).
Proof.
  unfold AuthContext.signIn.
  destruct (supabase w); [| done]. cbn [negb set_auth_state db].
  destruct (AuthContext.auth_throws env); [done |].
  destruct (AuthProvider.signInWithPassword (db w) email password) as [e | au];
    [done |].
  set (w1 := AuthContext.auth_listener _ _ _).
  assert (Hdb : db w1 = db w) by exact (proj1 (auth_listener_keeps_store _ _ _)).
  clearbody w1. cbv zeta.
  destruct (AuthContext.profile_throws env); [simpl; by rewrite Hdb |].
  destruct (if AuthContext.profile_error env then _ else _) as [p|]; [destruct (two_factor_enabled p) |];
    destruct (AuthContext.log_insert_fails env); simpl; by rewrite Hdb.
Qed.

Lemma verifyTwoFactor_keeps_tables (env : EdgeFunctions.Verify2faEnv)
    (email code : string) (w : World) :
  tool_ratings (db (AuthContext.verifyTwoFactor env email code w).2)
  = tool_ratings (db w)
  /\ ai_tools (db (AuthContext.verifyTwoFactor env email code w).2) = ai_tools (db w).
Proof.
  split.
  - exact (f_equal tool_ratings
             (verifyTwoFactor_touches_accounts_only env email code w)).
  - exact (f_equal ai_tools
             (verifyTwoFactor_touches_accounts_only env email code w)).
Qed.

(** What one operation can do to the ratings: nothing, remove rows, or one
    accepted upsert. *)
Lemma run_ratings (op : System.Op) (w : World) :
  tool_ratings (db (System.run op w)) = tool_ratings (db w)
  \/ (exists q, tool_ratings (db (System.run op w))
                = List.filter q (tool_ratings (db w)))
  \/ (exists uid oc fid v,
        RatingsTable.upsert uid oc fid v (tool_ratings (db w))
        = (None, tool_ratings (db (System.run op w)))).
Proof.
  destruct op; simpl.
  - left. apply signIn_keeps_tables.
  - left. apply verifyTwoFactor_keeps_tables.
  - left. unfold AuthContext.resendTwoFactorCode. destruct (supabase w); [| done].
    simpl. by destruct (EdgeFunctions.invoke _).
  - left. by rewrite signOut_keeps_store.
  - left. unfold Dashboard.handleSignOut. rewrite signOut_keeps_store.
    apply log_keeps_ratings.
  - left. by rewrite (proj1 (auth_listener_keeps_store _ _ _)).
  - left. by rewrite reload_keeps_store.
  - left. apply log_keeps_ratings.
  - left. unfold AIToolForm.handleSubmit.
    destruct (user (auth_state w)) as [u|]; [| done].
    destruct (ToolsTable.rls_insert _ _); [| done].
    unfold AdminPanel.invalidatePattern, set_cache. cbn [db].
    by rewrite (proj1 (log_keeps_ratings _ _ _)).
  - left. unfold AIToolFormRest.handleSubmit_edit.
    destruct (user (auth_state w)) as [u|]; [| done].
    destruct (AdminPanel.update_error env); [done |].
    destruct (existsb _ _); [| done].
    unfold AdminPanel.invalidatePattern, set_cache. cbn [fst db].
    by rewrite (proj1 (log_keeps_ratings _ _ _)).
  - left. apply handleApprove_tables.
  - left. destruct (AdminPanel.selectedTool p) as [sel|] eqn:Hsel.
    + by apply (confirmReject_tables env w p sel).
    + unfold AdminPanel.confirmReject. by rewrite Hsel.
  - destruct confirmed; [| by left].
    destruct (AdminPanel.update_error env) as [msg|] eqn:Herr.
    + left. unfold AdminPanelRest.handleDelete. rewrite Herr. cbn [negb fst].
      apply log_keeps_ratings.
    + rewrite (proj1 (proj2 (handleDelete_tables env toolId w p Herr))).
      unfold AdminPanelRest.delete_where_id. cbn [tool_ratings set_tool_ratings].
      destruct (existsb _ _); [right; left; by eexists | by left].
  - unfold ToolRatingComponent.handleRatingClick.
    destruct (user (auth_state w)) as [u|]; [| by left].
    destruct (ToolRatingComponent.submitting c); [by left |].
    destruct (RatingsTable.upsert_with_policies _ _ _ _ _) as [[e|] rows] eqn:Hup;
      [by left |].
    right. right. repeat eexists. by apply upsert_with_policies_accepted in Hup.
  - left. unfold TwoFactorSettings.handleToggleTwoFactor.
    destruct (profile (auth_state w)) as [pr|]; [| done].
    destruct (AdminPanel.update_error env); cbn [fst].
    + apply log_keeps_ratings.
    + by rewrite reload_keeps_store, (proj1 (log_keeps_ratings _ _ _)).
Qed.

(** X21: the constraints of the ratings table hold in every run: if no
    two ratings share an id, no user has two ratings on one tool and every
    rating lies between 1 and 5, then the same is true after any sequence
    of operations, whatever ids the store draws and whatever is clicked. *)
Theorem ratings_constraints_hold_in_every_run (ops : list System.Op) (w : World) :
  Invariants.ratings_ok (tool_ratings (db w)) ->
  Invariants.ratings_ok (tool_ratings (db (System.run_all ops w))).
Proof.
  revert w. induction ops as [|op ops IH]; intros w Hw; [done |].
  simpl. apply IH.
  destruct (run_ratings op w) as [-> | [[q ->] | (uid & oc & fid & v & Hup)]].
  - done.
  - by apply filter_keeps_constraints.
  - by apply (upsert_keeps_constraints uid oc fid v (tool_ratings (db w))).
Qed.

Lemma ratings_constraints_hold_in_every_run_witness :
  Invariants.ratings_ok (tool_ratings (db Examples.signed_out))
  /\ Invariants.ratings_ok
       (tool_ratings (db (System.run_all MoreExamples.visit Examples.signed_out))).
Proof.
  assert (H : Invariants.ratings_ok (tool_ratings (db Examples.signed_out))).
  { split; [apply NoDup_nil_2 | split; [apply NoDup_nil_2 | apply Forall_nil_2]]. }
  split; [exact H |].
  exact (ratings_constraints_hold_in_every_run MoreExamples.visit
           Examples.signed_out H).
Defined.

(** ** The moderation record *)

Lemma update_where_id_Forall (P : AITool -> Prop) (uid : option string)
    (toolId : string) (patch : AITool -> AITool) (d : Database) :
  (forall t, P t -> P (patch t)) ->
  Forall P (ai_tools d) ->
  Forall P (ai_tools (ToolsTable.update_where_id uid toolId patch d)).
Proof.
  intros Hp. unfold ToolsTable.update_where_id. cbn [ai_tools set_ai_tools].
  generalize (ToolsTable.rls_update d uid). intros q.
  induction (ai_tools d) as [|t l IH]; [done |]. intros H.
  apply Forall_cons in H as [Ht H]. simpl. apply Forall_cons.
  split; [| by apply IH]. destruct (_ && _); [by apply Hp | done].
Qed.

Lemma reason_or_default_not_empty (reason : string) :
  AdminPanel.reason_or_default reason <> ""%string.
Proof.
  unfold AdminPanel.reason_or_default. case_bool_decide as H; [| done].
  discriminate.
Qed.

Lemma run_keeps_moderation_records (op : System.Op) (w : World) :
  Forall Invariants.moderation_record_ok (ai_tools (db w)) ->
  Forall Invariants.moderation_record_ok (ai_tools (db (System.run op w))).
Proof.
  intros Hw. destruct op; cbn [System.run].
  - by rewrite (proj2 (signIn_keeps_tables _ _ _ _)).
  - by rewrite (proj2 (verifyTwoFactor_keeps_tables _ _ _ _)).
  - unfold AuthContext.resendTwoFactorCode. destruct (supabase w); [| done].
    simpl. by destruct (EdgeFunctions.invoke _).
  - by rewrite signOut_keeps_store.
  - unfold Dashboard.handleSignOut. by rewrite signOut_keeps_store, log_keeps_tools.
  - by rewrite (proj1 (auth_listener_keeps_store _ _ _)).
  - by rewrite reload_keeps_store.
  - by rewrite log_keeps_tools.
  - unfold AIToolForm.handleSubmit.
    destruct (user (auth_state w)) as [u|]; [| done].
    destruct (ToolsTable.rls_insert _ _); [| done].
    unfold AdminPanel.invalidatePattern, set_cache. cbn [db].
    rewrite log_keeps_tools. cbn [db set_db ai_tools set_ai_tools].
    apply Forall_app. split; [done |]. by apply Forall_singleton.
  - unfold AIToolFormRest.handleSubmit_edit.
    destruct (user (auth_state w)) as [u|]; [| done].
    destruct (AdminPanel.update_error env); [done |].
    destruct (existsb _ _); [| done].
    unfold AdminPanel.invalidatePattern, set_cache. cbn [fst db].
    rewrite log_keeps_tools. cbn [db set_db].
    by apply update_where_id_Forall.
  - rewrite (proj1 (handleApprove_tables env toolId w p)).
    destruct (AdminPanel.update_error env); [done |].
    apply update_where_id_Forall; [| done]. intros t _. by split.
  - destruct (AdminPanel.selectedTool p) as [sel|] eqn:Hsel.
    + rewrite (proj1 (confirmReject_tables env w p sel Hsel)).
      destruct (AdminPanel.update_error env); [done |].
      apply update_where_id_Forall; [| done]. intros t _. split; [done |].
      eexists. split; [reflexivity | apply reason_or_default_not_empty].
    + unfold AdminPanel.confirmReject. by rewrite Hsel.
  - destruct confirmed; [| done].
    destruct (AdminPanel.update_error env) as [msg|] eqn:Herr.
    + unfold AdminPanelRest.handleDelete. rewrite Herr. cbn [negb fst].
      by rewrite log_keeps_tools.
    + rewrite (proj1 (handleDelete_tables env toolId w p Herr)).
      unfold AdminPanelRest.delete_where_id. cbn [ai_tools set_ai_tools set_tool_ratings].
      apply Forall_forall. intros x Hx. apply elem_of_filter_bool in Hx as [Hx _].
      by apply (proj1 (Forall_forall _ _) Hw).
  - unfold ToolRatingComponent.handleRatingClick.
    destruct (user (auth_state w)) as [u|]; [| done].
    destruct (ToolRatingComponent.submitting c); [done |].
    by destruct (RatingsTable.upsert_with_policies _ _ _ _ _) as [[e|] rows].
  - unfold TwoFactorSettings.handleToggleTwoFactor.
    destruct (profile (auth_state w)) as [pr|]; [| done].
    destruct (AdminPanel.update_error env); cbn [fst].
    + by rewrite log_keeps_tools.
    + by rewrite reload_keeps_store, log_keeps_tools.
Qed.

(** X22: the moderation record of every tool hangs together in every
    run: if each decided tool carries the time of its decision, each
    approved tool no rejection reason and each rejected tool a reason
    that is not empty, then so it is after any sequence of operations;
    in particular a rejection never stores an empty reason and an
    approval never leaves an old reason behind. *)
Theorem moderation_records_hold_in_every_run (ops : list System.Op) (w : World) :
  Forall Invariants.moderation_record_ok (ai_tools (db w)) ->
  Forall Invariants.moderation_record_ok (ai_tools (db (System.run_all ops w))).
Proof.
  revert w. induction ops as [|op ops IH]; intros w Hw; [done |].
  simpl. by apply IH, run_keeps_moderation_records.
Qed.

Lemma moderation_records_hold_in_every_run_witness :
  Forall Invariants.moderation_record_ok (ai_tools (db Examples.signed_out))
  /\ Forall Invariants.moderation_record_ok
       (ai_tools (db (System.run_all MoreExamples.moderation_session
                        Examples.signed_out))).
Proof.
  assert (H : Forall Invariants.moderation_record_ok
                (ai_tools (db Examples.signed_out))).
  { apply Forall_cons_2; [exact I |].
    apply Forall_cons_2; [| apply Forall_nil_2].
    split; [discriminate | reflexivity]. }
  split; [exact H |].
  exact (moderation_records_hold_in_every_run MoreExamples.moderation_session
           Examples.signed_out H).
Defined.

(** ** Who is offered what *)

(** X23: the list offers the edit and delete buttons of a tool exactly to
    those the store lets update and delete it (its creator and the
    owners), and only on tools the list shows them. *)
Theorem edit_buttons_match_policies (w : World) (a : Profile) (t : AITool) :
  acts_as w a ->
  AIToolsList.canEditTool w t
  = ToolsTable.rls_update (db w) (ToolsTable.auth_uid w) t
  /\ AIToolsList.canEditTool w t
     = AdminPanelRest.rls_delete (db w) (ToolsTable.auth_uid w) t
  /\ (AIToolsList.canEditTool w t = true <->
      created_by t = Some (profile_id a) \/ role a = owner)
  /\ (AIToolsList.canEditTool w t = true -> AIToolsList.canView w t = true).
Proof.
  intros Ha. pose proof (is_owner_of_actor w a Ha) as Hown.
  pose proof (canView_unfold w a t Ha) as Hview.
  destruct (actor_user w a Ha) as (u & Hu & Huid).
  destruct Ha as (Hauth & Hprof & _).
  assert (Hedit : AIToolsList.canEditTool w t
                  = bool_decide (created_by t = Some (profile_id a))
                    || bool_decide (role a = owner)).
  { unfold AIToolsList.canEditTool, AIToolsList.owner_profile.
    by rewrite Hu, Hprof, Huid. }
  unfold ToolsTable.rls_update, AdminPanelRest.rls_delete.
  rewrite Hauth, Hown, Hedit, Hview. split; [done |]. split; [done |]. split.
  - rewrite orb_true_iff, !bool_decide_eq_true. done.
  - intros H. apply orb_true_iff in H as [-> | ->]; [| apply orb_true_r].
    by rewrite orb_true_r.
Qed.

Lemma edit_buttons_match_policies_witness :
  AIToolsList.canEditTool (Examples.signed_in Examples.elena) Examples.bar
  = ToolsTable.rls_update (db (Examples.signed_in Examples.elena))
      (ToolsTable.auth_uid (Examples.signed_in Examples.elena)) Examples.bar.
Proof.
  apply (edit_buttons_match_policies (Examples.signed_in Examples.elena)
           Examples.elena Examples.bar).
  repeat split; reflexivity.
Defined.

(** X24: approval publishes and rejection hides: once an owner has
    approved a stored tool (the store accepting the update), the row
    under its key is shown to every signed-in user of the same store;
    once an owner has rejected it, the row is shown to its creator and
    to owners only. *)
Theorem approval_publishes_rejection_hides (env : AdminPanel.StoreEnv)
    (w w2 : World) (p : AdminPanel.Panel) (a b : Profile) (sel r : AITool) :
  acts_as w a -> role a = owner ->
  AdminPanel.update_error env = None ->
  AdminPanel.selectedTool p = Some sel ->
  ToolsTable.lookup (tool_id sel) (db w) = Some r ->
  acts_as w2 b ->
  (db w2 = db (AdminPanel.handleApprove env (tool_id sel) w p).1 ->
   exists t, ToolsTable.lookup (tool_id sel) (db w2) = Some t
             /\ AIToolsList.canView w2 t = true)
  /\ (db w2 = db (AdminPanel.confirmReject env w p).1 ->
      exists t, ToolsTable.lookup (tool_id sel) (db w2) = Some t
                /\ (AIToolsList.canView w2 t = true <->
                    created_by r = Some (profile_id b) \/ role b = owner)).
Proof.
  intros Ha Hr Herr Hsel Hrow Hb. split; intros Hdb; rewrite Hdb.
  - rewrite (handleApprove_updates_row env w p a (tool_id sel) r Ha Hr Hrow Herr).
    eexists. split; [reflexivity |]. by rewrite (canView_unfold w2 b _ Hb).
  - rewrite (confirmReject_updates_row env w p a sel r Ha Hr Hsel Hrow Herr).
    eexists. split; [reflexivity |]. rewrite (canView_unfold w2 b _ Hb). simpl.
    rewrite orb_true_iff, !bool_decide_eq_true. done.
Qed.

Lemma approval_publishes_rejection_hides_witness :
  exists t,
    ToolsTable.lookup "t-foo"
      (db (AdminPanel.handleApprove Examples.store_env "t-foo"
             (Examples.signed_in Examples.ivan) MoreExamples.reject_modal).1)
    = Some t
    /\ AIToolsList.canView
         (set_auth_state (auth_state (Examples.signed_in Examples.elena))
            (AdminPanel.handleApprove Examples.store_env "t-foo"
               (Examples.signed_in Examples.ivan) MoreExamples.reject_modal).1)
         t = true.
Proof.
  refine (proj1 (approval_publishes_rejection_hides Examples.store_env
            (Examples.signed_in Examples.ivan)
            (set_auth_state (auth_state (Examples.signed_in Examples.elena))
               (AdminPanel.handleApprove Examples.store_env "t-foo"
                  (Examples.signed_in Examples.ivan) MoreExamples.reject_modal).1)
            MoreExamples.reject_modal Examples.ivan Examples.elena
            Examples.foo Examples.foo _ _ _ _ _ _) _);
    [repeat split; reflexivity | reflexivity | reflexivity | reflexivity
     | reflexivity | repeat split; reflexivity | reflexivity].
Defined.

(** ** Rating and reading the rating back *)

Lemma filter_none {A : Type} (q : A -> bool) (l : list A) :
  (forall x, x ∈ l -> q x = false) -> List.filter q l = [].
Proof.
  induction l as [|x l IH]; intros H; [done |]. simpl.
  rewrite (H x) by apply list_elem_of_here. apply IH.
  intros y Hy. apply H. by apply list_elem_of_further.
Qed.



(** ** Comments *)

(** X26: an owner is offered the edit button on somebody else's comment,
    but the store lets only the author update a comment: the owner's
    edit (a text that is not blank, no error from the store) leaves the
    table as it is, and the edit box closes as after a success. Deleting
    is different: on an approved tool the owner's confirmed delete
    removes the comment. *)
Theorem owner_edit_of_foreign_comment_is_lost (trim : string -> string) (w : World)
    (a : Profile) (table : list ToolComment) (b : ToolComments.Box)
    (c : ToolComment) :
  acts_as w a -> role a = owner ->
  c ∈ table ->
  (forall x, x ∈ table -> comment_id x = comment_id c ->
             comment_user_id x <> profile_id a) ->
  trim (ToolComments.editContent b) <> ""%string ->
  ToolComments.submitting b = false ->
  ToolComments.canEditComment w c = true
  /\ (ToolComments.handleEditComment trim false (comment_id c) w table b).1 = table
  /\ ToolComments.editingComment
       (ToolComments.handleEditComment trim false (comment_id c) w table b).2 = None
  /\ (RatingsTable.tool_approved (db w) (comment_tool_id c) = true ->
      c ∉ ToolComments.handleDeleteComment true false (comment_id c) w table).
Proof.
  intros Ha Hr Hc Hforeign Htrim Hsub.
  pose proof (is_owner_of_actor w a Ha) as Hown.
  destruct Ha as (Hauth & Hprof & _).
  split; [| split; [| split]].
  - unfold ToolComments.canEditComment, AIToolsList.owner_profile.
    rewrite Hprof, (bool_decide_eq_true_2 _ Hr). apply orb_true_r.
  - unfold ToolComments.handleEditComment.
    rewrite (bool_decide_eq_false_2 _ Htrim), Hsub. cbn [orb fst].
    apply map_if_never. intros x Hx.
    destruct (bool_decide (comment_id x = comment_id c)) eqn:Hid; [| done].
    apply bool_decide_eq_true_1 in Hid. unfold ToolComments.rls_update.
    rewrite Hauth, (bool_decide_eq_false_2 (Some (profile_id a)
                                            = Some (comment_user_id x)));
      [apply andb_false_r |].
    intros [= Heq]. by apply (Hforeign x Hx Hid).
  - unfold ToolComments.handleEditComment.
    by rewrite (bool_decide_eq_false_2 _ Htrim), Hsub.
  - intros Happ Hin. unfold ToolComments.handleDeleteComment in Hin.
    cbn [negb] in Hin. apply elem_of_filter_bool in Hin as [_ Hq].
    unfold ToolComments.rls_select, ToolComments.rls_delete in Hq.
    rewrite Hauth, Happ, Hown, (bool_decide_eq_true_2 _ Hr),
      (bool_decide_eq_true_2 _ eq_refl), orb_true_r in Hq.
    discriminate Hq.
Qed.

Lemma owner_edit_of_foreign_comment_is_lost_witness :
  (ToolComments.handleEditComment (fun s => s) false "c-1"
     (Examples.signed_in Examples.ivan) [MoreExamples.elena_comment]
     (ToolComments.mkBox "" (Some "c-1"%string) "Edited by the owner" false)).1
  = [MoreExamples.elena_comment].
Proof.
  refine (proj1 (proj2 (owner_edit_of_foreign_comment_is_lost (fun s => s)
            (Examples.signed_in Examples.ivan) Examples.ivan
            [MoreExamples.elena_comment]
            (ToolComments.mkBox "" (Some "c-1"%string) "Edited by the owner" false)
            MoreExamples.elena_comment _ _ _ _ _ _)));
    [repeat split; reflexivity | reflexivity | apply list_elem_of_here
     | | discriminate | reflexivity].
  intros x Hx _. apply list_elem_of_singleton in Hx. subst x. discriminate.
Defined.

(** X27: the comment handlers never store a blank comment and never
    touch authorship: if no stored comment is blank, none is after a
    submit, an edit or a delete, whatever the fields hold and whoever is
    signed in; an edit keeps the id, tool and author of every row; and a
    row that a submit adds carries the id of the signed-in user and the
    tool of the box. *)
Theorem comments_stay_signed_and_nonblank (trim : string -> string)
    (store_error confirmed : bool) (fid toolId commentId : string) (w : World)
    (table : list ToolComment) (b : ToolComments.Box) :
  Forall (fun c => content c <> ""%string) table ->
  Forall (fun c => content c <> ""%string)
    (ToolComments.handleSubmitComment trim store_error fid toolId w table b).1
  /\ Forall (fun c => content c <> ""%string)
       (ToolComments.handleEditComment trim store_error commentId w table b).1
  /\ Forall (fun c => content c <> ""%string)
       (ToolComments.handleDeleteComment confirmed store_error commentId w table)
  /\ map (fun c => (comment_id c, comment_tool_id c, comment_user_id c))
       (ToolComments.handleEditComment trim store_error commentId w table b).1
     = map (fun c => (comment_id c, comment_tool_id c, comment_user_id c)) table
  /\ (forall x,
        x ∈ (ToolComments.handleSubmitComment trim store_error fid toolId w table b).1 ->
        x ∈ table
        \/ (ToolsTable.auth_uid w = Some (comment_user_id x)
            /\ comment_tool_id x = toolId)).
Proof.
  intros Hok. split; [| split; [| split; [| split]]].
  - unfold ToolComments.handleSubmitComment.
    destruct (user (auth_state w)) as [u|]; [| done].
    case_bool_decide as Hblank; [done |]. cbn [orb].
    destruct (ToolComments.submitting b); [done |].
    destruct store_error; [done |]. cbn [fst].
    apply Forall_app. split; [done |]. by apply Forall_singleton.
  - unfold ToolComments.handleEditComment.
    case_bool_decide as Hblank; [done |]. cbn [orb].
    destruct (ToolComments.submitting b); [done |].
    destruct store_error; [done |]. cbn [fst].
    apply Forall_forall. intros x Hx.
    destruct (elem_of_map_inv _ _ _ Hx) as (y & Hy & <-).
    destruct (_ && _); [done |]. by apply (proj1 (Forall_forall _ _) Hok).
  - unfold ToolComments.handleDeleteComment.
    destruct confirmed; [| done]. destruct store_error; [done |]. cbn [negb].
    apply Forall_forall. intros x Hx. apply elem_of_filter_bool in Hx as [Hx _].
    by apply (proj1 (Forall_forall _ _) Hok).
  - unfold ToolComments.handleEditComment.
    destruct (_ || _); [done |]. destruct store_error; [done |]. cbn [fst].
    rewrite map_map. apply List.map_ext. intros x. by destruct (_ && _).
  - intros x. unfold ToolComments.handleSubmitComment, ToolsTable.auth_uid.
    destruct (user (auth_state w)) as [u|]; [| by left].
    destruct (_ || _); [by left |]. destruct store_error; [by left |]. cbn [fst].
    intros Hx. apply elem_of_app in Hx as [Hx | Hx]; [by left |].
    apply list_elem_of_singleton in Hx. subst x. by right.
Qed.

Lemma comments_stay_signed_and_nonblank_witness :
  Forall (fun c => content c <> ""%string)
    (ToolComments.handleSubmitComment (fun s => s) false "c-2" "t-bar"
       (Examples.signed_in Examples.petar) [MoreExamples.elena_comment]
       (ToolComments.mkBox "Agreed" None "" false)).1.
Proof.
  apply (comments_stay_signed_and_nonblank (fun s => s) false true "c-2" "t-bar"
           "c-1" (Examples.signed_in Examples.petar) [MoreExamples.elena_comment]
           (ToolComments.mkBox "Agreed" None "" false)).
  apply Forall_cons_2; [discriminate | apply Forall_nil_2].
Defined.

(** ** Editing a tool *)

Lemma lookup_elem (toolId : string) (d : Database) (r : AITool) :
  ToolsTable.lookup toolId d = Some r -> r ∈ ai_tools d /\ tool_id r = toolId.
Proof.
  unfold ToolsTable.lookup. intros H. destruct (find_some _ _ H) as [Hin Hid].
  split; [by apply list_elem_of_In | by apply bool_decide_eq_true_1 in Hid].
Qed.

Lemma existsb_elem {A : Type} (q : A -> bool) (l : list A) (x : A) :
  x ∈ l -> q x = true -> existsb q l = true.
Proof.
  intros Hx Hq. apply existsb_exists. exists x.
  split; [by apply list_elem_of_In | done].
Qed.

Lemma handleRoleToggle_NoDup (r : Role) (roles : list Role) :
  NoDup roles -> NoDup (AIToolFormRest.handleRoleToggle r roles).
Proof.
  intros H. unfold AIToolFormRest.handleRoleToggle. case_bool_decide as Hin.
  - rewrite <- (map_id (List.filter _ roles)). apply NoDup_map_filter.
    by rewrite map_id.
  - apply NoDup_app. split; [done |]. split; [| apply NoDup_singleton].
    intros x Hx Hx'. apply list_elem_of_singleton in Hx'. by subst x.
Qed.

(** X28: an edit by the creator of a tool or by an owner, accepted by the
    store and with no role chosen twice, changes its name and its role
    tags and nothing else: the row keeps its status, its
    approval columns and its rejection reason (an approved tool stays
    approved, a rejected one rejected), every row keeps key and creator,
    the role tags of the tool become the chosen roles, and the tags of
    other tools stay. *)
Theorem edit_changes_name_and_roles_only (env : AdminPanel.StoreEnv) (tool : AITool)
    (name : string) (chosen : list Role) (w : World) (table : list ToolRole)
    (a : Profile) (r : AITool) :
  acts_as w a ->
  role a = owner \/ created_by r = Some (profile_id a) ->
  AdminPanel.update_error env = None ->
  ToolsTable.lookup (tool_id tool) (db w) = Some r ->
  NoDup chosen ->
  ToolsTable.lookup (tool_id tool)
    (db (AIToolFormRest.handleSubmit_edit env tool name chosen w table).1)
  = Some (AIToolFormRest.edit_patch name r)
  /\ map (fun t => (tool_id t, created_by t, status t, approved_by t, approved_at t,
                    rejection_reason t))
       (ai_tools (db (AIToolFormRest.handleSubmit_edit env tool name chosen w table).1))
     = map (fun t => (tool_id t, created_by t, status t, approved_by t, approved_at t,
                      rejection_reason t))
         (ai_tools (db w))
  /\ List.filter (fun x => bool_decide (tr_tool_id x = tool_id tool))
       (AIToolFormRest.handleSubmit_edit env tool name chosen w table).2
     = map (mkToolRole (tool_id tool)) chosen
  /\ List.filter (fun x => negb (bool_decide (tr_tool_id x = tool_id tool)))
       (AIToolFormRest.handleSubmit_edit env tool name chosen w table).2
     = List.filter (fun x => negb (bool_decide (tr_tool_id x = tool_id tool))) table.
Proof.
  intros Ha Hright Herr Hrow Hnd.
  pose proof (is_owner_of_actor w a Ha) as Hown.
  destruct (actor_user w a Ha) as (u & Hu & Huid).
  destruct (lookup_elem _ _ _ Hrow) as [Hin Hid].
  assert (Hauth : ToolsTable.auth_uid w = Some (profile_id a)) by apply Ha.
  assert (Hrls : ToolsTable.rls_update (db w) (ToolsTable.auth_uid w) r = true).
  { unfold ToolsTable.rls_update. rewrite Hauth, Hown.
    destruct Hright as [Hr | Hc].
    - rewrite (bool_decide_eq_true_2 _ Hr). apply orb_true_r.
    - by rewrite (bool_decide_eq_true_2 _ Hc). }
  unfold AIToolFormRest.handleSubmit_edit. rewrite Hu, Herr.
  rewrite (existsb_elem _ _ r Hin)
    by (by rewrite (bool_decide_eq_true_2 _ Hid), Hrls).
  unfold AdminPanel.invalidatePattern, set_cache. cbn [fst snd db].
  unfold ToolsTable.lookup. rewrite log_keeps_tools. cbn [db set_db].
  fold (ToolsTable.lookup (tool_id tool)
          (ToolsTable.update_where_id (ToolsTable.auth_uid w) (tool_id tool)
             (AIToolFormRest.edit_patch name) (db w))).
  assert (Hroles : AIToolFormRest.rls_roles
            (ToolsTable.update_where_id (ToolsTable.auth_uid w) (tool_id tool)
               (AIToolFormRest.edit_patch name) (db w))
            (ToolsTable.auth_uid w) (tool_id tool) = true).
  { unfold AIToolFormRest.rls_roles. rewrite Hauth.
    destruct Hright as [Hr | Hc].
    - unfold is_owner in *. cbn [profiles ToolsTable.update_where_id set_ai_tools].
      rewrite Hown, (bool_decide_eq_true_2 _ Hr). apply orb_true_r.
    - apply orb_true_iff. left.
      apply (existsb_elem _ _ (AIToolFormRest.edit_patch name r)).
      + unfold ToolsTable.update_where_id. cbn [ai_tools set_ai_tools].
        apply list_elem_of_In, in_map_iff. exists r.
        split; [| by apply list_elem_of_In].
        rewrite Hauth in Hrls. by rewrite (bool_decide_eq_true_2 _ Hid), Hrls.
      + simpl. by rewrite (bool_decide_eq_true_2 _ Hid), (bool_decide_eq_true_2 _ Hc). }
  unfold AIToolFormRest.replace_roles. rewrite Hroles.
  rewrite (bool_decide_eq_true_2 _ Hnd). cbv zeta.
  split; [| split; [| split]].
  - by apply lookup_update_where_id.
  - unfold ToolsTable.update_where_id. cbn [ai_tools set_ai_tools].
    rewrite map_map. apply List.map_ext. intros t. by destruct (_ && _).
  - rewrite List.filter_app, filter_after_negb. cbn [app].
    induction chosen as [|x l IH]; [done |]. simpl.
    rewrite (bool_decide_eq_true_2 _ eq_refl). f_equal. apply IH.
    by apply NoDup_cons in Hnd as [_ Hnd].
  - rewrite List.filter_app.
    rewrite (filter_none _ (map _ chosen)).
    + rewrite app_nil_r. clear. induction table as [|x l IH]; [done |]. simpl.
      destruct (bool_decide _) eqn:E; simpl; [done |]. rewrite E. simpl.
      by rewrite IH.
    + intros x Hx. destruct (elem_of_map_inv _ _ _ Hx) as (y & _ & <-). simpl.
      by rewrite (bool_decide_eq_true_2 _ eq_refl).
Qed.

Lemma edit_changes_name_and_roles_only_witness :
  ToolsTable.lookup "t-foo"
    (db (AIToolFormRest.handleSubmit_edit Examples.store_env Examples.foo "Foo 2"
           [backend; frontend] (Examples.signed_in Examples.petar) []).1)
  = Some (mkTool "t-foo" "Foo 2" (Some "u-petar"%string) pending None None None).
Proof.
  refine (proj1 (edit_changes_name_and_roles_only Examples.store_env Examples.foo
            "Foo 2" [backend; frontend] (Examples.signed_in Examples.petar) []
            Examples.petar Examples.foo _ _ _ _ _));
    [repeat split; reflexivity | right; reflexivity | reflexivity | reflexivity |].
  apply (bool_decide_unpack _). vm_compute. exact I.
Defined.

(** ** The average and its stars *)

Lemma sum_in_range (l : list ToolRating) :
  Forall (fun r => 1 <= rating r <= 5) l ->
  Z.of_nat (length l) <= foldr Z.add 0 (map rating l) <= 5 * Z.of_nat (length l).
Proof.
  induction 1 as [|r l Hr _ IH]; [simpl; lia |].
  cbn [length map foldr]. lia.
Qed.

Lemma averageRating_in_range (l : list ToolRating) :
  l <> [] -> Forall (fun r => 1 <= rating r <= 5) l ->
  (1 <= AIToolsList.averageRating l <= 5)%Q.
Proof.
  intros Hl Hok. rewrite (averageRating_mean l Hl). unfold AIToolsList.mean.
  pose proof (sum_in_range l Hok) as [Hlo Hhi].
  assert (Hn : (0 < inject_Z (Z.of_nat (length l)))%Q).
  { change 0%Q with (inject_Z 0). rewrite <- Zlt_Qlt. destruct l; [done | simpl; lia]. }
  split.
  - apply Qle_shift_div_l; [done |]. rewrite Qmult_1_l. by rewrite <- Zle_Qle.
  - apply Qle_shift_div_r; [done |]. change 5%Q with (inject_Z 5).
    rewrite <- inject_Z_mult. by rewrite <- Zle_Qle.
Qed.

Lemma Qle_bool_floor (k : Z) (q : Q) :
  Qle_bool (inject_Z k) q = (k <=? Qfloor q).
Proof.
  apply Bool.eq_iff_eq_true. rewrite Qle_bool_iff, Z.leb_le. split.
  - intros H. rewrite <- (Qfloor_Z k). by apply Qfloor_resp_le.
  - intros H. apply Qle_trans with (inject_Z (Qfloor q)).
    + by rewrite <- Zle_Qle.
    + apply Qfloor_le.
Qed.

(** X29: what the list shows as the rating of a tool: with no rating to
    read the average is 0 and no star is filled; otherwise, the stored
    ratings being between 1 and 5, the average lies between 1 and 5 and
    the first star is filled; and in every case the filled stars are
    those up to the integer part of the average (4.9 fills four). *)
Theorem shown_average_and_stars (throws : bool) (w : World) (toolId : string) :
  Forall (fun r => 1 <= rating r <= 5) (tool_ratings (db w)) ->
  (AIToolsList.total_ratings (AIToolsList.aggregate throws w toolId) = 0%nat ->
   AIToolsList.average_rating (AIToolsList.aggregate throws w toolId) = 0%Q
   /\ ToolRatingRest.renderStars
        (AIToolsList.average_rating (AIToolsList.aggregate throws w toolId))
      = [false; false; false; false; false])
  /\ (AIToolsList.total_ratings (AIToolsList.aggregate throws w toolId) <> 0%nat ->
      (1 <= AIToolsList.average_rating (AIToolsList.aggregate throws w toolId) <= 5)%Q
      /\ head (ToolRatingRest.renderStars
                 (AIToolsList.average_rating
                    (AIToolsList.aggregate throws w toolId)))
         = Some true)
  /\ (forall q, ToolRatingRest.renderStars q
                = map (fun k => k <=? Qfloor q) [1; 2; 3; 4; 5]).
Proof.
  intros Hok. unfold AIToolsList.aggregate.
  destruct throws; cbn [AIToolsList.total_ratings AIToolsList.average_rating].
  - split; [done |]. split; [done |]. intros q. unfold ToolRatingRest.renderStars.
    simpl. by rewrite !Qle_bool_floor.
  - set (rows := RatingsTable.select_by_tool _ _ _).
    assert (Hrows : Forall (fun r => 1 <= rating r <= 5) rows).
    { apply Forall_forall. intros x Hx. unfold rows, RatingsTable.select_by_tool in Hx.
      apply elem_of_filter_bool in Hx as [Hx _].
      by apply (proj1 (Forall_forall _ _) Hok). }
    clearbody rows. split; [| split].
    + intros Hlen. destruct rows; [done | discriminate Hlen].
    + intros Hlen. assert (Hne : rows <> []) by (by destruct rows).
      pose proof (averageRating_in_range rows Hne Hrows) as [Hlo Hhi].
      split; [done |]. unfold ToolRatingRest.renderStars. cbn [map head].
      f_equal. by apply Qle_bool_iff.
    + intros q. unfold ToolRatingRest.renderStars. simpl.
      by rewrite !Qle_bool_floor.
Qed.

Lemma shown_average_and_stars_witness :
  (1 <= AIToolsList.average_rating
          (AIToolsList.aggregate false (Examples.rated_world Examples.elena) "t-bar")
   <= 5)%Q.
Proof.
  refine (proj1 (proj1 (proj2 (shown_average_and_stars false
            (Examples.rated_world Examples.elena) "t-bar" _)) _)).
  - repeat (apply Forall_cons_2; [simpl; lia |]). apply Forall_nil_2.
  - discriminate.
Defined.

(** ** The counters of the panel *)

Lemma filter_all {A : Type} (q : A -> bool) (l : list A) :
  (forall x, x ∈ l -> q x = true) -> List.filter q l = l.
Proof.
  induction l as [|x l IH]; intros H; [done |]. simpl.
  rewrite (H x) by apply list_elem_of_here. f_equal. apply IH.
  intros y Hy. apply H. by apply list_elem_of_further.
Qed.

Lemma count_status_cons (s : ToolStatus) (t : AITool) (l : list AITool) :
  AdminPanelRest.count_status s (t :: l)
  = ((if bool_decide (status t = s) then 1 else 0)
     + AdminPanelRest.count_status s l)%nat.
Proof.
  unfold AdminPanelRest.count_status. simpl. by destruct (bool_decide _).
Qed.

Lemma count_status_total (l : list AITool) :
  (AdminPanelRest.count_status pending l + AdminPanelRest.count_status approved l
   + AdminPanelRest.count_status rejected l)%nat = length l.
Proof.
  induction l as [|t l IH]; [done |]. rewrite !count_status_cons. simpl.
  destruct (status t); simpl; lia.
Qed.

(** Patching the one row under a key moves one unit from the counter of
    its old status to that of its new status. *)
Lemma count_status_patch (toolId : string) (g : AITool -> AITool) (s1 : ToolStatus)
    (l : list AITool) (r : AITool) (s : ToolStatus) :
  (forall t, status (g t) = s1) ->
  NoDup (map tool_id l) -> r ∈ l -> tool_id r = toolId ->
  (AdminPanelRest.count_status s
     (map (fun t => if bool_decide (tool_id t = toolId) then g t else t) l)
   + (if bool_decide (status r = s) then 1 else 0))%nat
  = (AdminPanelRest.count_status s l + (if bool_decide (s1 = s) then 1 else 0))%nat.
Proof.
  intros Hg. induction l as [|x l IH]; intros Hnd Hr Hid.
  - by apply elem_of_nil in Hr.
  - cbn [map] in *. apply NoDup_cons in Hnd as [Hx Hnd]. rewrite !count_status_cons.
    destruct (decide (tool_id x = toolId)) as [Hxid | Hxid];
      [rewrite (bool_decide_eq_true_2 _ Hxid) | rewrite (bool_decide_eq_false_2 _ Hxid)].
    + assert (Hl : forall y, y ∈ l -> bool_decide (tool_id y = toolId) = false).
      { intros y Hy. apply bool_decide_eq_false_2. intros Hy'. apply Hx.
        rewrite Hxid, <- Hy'. apply list_elem_of_In, in_map. by apply list_elem_of_In. }
      assert (r = x) as ->.
      { apply elem_of_cons in Hr as [-> | Hr]; [done |].
        pose proof (Hl r Hr) as Hf.
        by rewrite (bool_decide_eq_true_2 _ Hid) in Hf. }
      rewrite (map_if_never _ g l Hl), Hg. lia.
    + apply elem_of_cons in Hr as [-> | Hr]; [done |].
      specialize (IH Hnd Hr Hid). lia.
Qed.

(** X30: the three counters of the panel (pending, approved, rejected)
    always add up to the number of tools listed; and when an owner
    approves a pending tool, ids being unique and the store accepting
    the update and the reload, the reloaded panel counts
    one pending tool less, one approved tool more, and as many rejected
    ones as the store held. *)
Theorem approval_moves_one_tool_between_counters (env : AdminPanel.StoreEnv)
    (w : World) (p : AdminPanel.Panel) (a : Profile) (toolId : string) (r : AITool) :
  acts_as w a -> role a = owner ->
  AdminPanel.update_error env = None -> AdminPanel.fetch_error env = false ->
  NoDup (map tool_id (ai_tools (db w))) ->
  ToolsTable.lookup toolId (db w) = Some r -> status r = pending ->
  (AdminPanelRest.count_status pending
     (AdminPanel.tools (AdminPanel.handleApprove env toolId w p).2) + 1)%nat
  = AdminPanelRest.count_status pending (ai_tools (db w))
  /\ AdminPanelRest.count_status approved
       (AdminPanel.tools (AdminPanel.handleApprove env toolId w p).2)
     = (AdminPanelRest.count_status approved (ai_tools (db w)) + 1)%nat
  /\ AdminPanelRest.count_status rejected
       (AdminPanel.tools (AdminPanel.handleApprove env toolId w p).2)
     = AdminPanelRest.count_status rejected (ai_tools (db w))
  /\ (AdminPanelRest.count_status pending
        (AdminPanel.tools (AdminPanel.handleApprove env toolId w p).2)
      + AdminPanelRest.count_status approved
          (AdminPanel.tools (AdminPanel.handleApprove env toolId w p).2)
      + AdminPanelRest.count_status rejected
          (AdminPanel.tools (AdminPanel.handleApprove env toolId w p).2))%nat
     = length (AdminPanel.tools (AdminPanel.handleApprove env toolId w p).2).
Proof.
  intros Ha Hr Herr Hfetch Hnd Hrow Hpending.
  destruct (lookup_elem _ _ _ Hrow) as [Hin Hid].
  destruct (handleApprove_tables env toolId w p) as (Ht & _ & Hp & Hau).
  rewrite Herr in Ht.
  assert (Ha' : acts_as (AdminPanel.handleApprove env toolId w p).1 a)
    by (by apply (acts_as_transfer w)).
  assert (Htools : AdminPanel.tools (AdminPanel.handleApprove env toolId w p).2
            = map (fun t => if bool_decide (tool_id t = toolId)
                            then AdminPanel.approve_patch (ToolsTable.auth_uid w)
                                   (AdminPanel.st_now env) t
                            else t)
                (ai_tools (db w))).
  { assert (Hsnd : (AdminPanel.handleApprove env toolId w p).2
              = AdminPanel.fetchTools env (AdminPanel.handleApprove env toolId w p).1 p).
    { unfold AdminPanel.handleApprove. by rewrite Herr. }
    rewrite Hsnd. unfold AdminPanel.fetchTools. rewrite Hfetch.
    cbn [AdminPanel.tools]. unfold ToolsTable.select_all.
    rewrite filter_all.
    - rewrite Ht. unfold ToolsTable.update_where_id. cbn [ai_tools set_ai_tools].
      apply List.map_ext. intros t.
      by rewrite (owner_may_update w a t Ha Hr), andb_true_r.
    - intros t _. unfold ToolsTable.rls_select.
      rewrite (proj1 Ha'), (is_owner_of_actor _ a Ha'), (bool_decide_eq_true_2 _ Hr).
      apply orb_true_r. }
  rewrite Htools.
  pose proof (count_status_patch toolId
                (AdminPanel.approve_patch (ToolsTable.auth_uid w) (AdminPanel.st_now env))
                approved (ai_tools (db w)) r) as Hcount.
  pose proof (Hcount pending (fun _ => eq_refl) Hnd Hin Hid) as Hpe.
  pose proof (Hcount approved (fun _ => eq_refl) Hnd Hin Hid) as Hap.
  pose proof (Hcount rejected (fun _ => eq_refl) Hnd Hin Hid) as Hre.
  rewrite Hpending in Hpe, Hap, Hre. simpl in Hpe, Hap, Hre.
  split; [lia |]. split; [lia |]. split; [lia |]. apply count_status_total.
Qed.

Lemma approval_moves_one_tool_between_counters_witness :
  AdminPanelRest.count_status approved
    (AdminPanel.tools
       (AdminPanel.handleApprove Examples.store_env "t-foo"
          (Examples.signed_in Examples.ivan) Examples.panel).2)
  = 2%nat.
Proof.
  refine (proj1 (proj2 (approval_moves_one_tool_between_counters Examples.store_env
            (Examples.signed_in Examples.ivan) Examples.panel Examples.ivan "t-foo"
            Examples.foo _ _ _ _ _ _ _)));
    [repeat split; reflexivity | reflexivity | reflexivity | reflexivity
     | | reflexivity | reflexivity].
  apply (bool_decide_unpack _). vm_compute. exact I.
Defined.
